(** * real-favicon: the generation-and-persistence pipeline

    A shallow embedding of [src/core/generate.ts] (the core generator
    [generateFavicons]) and of the two adapters, [src/adapters/node.ts]
    ([generateFaviconsNode]) and [src/adapters/vite.ts] ([realFavicon]).

    The generator has no return value: its contract is the sequence of
    effects it performs (filesystem calls, collaborator calls, hook calls)
    and whether it ends normally or with an exception.  The embedding is
    therefore a function from the request and an environment to the list of
    events of the invocation and its outcome. *)

From Stdlib Require Import ZArith Ascii.
From stdpp Require Import gmap strings list fin_maps.

Local Open Scope string_scope.
Local Open Scope list_scope.

(** ** JavaScript values *)

(** The values the generator inspects.  Objects (the [hooks] record, nested
    settings objects, the image adapter) are known by reference only;
    numbers are the integers, which is all truthiness needs. *)
Inductive JsVal : Type :=
  | JUndefined
  | JNull
  | JBool (b : bool)
  | JNum (n : Z)
  | JStr (s : string)
  | JRef (r : nat).

#[global] Instance JsVal_eq_dec : EqDecision JsVal.
Proof. solve_decision. Defined.

(** JavaScript truthiness, as used by [!source], [if (skipIfExists)],
    [options.rootDir ? ... : undefined]. *)
Definition truthy (v : JsVal) : bool :=
  match v with
  | JUndefined | JNull => false
  | JBool b => b
  | JNum n => negb (n =? 0)%Z
  | JStr s => negb (String.eqb s "")
  | JRef _ => true
  end.

(** An object is the finite map of its own enumerable properties. *)
Abbreviation JsObject := (gmap string JsVal).

(** Reading a property: a missing property reads as [undefined]. *)
Definition get (o : JsObject) (k : string) : JsVal :=
  default JUndefined (o !! k).

(** A destructuring default ([skipIfExists = true]) applies when the
    property is missing or holds [undefined]. *)
Definition get_default (o : JsObject) (k : string) (d : JsVal) : JsVal :=
  match o !! k with
  | None | Some JUndefined => d
  | Some v => v
  end.

(** ** Errors and results *)

(** The three [throw new Error(...)] statements of [generateFavicons]. *)
Inductive ConfigMsg : Type :=
  | SourceRequired      (* real-favicon: "source" icon path is required *)
  | OutputDirRequired   (* real-favicon: "outputDir" is required *)
  | RootDirRequired.    (* real-favicon: "rootDir" is required when copyIcoToRoot is enabled *)

Inductive Error : Type :=
  | ConfigError (m : ConfigMsg)
  | TypeError (fn : string)    (* node:path called on a value that is not a string *)
  | Thrown (v : JsVal).        (* thrown by the filesystem, a collaborator or a hook *)

(** What a call that leaves the generator comes back with. *)
Inductive Answer (A : Type) : Type :=
  | Returns (a : A)
  | Throws (v : JsVal).
Arguments Returns {A} a.
Arguments Throws {A} v.

Inductive Result (A : Type) : Type :=
  | Ok (a : A)
  | Err (e : Error).
Arguments Ok {A} a.
Arguments Err {A} e.

Definition is_ok {A} (r : Result A) : bool :=
  match r with Ok _ => true | Err _ => false end.

(** [await]-ing (or calling) something that throws rethrows what it threw. *)
Definition lift {A} (a : Answer A) : Result A :=
  match a with
  | Returns x => Ok x
  | Throws v => Err (Thrown v)
  end.

(** ** Collaborator data *)

(** [masterIcon = { icon: await loadAndConvertToSvg(source) }] *)
Record MasterIcon : Type := { icon : JsVal }.

(** The content of a generated file: Blob, string, or Uint8Array / Buffer.
    A Blob is known by the bytes its [arrayBuffer()] resolves with. *)
Inductive Content : Type :=
  | CBlob (bytes : list Byte.byte)
  | CString (s : string)
  | CBytes (bytes : list Byte.byte).

(** [Buffer.from(s, 'utf-8')]: strings are sequences of bytes here. *)
Definition utf8 (s : string) : list Byte.byte := String.list_byte_of_string s.

(** What [fs.writeFile] is given: a Buffer, or a string with encoding 'utf-8'. *)
Inductive FileData : Type :=
  | Buffer (bytes : list Byte.byte)
  | Utf8Text (s : string).

(** ** Events *)

Inductive HookName : Type :=
  | OnStart | OnSkipFiles | OnFileWritten | OnHtmlWritten | OnIcoCopied.

(** One event per call that leaves the generator, with its result.
    [EvMkdir p] is [fs.mkdir(p, { recursive: true })], the only form used.
    A write of step 7 runs concurrently with the others, so [fs.writeFile]
    is split into the call ([EvWriteFile]) and its completion
    ([EvWriteDone]). *)
Inductive Event : Type :=
  | EvHook (h : HookName) (args : list JsVal) (r : Answer unit)
  | EvAccess (p : JsVal) (r : Answer unit)
  | EvMkdir (p : JsVal) (r : Answer unit)
  | EvLoadSvg (src : JsVal) (r : Answer JsVal)
  | EvGetAdapter (r : Answer JsVal)
  | EvGenerateFiles (m : MasterIcon) (settings : JsObject) (adapter : JsVal)
                    (r : Answer (list (string * Content)))
  | EvWriteFile (p : JsVal) (d : FileData)
  | EvWriteDone (p : JsVal) (r : Answer unit)
  | EvCopyFile (src dst : string) (r : Answer unit)
  | EvGenerateHtml (settings : JsObject) (r : Answer (list string)).

Abbreviation Trace := (list Event).

(** ** The environment *)

(** A hook is a function of the caller; what it does may depend on what has
    happened so far. *)
Definition HookFn : Type := Trace -> list JsVal -> Answer unit.

(** [GenerateFaviconsHooks]: five optional slots, each a function when
    present. *)
Record GenerateFaviconsHooks : Type := {
  onStart       : option HookFn;
  onSkipFiles   : option HookFn;
  onFileWritten : option HookFn;
  onHtmlWritten : option HookFn;
  onIcoCopied   : option HookFn;
}.

Definition no_hooks : GenerateFaviconsHooks :=
  {| onStart := None; onSkipFiles := None; onFileWritten := None;
     onHtmlWritten := None; onIcoCopied := None |}.

(** Everything outside the repository: [node:fs/promises], [node:path],
    [process.cwd()], the two [@realfavicongenerator] packages, the heap
    object a reference to a hook record points to, and the order in which
    the concurrent tasks of step 7 are resumed.  Each call is answered from
    the history of the invocation and the call's arguments. *)
Record Env : Type := {
  heap : nat -> GenerateFaviconsHooks;
  fs_access : Trace -> JsVal -> Answer unit;
  fs_mkdir : Trace -> JsVal -> Answer unit;
  fs_writeFile : Trace -> JsVal -> FileData -> Answer unit;
  fs_copyFile : Trace -> string -> string -> Answer unit;
  loadAndConvertToSvg : Trace -> JsVal -> Answer JsVal;
  getNodeImageAdapter : Trace -> Answer JsVal;
  generateFaviconFiles :
    Trace -> MasterIcon -> JsObject -> JsVal -> Answer (list (string * Content));
  generateFaviconHtml : Trace -> JsObject -> Answer (list string);
  join : string -> string -> string;       (* path.join *)
  dirname : string -> string;              (* path.dirname *)
  resolve : string -> string -> string;    (* path.resolve *)
  cwd : string;                            (* process.cwd() *)
  schedule : Trace -> list nat;            (* indices of the tasks to resume *)
}.

(** ** The effect monad *)

(** A computation reads the history and returns the events it adds and
    either a value or the exception it ends with. *)
Definition M (A : Type) : Type := Trace -> list Event * Result A.

Definition ret {A} (a : A) : M A := fun _ => ([], Ok a).

Definition throw {A} (e : Error) : M A := fun _ => ([], Err e).

Definition bind {A B} (m : M A) (k : A -> M B) : M B := fun tr =>
  match m tr with
  | (evs, Ok a) => let '(evs', r) := k a (tr ++ evs) in (evs ++ evs', r)
  | (evs, Err e) => (evs, Err e)
  end.

Declare Scope fav_scope.
Delimit Scope fav_scope with fav.
Notation "x <- m ;; k" := (bind m (fun x => k))
  (at level 100, m at next level, right associativity) : fav_scope.
Notation "m ;; k" := (bind m (fun _ => k))
  (at level 100, right associativity) : fav_scope.
Local Open Scope fav_scope.

(** [try { m } catch { h }] *)
Definition try_catch {A} (m : M A) (h : M A) : M A := fun tr =>
  match m tr with
  | (evs, Ok a) => (evs, Ok a)
  | (evs, Err _) => let '(evs', r) := h (tr ++ evs) in (evs ++ evs', r)
  end.

(** An awaited call: one event carrying the answer. *)
Definition perform {A} (answer : Trace -> Answer A) (ev : Answer A -> Event) : M A :=
  fun tr => let a := answer tr in ([ev a], lift a).

(** Running an invocation from the empty history. *)
Definition run {A} (m : M A) : Trace * Result A := m [].

(** ** The core generator, [src/core/generate.ts] *)

(** The properties named in the destructuring pattern of [generateFavicons];
    [...faviconSettings] collects every other own property of [options]. *)
Definition orchestration_keys : list string :=
  ["source"; "outputDir"; "htmlOutput"; "skipIfExists"; "copyIcoToRoot";
   "rootDir"; "hooks"].

Definition faviconSettings (options : JsObject) : JsObject :=
  foldr delete options orchestration_keys.

Definition slot (h : GenerateFaviconsHooks) (n : HookName) : option HookFn :=
  match n with
  | OnStart => onStart h
  | OnSkipFiles => onSkipFiles h
  | OnFileWritten => onFileWritten h
  | OnHtmlWritten => onHtmlWritten h
  | OnIcoCopied => onIcoCopied h
  end.

(** A task of step 7: the body of the [async] function mapped over
    [Object.entries(files)], between two of its [await]s. *)
Inductive Task : Type :=
  | TBlob (target : string) (bytes : list Byte.byte)
      (* suspended at [await fileContent.arrayBuffer()] *)
  | TWrite (target : string) (data : list Byte.byte)
      (* suspended at [await fs.writeFile(targetPath, data)] *)
  | TDone (r : Result unit).
      (* the promise is settled *)

Definition task_error (t : Task) : option Error :=
  match t with
  | TDone (Err e) => Some e
  | _ => None
  end.

(** [Promise.all] rejects with the first rejection it is told of; promises
    already rejected when it subscribes are told in index order. *)
Fixpoint first_rejection (ts : list Task) : option Error :=
  match ts with
  | [] => None
  | t :: ts' =>
      match task_error t with
      | Some e => Some e
      | None => first_rejection ts'
      end
  end.

Section Generator.

Variable E : Env.

(** [hooks?.onX] : nothing to call when [hooks] is nullish, is not an
    object, or has no such slot. *)
Definition hook_slot (hooks : JsVal) (n : HookName) : option HookFn :=
  match hooks with
  | JRef r => slot (heap E r) n
  | _ => None
  end.

(** [hooks?.onX?.(args)] *)
Definition callHook (hooks : JsVal) (n : HookName) (args : list JsVal) : M unit :=
  fun tr =>
    match hook_slot hooks n with
    | None => ([], Ok tt)
    | Some f => let a := f tr args in ([EvHook n args a], lift a)
    end.

(** [path.join(a, b)] and [path.dirname(p)] throw a TypeError on anything
    but strings. *)
Definition path_join (a b : JsVal) : M string :=
  match a, b with
  | JStr x, JStr y => ret (join E x y)
  | _, _ => throw (TypeError "path.join")
  end.

Definition path_dirname (p : JsVal) : M string :=
  match p with
  | JStr x => ret (dirname E x)
  | _ => throw (TypeError "path.dirname")
  end.

(** *** Step 7: [await Promise.all(Object.entries(files).map(async ...))] *)

(** The part of the mapped function that runs inside [map], up to its first
    [await]: the target path is computed; a Blob suspends on
    [arrayBuffer()], the two other shapes are turned into a Buffer and
    [fs.writeFile] is called. *)
Definition start_task (outputDir : JsVal) (entry : string * Content)
  : list Event * Task :=
  let '(fileName, fileContent) := entry in
  match outputDir with
  | JStr dir =>
      let targetPath := join E dir fileName in
      match fileContent with
      | CBlob b => ([], TBlob targetPath b)
      | CString s =>
          ([EvWriteFile (JStr targetPath) (Buffer (utf8 s))],
           TWrite targetPath (utf8 s))
      | CBytes b =>
          ([EvWriteFile (JStr targetPath) (Buffer b)], TWrite targetPath b)
      end
  | _ => ([], TDone (Err (TypeError "path.join")))
  end.

Fixpoint start_tasks (outputDir : JsVal) (entries : list (string * Content))
  : list Event * list Task :=
  match entries with
  | [] => ([], [])
  | entry :: entries' =>
      let '(evs, t) := start_task outputDir entry in
      let '(evs', ts) := start_tasks outputDir entries' in
      (evs ++ evs', t :: ts)
  end.

(** Resuming a suspended task until its next [await] or its end. *)
Definition step_task (hooks : JsVal) (t : Task) (tr : Trace)
  : list Event * Task :=
  match t with
  | TBlob target b =>
      ([EvWriteFile (JStr target) (Buffer b)], TWrite target b)
  | TWrite target data =>
      let a := fs_writeFile E tr (JStr target) (Buffer data) in
      match a with
      | Throws v => ([EvWriteDone (JStr target) a], TDone (Err (Thrown v)))
      | Returns _ =>
          let tr' := tr ++ [EvWriteDone (JStr target) a] in
          let '(evs, r) := callHook hooks OnFileWritten [JStr target] tr' in
          (EvWriteDone (JStr target) a :: evs, TDone r)
      end
  | TDone r => ([], TDone r)
  end.

(** The tasks are resumed in the order [sched] names them.  [rej] is the
    rejection [Promise.all] has settled with, if any.  With [background]
    the tasks go on after that rejection (nothing cancels them); without
    it the run stops there. *)
Fixpoint run_schedule (background : bool) (hooks : JsVal) (sched : list nat)
    (ts : list Task) (rej : option Error) (tr : Trace)
  : list Event * (list Task * option Error) :=
  match sched with
  | [] => ([], (ts, rej))
  | i :: sched' =>
      if negb background && bool_decide (is_Some rej) then ([], (ts, rej))
      else
        match ts !! i with
        | None => run_schedule background hooks sched' ts rej tr
        | Some t =>
            let '(evs, t') := step_task hooks t tr in
            let rej' := match rej with
                        | Some e => Some e
                        | None => task_error t'
                        end in
            let '(evs', st) :=
              run_schedule background hooks sched' (<[i:=t']> ts) rej'
                           (tr ++ evs) in
            (evs ++ evs', st)
        end
  end.

(** All tasks are started in entry order; the environment's schedule then
    resumes them, also after a rejection; if nothing was rejected,
    [Promise.all] goes on waiting until every task has ended (each needs at
    most two resumptions).  The [await] throws the rejection, if any. *)
Definition persistFiles (hooks outputDir : JsVal)
    (files : list (string * Content)) : M unit :=
  fun tr =>
    let '(evs0, ts0) := start_tasks outputDir files in
    let tr0 := tr ++ evs0 in
    let '(evs1, (ts1, rej1)) :=
      run_schedule true hooks (schedule E tr0) ts0 (first_rejection ts0) tr0 in
    let n := length ts0 in
    let '(evs2, (_, rej2)) :=
      run_schedule false hooks (seq 0 n ++ seq 0 n) ts1 rej1 (tr0 ++ evs1) in
    (evs0 ++ evs1 ++ evs2,
     match rej2 with
     | Some e => Err e
     | None => Ok tt
     end).

(** *** Step 3: the existence check *)

(** [let outputDirExists = false; if (skipIfExists) { try { ... } catch { ... } }] *)
Definition probe (hooks outputDir skipIfExists : JsVal) : M bool :=
  if truthy skipIfExists then
    try_catch
      (perform (fun tr => fs_access E tr outputDir) (EvAccess outputDir) ;;
       callHook hooks OnSkipFiles [outputDir] ;;
       ret true)
      (ret false)
  else ret false.

(** *** Steps 4 to 8: the body of [if (!outputDirExists)] *)

Definition copyIco (hooks outputDir copyIcoToRoot rootDir : JsVal) : M unit :=
  if truthy copyIcoToRoot then
    if negb (truthy rootDir) then throw (ConfigError RootDirRequired)
    else
      sourceIco <- path_join outputDir (JStr "favicon.ico") ;;
      targetIco <- path_join rootDir (JStr "favicon.ico") ;;
      perform (fun tr => fs_copyFile E tr sourceIco targetIco)
              (EvCopyFile sourceIco targetIco) ;;
      callHook hooks OnIcoCopied [JStr targetIco]
  else ret tt.

Definition filesPhase (options : JsObject) : M unit :=
  let source := get options "source" in
  let outputDir := get options "outputDir" in
  let copyIcoToRoot := get options "copyIcoToRoot" in
  let rootDir := get options "rootDir" in
  let hooks := get options "hooks" in
  perform (fun tr => fs_mkdir E tr outputDir) (EvMkdir outputDir) ;;
  svg <- perform (fun tr => loadAndConvertToSvg E tr source) (EvLoadSvg source) ;;
  let masterIcon := {| icon := svg |} in
  imageAdapter <- perform (getNodeImageAdapter E) EvGetAdapter ;;
  files <- perform
    (fun tr => generateFaviconFiles E tr masterIcon (faviconSettings options)
                                    imageAdapter)
    (EvGenerateFiles masterIcon (faviconSettings options) imageAdapter) ;;
  persistFiles hooks outputDir files ;;
  copyIco hooks outputDir copyIcoToRoot rootDir.

(** *** Steps 9 and 10: HTML generation (always runs) *)

(** [fs.writeFile(p, d)] awaited at once: the call, then its completion. *)
Definition writeFile (p : JsVal) (d : FileData) : M unit := fun tr =>
  let a := fs_writeFile E (tr ++ [EvWriteFile p d]) p d in
  ([EvWriteFile p d; EvWriteDone p a], lift a).

Definition htmlPhase (options : JsObject) : M unit :=
  let htmlOutput := get options "htmlOutput" in
  let hooks := get options "hooks" in
  markups <- perform (fun tr => generateFaviconHtml E tr (faviconSettings options))
                     (EvGenerateHtml (faviconSettings options)) ;;
  let html := String.concat "" markups in
  if truthy htmlOutput then
    dir <- path_dirname htmlOutput ;;
    perform (fun tr => fs_mkdir E tr (JStr dir)) (EvMkdir (JStr dir)) ;;
    writeFile htmlOutput (Utf8Text html) ;;
    callHook hooks OnHtmlWritten [htmlOutput]
  else ret tt.

(** *** [generateFavicons] *)

(** The section "Asset generation (idempotent)": the existence check and
    the [if (!outputDirExists)] statement. *)
Definition assetGeneration (options : JsObject) : M unit :=
  let outputDir := get options "outputDir" in
  let skipIfExists := get_default options "skipIfExists" (JBool true) in
  let hooks := get options "hooks" in
  outputDirExists <- probe hooks outputDir skipIfExists ;;
  if negb outputDirExists then filesPhase options else ret tt.

Definition generateFavicons (options : JsObject) : M unit :=
  let source := get options "source" in
  let outputDir := get options "outputDir" in
  let hooks := get options "hooks" in
  if negb (truthy source) then throw (ConfigError SourceRequired)
  else if negb (truthy outputDir) then throw (ConfigError OutputDirRequired)
  else
    callHook hooks OnStart [] ;;
    assetGeneration options ;;
    htmlPhase options.

(** ** The adapters *)

(** [path.resolve(base, p)] *)
Definition path_resolve (base : string) (p : JsVal) : M string :=
  match p with
  | JStr x => ret (resolve E base x)
  | _ => throw (TypeError "path.resolve")
  end.

(** [cond ? path.resolve(base, cond) : undefined] *)
Definition resolve_optional (base : string) (p : JsVal) : M JsVal :=
  if truthy p then (x <- path_resolve base p ;; ret (JStr x))
  else ret JUndefined.

(** The object literal both adapters build:
    [{ ...options, source: ..., outputDir: ..., rootDir: ..., htmlOutput: ... }] *)
Definition resolved_options (base : string) (options : JsObject) : M JsObject :=
  source <- path_resolve base (get options "source") ;;
  outputDir <- path_resolve base (get options "outputDir") ;;
  rootDir <- resolve_optional base (get options "rootDir") ;;
  htmlOutput <- resolve_optional base (get options "htmlOutput") ;;
  ret (<["htmlOutput" := htmlOutput]>
       (<["rootDir" := rootDir]>
        (<["outputDir" := JStr outputDir]>
         (<["source" := JStr source]> options)))).

(** [src/adapters/node.ts] *)
Definition generateFaviconsNode (options : JsObject) : M unit :=
  let cwd := cwd E in
  o <- resolved_options cwd options ;;
  generateFavicons o.

(** [src/adapters/vite.ts]: the plugin object, with [buildStart] its only
    hook. *)
Record Plugin : Type := {
  name : string;
  buildStart : M unit;
}.

Definition realFavicon (options : JsObject) : Plugin :=
  {| name := "real-favicon";
     buildStart :=
       let root := cwd E in
       o <- resolved_options root options ;;
       generateFavicons o |}.

End Generator.

(** ** Reading a trace *)

Definition is_hook_call (ev : Event) : bool :=
  match ev with EvHook _ _ _ => true | _ => false end.

Definition is_call_of (n : HookName) (ev : Event) : bool :=
  match ev, n with
  | EvHook OnStart _ _, OnStart
  | EvHook OnSkipFiles _ _, OnSkipFiles
  | EvHook OnFileWritten _ _, OnFileWritten
  | EvHook OnHtmlWritten _ _, OnHtmlWritten
  | EvHook OnIcoCopied _ _, OnIcoCopied => true
  | _, _ => false
  end.

(** The calls of step 4 ([fs.mkdir]), 5 ([loadAndConvertToSvg],
    [getNodeImageAdapter]), 6 ([generateFaviconFiles]), 7 (a Buffer written,
    [onFileWritten]) and 8 ([fs.copyFile], [onIcoCopied]). *)
Definition is_mkdir (ev : Event) : bool :=
  match ev with EvMkdir _ _ => true | _ => false end.

Definition is_normalization (ev : Event) : bool :=
  match ev with EvLoadSvg _ _ | EvGetAdapter _ => true | _ => false end.

Definition is_generation (ev : Event) : bool :=
  match ev with EvGenerateFiles _ _ _ _ => true | _ => false end.

Definition is_favicon_write (ev : Event) : bool :=
  match ev with EvWriteFile _ (Buffer _) => true | _ => false end.

Definition is_ico_copy (ev : Event) : bool :=
  match ev with
  | EvCopyFile _ _ _ | EvHook OnIcoCopied _ _ => true
  | _ => false
  end.

(** What can still happen once [Promise.all] has rejected: the tasks of
    step 7 that are in flight go on. *)
Definition is_step7 (ev : Event) : bool :=
  match ev with
  | EvWriteFile _ (Buffer _) | EvWriteDone _ _ | EvHook OnFileWritten _ _ => true
  | _ => false
  end.

(** The exception of a call that no [try] of the generator encloses:
    every call but [fs.access] and [onSkipFiles]. *)
Definition failure (ev : Event) : option JsVal :=
  match ev with
  | EvHook OnSkipFiles _ _ => None
  | EvHook _ _ (Throws v) => Some v
  | EvMkdir _ (Throws v) => Some v
  | EvLoadSvg _ (Throws v) => Some v
  | EvGetAdapter (Throws v) => Some v
  | EvGenerateFiles _ _ _ (Throws v) => Some v
  | EvWriteDone _ (Throws v) => Some v
  | EvCopyFile _ _ (Throws v) => Some v
  | EvGenerateHtml _ (Throws v) => Some v
  | _ => None
  end.

(** The first such call of a trace that threw, what it threw, and the
    events after it. *)
Fixpoint first_failure (evs : list Event) : option (Event * JsVal * list Event) :=
  match evs with
  | [] => None
  | ev :: evs' =>
      match failure ev with
      | Some v => Some (ev, v, evs')
      | None => first_failure evs'
      end
  end.

(** The events of the steps the [if (!outputDirExists)] statement holds:
    4 (the output directory is created), 5 and 6 (the collaborators), 7 (the
    files are written) and 8 (favicon.ico is copied). *)
Definition is_files_phase (ev : Event) : bool :=
  is_mkdir ev || is_normalization ev || is_generation ev || is_step7 ev
  || is_ico_copy ev.

(** What the HTML phase can add: [generateFaviconHtml] on the settings,
    [fs.mkdir] on the parent of [htmlOutput], [fs.writeFile] of a text to
    [htmlOutput] and its completion, [onHtmlWritten(htmlOutput)]. *)
Definition html_event (E : Env) (options : JsObject) (ev : Event) : Prop :=
  match ev with
  | EvGenerateHtml settings _ => settings = faviconSettings options
  | EvMkdir p _ =>
      exists h, get options "htmlOutput" = JStr h /\ p = JStr (dirname E h)
  | EvWriteFile p (Utf8Text _) => p = get options "htmlOutput"
  | EvWriteDone p _ => p = get options "htmlOutput"
  | EvHook OnHtmlWritten args _ => args = [get options "htmlOutput"]
  | _ => False
  end.

(** Every call of [onSkipFiles] in [evs] has the output directory for
    argument and comes right after [fs.access] returned on it. *)
Definition skip_follows_access (od : JsVal) (evs : list Event) : Prop :=
  forall tr1 args a tr2,
    evs = tr1 ++ EvHook OnSkipFiles args a :: tr2 ->
    args = [od] /\ exists tr0, tr1 = tr0 ++ [EvAccess od (Returns tt)].

(** Any event but a call of [onSkipFiles]. *)
Definition not_skip_call (ev : Event) : Prop := is_call_of OnSkipFiles ev = false.


(** [loadAndConvertToSvg] or [generateFaviconFiles] threw [v]. *)
Definition is_collaborator_failure (v : JsVal) (ev : Event) : bool :=
  match ev with
  | EvLoadSvg _ (Throws v') | EvGenerateFiles _ _ _ (Throws v') =>
      bool_decide (v' = v)
  | _ => false
  end.

(** The declared types of the path options: [source: string],
    [outputDir: string], [rootDir?: string], [htmlOutput?: string]. *)
Definition optional_string (v : JsVal) : Prop :=
  v = JUndefined \/ exists s, v = JStr s.

(** What both adapters pass for an optional path. *)
Definition resolved_optional (E : Env) (v : JsVal) : JsVal :=
  match v with
  | JStr x => if String.eqb x "" then JUndefined else JStr (resolve E (cwd E) x)
  | _ => JUndefined
  end.

(** A task that has not been rejected. *)
Definition running (t : Task) : Prop := task_error t = None.

(** What [Promise.all] rejects with, from the events of the tasks. *)
Definition rejection_of (evs : list Event) : option Error :=
  match first_failure evs with
  | Some (_, v, _) => Some (Thrown v)
  | None => None
  end.

(** The [await]s a task of step 7 still has before it ends. *)
Definition awaits_left (t : Task) : nat :=
  match t with
  | TBlob _ _ => 2
  | TWrite _ _ => 1
  | TDone _ => 0
  end.

(** How often a schedule resumes task [i]. *)
Fixpoint resumptions (i : nat) (sched : list nat) : nat :=
  match sched with
  | [] => 0
  | j :: sched' => (if Nat.eqb j i then 1 else 0) + resumptions i sched'
  end.

(** The Buffer made of a file's content. *)
Definition data_of (c : Content) : list Byte.byte :=
  match c with
  | CBlob b | CBytes b => b
  | CString s => utf8 s
  end.

(** In [evs] the file of [entry] was written under [dir]: [fs.writeFile]
    was called with its path and Buffer, returned, and [onFileWritten], if
    there is one, was called with the path and returned. *)
Definition written (E : Env) (hooks : JsVal) (dir : string)
    (evs : list Event) (entry : string * Content) : Prop :=
  let target := JStr (join E dir entry.1) in
  In (EvWriteFile target (Buffer (data_of entry.2))) evs /\
  In (EvWriteDone target (Returns tt)) evs /\
  (is_Some (hook_slot E hooks OnFileWritten) ->
   In (EvHook OnFileWritten [target] (Returns tt)) evs).

(** Where the task of [entry] stands, given the events so far. *)
Definition task_of (E : Env) (hooks : JsVal) (dir : string)
    (evs : list Event) (entry : string * Content) (t : Task) : Prop :=
  let target := join E dir entry.1 in
  match t with
  | TBlob tg b => tg = target /\ b = data_of entry.2
  | TWrite tg d =>
      tg = target /\ d = data_of entry.2 /\
      In (EvWriteFile (JStr target) (Buffer d)) evs
  | TDone (Ok _) => written E hooks dir evs entry
  | TDone (Err _) => True
  end.

(** Every event of a computation, from every history, satisfies [P]. *)
Definition emits {A} (P : Event -> Prop) (m : M A) : Prop :=
  forall tr, Forall P (m tr).1.

(** A computation ends with the first uncaught failure among its calls;
    nothing is called after it, except that the tasks of step 7 go on when
    the failure is one of theirs. *)
Definition strict {A} (m : M A) : Prop :=
  forall tr,
    match first_failure (m tr).1 with
    | Some (ev, v, rest) =>
        (m tr).2 = Err (Thrown v) /\
        if is_step7 ev then Forall (fun ev' => is_step7 ev' = true) rest
        else rest = []
    | None => True
    end.

(** A computation that ends with an exception from outside has a failed
    call to show for it. *)
Definition explained {A} (m : M A) : Prop :=
  forall tr v, (m tr).2 = Err (Thrown v) -> first_failure (m tr).1 <> None.

(** [fs.access] or [onSkipFiles]: the calls of the existence check. *)
Definition is_probe (ev : Event) : bool :=
  match ev with
  | EvAccess _ _ | EvHook OnSkipFiles _ _ => true
  | _ => false
  end.

(** *** Further readings of a trace *)

(** What an invocation may touch: the output directory and the files under
    it, the parent of [htmlOutput] and [htmlOutput] itself, and
    [favicon.ico] under [rootDir]; the image it reads is [source]. *)
Definition under_outputDir (E : Env) (options : JsObject) (p : JsVal) : Prop :=
  exists dir fileName,
    get options "outputDir" = JStr dir /\ p = JStr (join E dir fileName).

Definition within_request (E : Env) (options : JsObject) (ev : Event) : Prop :=
  match ev with
  | EvAccess p _ => p = get options "outputDir"
  | EvMkdir p _ =>
      p = get options "outputDir" \/
      exists h, get options "htmlOutput" = JStr h /\ p = JStr (dirname E h)
  | EvLoadSvg src _ => src = get options "source"
  | EvWriteFile p (Buffer _) => under_outputDir E options p
  | EvWriteFile p (Utf8Text _) => p = get options "htmlOutput"
  | EvWriteDone p _ => under_outputDir E options p \/ p = get options "htmlOutput"
  | EvCopyFile src dst _ =>
      exists dir root,
        get options "outputDir" = JStr dir /\
        get options "rootDir" = JStr root /\
        src = join E dir "favicon.ico" /\ dst = join E root "favicon.ico"
  | _ => True
  end.

(** The write of a generated file, and the events of its task. *)
Definition write_of (E : Env) (dir : string) (entry : string * Content) : Event :=
  EvWriteFile (JStr (join E dir entry.1)) (Buffer (data_of entry.2)).

Definition step7_of (E : Env) (dir : string) (files : list (string * Content))
    (ev : Event) : Prop :=
  match ev with
  | EvWriteFile p (Buffer b) =>
      exists entry, In entry files /\ ev = write_of E dir entry
  | EvWriteDone p _ =>
      exists entry, In entry files /\ p = JStr (join E dir entry.1)
  | EvHook OnFileWritten args _ =>
      exists entry, In entry files /\ args = [JStr (join E dir entry.1)]
  | _ => False
  end.

(** A task of step 7 belongs to a file of the set. *)
Definition task_from (E : Env) (dir : string) (files : list (string * Content))
    (t : Task) : Prop :=
  match t with
  | TBlob tg b | TWrite tg b =>
      exists entry, In entry files /\ tg = join E dir entry.1 /\ b = data_of entry.2
  | TDone _ => True
  end.

(** How many events of [evs] are of the kind [f]. *)
Definition count (f : Event -> bool) (evs : list Event) : nat :=
  length (List.filter f evs).

(** A computation makes at most [n] calls of the kind [f]. *)
Definition at_most {A} (f : Event -> bool) (n : nat) (m : M A) : Prop :=
  forall tr, length (List.filter f (m tr).1) <= n.

Definition is_access (ev : Event) : bool :=
  match ev with EvAccess _ _ => true | _ => false end.

Definition is_load (ev : Event) : bool :=
  match ev with EvLoadSvg _ _ => true | _ => false end.

Definition is_get_adapter (ev : Event) : bool :=
  match ev with EvGetAdapter _ => true | _ => false end.

Definition is_copy (ev : Event) : bool :=
  match ev with EvCopyFile _ _ _ => true | _ => false end.

Definition is_html_generation (ev : Event) : bool :=
  match ev with EvGenerateHtml _ _ => true | _ => false end.

Definition is_html_write (ev : Event) : bool :=
  match ev with EvWriteFile _ (Utf8Text _) => true | _ => false end.

(** The write a task suspended before [fs.writeFile] has still to make. *)
Definition pending_write (t : Task) : list Event :=
  match t with
  | TBlob tg b => [EvWriteFile (JStr tg) (Buffer b)]
  | _ => []
  end.

(** The calls that change the filesystem. *)
Definition is_mutation (ev : Event) : bool :=
  match ev with
  | EvMkdir _ _ | EvWriteFile _ _ | EvWriteDone _ _ | EvCopyFile _ _ _ => true
  | _ => false
  end.

(** The calls that put the markup on disk and report it. *)
Definition is_html_output (ev : Event) : bool :=
  is_html_write ev || is_call_of OnHtmlWritten ev.

(** The calls of the steps after step 7: the copy of [favicon.ico] and its
    hook, [generateFaviconHtml], the write of the markup and its hook. *)
Definition is_after_step7 (ev : Event) : bool :=
  is_ico_copy ev || is_html_generation ev || is_html_output ev.

(** A path option as a caller of the declared type gives it: left out (or
    empty, which the generator treats alike), or a string. *)
Definition path_like (v : JsVal) : Prop :=
  truthy v = false \/ exists s, v = JStr s.

(** What a hook reports: the call that has just returned, and the path it
    was made on. *)
Definition reports (h : HookName) (args : list JsVal) (prev : Event) : Prop :=
  match h, prev with
  | OnSkipFiles, EvAccess p (Returns _) => args = [p]
  | OnFileWritten, EvWriteDone p (Returns _) => args = [p]
  | OnHtmlWritten, EvWriteDone p (Returns _) => args = [p]
  | OnIcoCopied, EvCopyFile _ dst (Returns _) => args = [JStr dst]
  | _, _ => False
  end.

(** Every hook call of [evs] other than [onStart] comes right after the
    call it reports. *)
Definition hooks_follow (evs : list Event) : Prop :=
  forall tr1 h args a tr2,
    evs = tr1 ++ EvHook h args a :: tr2 -> h <> OnStart ->
    exists tr0 prev, tr1 = tr0 ++ [prev] /\ reports h args prev.

Definition is_string (v : JsVal) : bool :=
  match v with JStr _ => true | _ => false end.

(** A task whose write has returned and whose hook, if any, has too. *)
Definition is_settled_ok (t : Task) : bool :=
  match t with TDone (Ok _) => true | _ => false end.

Definition is_done (t : Task) : bool :=
  match t with TDone _ => true | _ => false end.

(** The tasks of [ts] that [f] does not hold of. *)
Definition unsettled (f : Task -> bool) (ts : list Task) : nat :=
  length (List.filter (fun t => negb (f t)) ts).

(** A call of [onFileWritten] that returned. *)
Definition is_file_report (ev : Event) : bool :=
  match ev with EvHook OnFileWritten _ (Returns _) => true | _ => false end.

(** ** A sample world *)

Module Samples.

Definition returns : HookFn := fun _ _ => Returns tt.
Definition throws : HookFn := fun _ _ => Throws (JStr "hook failed").

Definition logging_hooks : GenerateFaviconsHooks :=
  {| onStart := Some returns; onSkipFiles := Some returns;
     onFileWritten := Some returns; onHtmlWritten := Some returns;
     onIcoCopied := Some returns |}.

(** The hook record whose [onSkipFiles] throws. *)
Definition failing_skip_hooks : GenerateFaviconsHooks :=
  {| onStart := Some returns; onSkipFiles := Some throws;
     onFileWritten := Some returns; onHtmlWritten := Some returns;
     onIcoCopied := Some returns |}.

(** The hook record whose [onHtmlWritten] throws. *)
Definition failing_html_hooks : GenerateFaviconsHooks :=
  {| onStart := Some returns; onSkipFiles := Some returns;
     onFileWritten := Some returns; onHtmlWritten := Some throws;
     onIcoCopied := Some returns |}.

(** A hook that throws when called with ['out/site.webmanifest']. *)
Definition throws_on_manifest : HookFn := fun _ args =>
  match args with
  | [JStr p] =>
      if String.eqb p "out/site.webmanifest" then Throws (JStr "hook failed")
      else Returns tt
  | _ => Returns tt
  end.

(** The hook record whose [onFileWritten] throws for the web manifest. *)
Definition failing_write_hooks : GenerateFaviconsHooks :=
  {| onStart := Some returns; onSkipFiles := Some returns;
     onFileWritten := Some throws_on_manifest; onHtmlWritten := Some returns;
     onIcoCopied := Some returns |}.

Definition sample_heap (r : nat) : GenerateFaviconsHooks :=
  match r with
  | 1 => logging_hooks
  | 2 => failing_skip_hooks
  | 3 => failing_html_hooks
  | 4 => failing_write_hooks
  | _ => no_hooks
  end.

Fixpoint drop_to_slash (cs : list Ascii.ascii) : option (list Ascii.ascii) :=
  match cs with
  | [] => None
  | c :: cs' => if Ascii.eqb c "/"%char then Some cs' else drop_to_slash cs'
  end.

(** POSIX [path.dirname] on paths without a trailing slash. *)
Definition posix_dirname (p : string) : string :=
  match drop_to_slash (rev (String.list_ascii_of_string p)) with
  | None => "."
  | Some [] => "/"
  | Some rest => String.string_of_list_ascii (rev rest)
  end.

Definition posix_join (a b : string) : string := a +:+ "/" +:+ b.

Definition posix_resolve (base p : string) : string :=
  if String.prefix "/" p then p else base +:+ "/" +:+ p.

Definition sample_files : list (string * Content) :=
  [("favicon.ico", CBytes [Byte.x00; Byte.x00; Byte.x01; Byte.x00]);
   ("site.webmanifest", CString "{}");
   ("favicon-96x96.png", CBlob [Byte.x89; Byte.x50])].

(** A world in which the directories listed in [dirs] exist, every other
    call succeeds, and the tasks of step 7 are resumed last to first. *)
Definition world (dirs : list string) : Env :=
  {| heap := sample_heap;
     fs_access := fun _ p =>
       match p with
       | JStr d => if bool_decide (d ∈ dirs) then Returns tt
                   else Throws (JStr "ENOENT")
       | _ => Throws (JStr "ERR_INVALID_ARG_TYPE")
       end;
     fs_mkdir := fun _ _ => Returns tt;
     fs_writeFile := fun _ _ _ => Returns tt;
     fs_copyFile := fun _ _ _ => Returns tt;
     loadAndConvertToSvg := fun _ _ => Returns (JStr "<svg/>");
     getNodeImageAdapter := fun _ => Returns (JRef 9);
     generateFaviconFiles := fun _ _ _ _ => Returns sample_files;
     generateFaviconHtml := fun _ _ =>
       Returns ["<link rel=icon href=/favicons/favicon.ico>";
                "<meta name=apple-mobile-web-app-title>"];
     join := posix_join;
     dirname := posix_dirname;
     resolve := posix_resolve;
     cwd := "/work";
     schedule := fun _ => [2; 1; 0] |}.

(** A world like [world dirs] whose source image cannot be converted. *)
Definition world_bad_image (dirs : list string) : Env :=
  {| heap := sample_heap;
     fs_access := fs_access (world dirs);
     fs_mkdir := fun _ _ => Returns tt;
     fs_writeFile := fun _ _ _ => Returns tt;
     fs_copyFile := fun _ _ _ => Returns tt;
     loadAndConvertToSvg := fun _ _ => Throws (JStr "unsupported image");
     getNodeImageAdapter := fun _ => Returns (JRef 9);
     generateFaviconFiles := fun _ _ _ _ => Returns sample_files;
     generateFaviconHtml := generateFaviconHtml (world dirs);
     join := posix_join;
     dirname := posix_dirname;
     resolve := posix_resolve;
     cwd := "/work";
     schedule := fun _ => [] |}.

(** [{ source: 'logo.png', outputDir: 'out', htmlOutput: 'gen/favicons.html',
       path: '/favicons/', hooks }] with [hooks] the record at reference [h]. *)
Definition request (h : nat) : JsObject :=
  <["source" := JStr "logo.png"]>
  (<["outputDir" := JStr "out"]>
  (<["htmlOutput" := JStr "gen/favicons.html"]>
  (<["path" := JStr "/favicons/"]>
  (<["hooks" := JRef h]> ∅)))).

(** The same with [copyIcoToRoot: true] and no [rootDir]. *)
Definition request_copy_no_root (h : nat) : JsObject :=
  <["copyIcoToRoot" := JBool true]> (request h).

(** The same with [copyIcoToRoot: true, rootDir: 'static']. *)
Definition request_copy (h : nat) : JsObject :=
  <["copyIcoToRoot" := JBool true]> (<["rootDir" := JStr "static"]> (request h)).

(** The same with [skipIfExists: false]. *)
Definition request_no_skip (h : nat) : JsObject :=
  <["skipIfExists" := JBool false]> (request h).

End Samples.

(** ** Properties *)

Section Laws.

Context {A B : Type}.

Lemma emits_ret P (a : A) : emits P (ret a).
Proof. intros tr. constructor. Qed.

Lemma emits_throw P e : emits P (@throw A e).
Proof. intros tr. constructor. Qed.

Lemma emits_bind P (m : M A) (k : A -> M B) :
  emits P m -> (forall a, emits P (k a)) -> emits P (bind m k).
Proof.
  intros Hm Hk tr. specialize (Hm tr). unfold bind.
  destruct (m tr) as [evs [a|e]]; simpl in *; [|done].
  specialize (Hk a (tr ++ evs)). destruct (k a (tr ++ evs)); simpl in *.
  by apply Forall_app.
Qed.

Lemma emits_try_catch P (m h : M A) :
  emits P m -> emits P h -> emits P (try_catch m h).
Proof.
  intros Hm Hh tr. specialize (Hm tr). unfold try_catch.
  destruct (m tr) as [evs [a|e]]; simpl in *; [done|].
  specialize (Hh (tr ++ evs)). destruct (h (tr ++ evs)); simpl in *.
  by apply Forall_app.
Qed.

Lemma emits_perform P (answer : Trace -> Answer A) ev :
  (forall a, P (ev a)) -> emits P (perform answer ev).
Proof. intros H tr. simpl. by repeat constructor. Qed.

Lemma emits_if P (b : bool) (m1 m2 : M A) :
  emits P m1 -> emits P m2 -> emits P (if b then m1 else m2).
Proof. by destruct b. Qed.

End Laws.

Lemma emits_callHook E P hooks n args :
  (forall a, P (EvHook n args a)) -> emits P (callHook E hooks n args).
Proof.
  intros H tr. unfold callHook. destruct (hook_slot E hooks n); simpl.
  - by repeat constructor.
  - constructor.
Qed.

Lemma emits_path_join E P a b : emits P (path_join E a b).
Proof.
  unfold path_join.
  destruct a; try apply emits_throw; destruct b;
    first [apply emits_throw | apply emits_ret].
Qed.

Lemma emits_path_dirname E P p : emits P (path_dirname E p).
Proof. destruct p; first [apply emits_throw | apply emits_ret]. Qed.

(** *** Step 7 adds events of step 7 only *)

Section Step7.

Variable E : Env.
Variable P : Event -> Prop.
Hypothesis P_step7 : forall ev, is_step7 ev = true -> P ev.

Lemma start_task_events od entry : Forall P (start_task E od entry).1.
Proof.
  destruct entry as [f c]. unfold start_task.
  destruct od; simpl; try constructor.
  destruct c; simpl; repeat constructor; by apply P_step7.
Qed.

Lemma start_tasks_events od entries : Forall P (start_tasks E od entries).1.
Proof.
  induction entries as [|entry entries IH]; simpl; [constructor|].
  pose proof (start_task_events od entry) as H.
  destruct (start_task E od entry) as [evs t].
  destruct (start_tasks E od entries) as [evs' ts]. simpl in *.
  by apply Forall_app.
Qed.

Lemma step_task_events hooks t tr : Forall P (step_task E hooks t tr).1.
Proof.
  destruct t as [target b|target data|r]; simpl.
  - repeat constructor. by apply P_step7.
  - destruct (fs_writeFile E tr (JStr target) (Buffer data)) as [[]|v]; simpl.
    + unfold callHook. destruct (hook_slot E hooks OnFileWritten); simpl;
        repeat constructor; by apply P_step7.
    + repeat constructor. by apply P_step7.
  - constructor.
Qed.

Lemma run_schedule_events bg hooks sched ts rej tr :
  Forall P (run_schedule E bg hooks sched ts rej tr).1.
Proof.
  revert ts rej tr. induction sched as [|i sched IH]; intros ts rej tr; simpl.
  - constructor.
  - destruct (negb bg && bool_decide (is_Some rej)); [constructor|].
    destruct (ts !! i) as [t|]; [|apply IH].
    pose proof (step_task_events hooks t tr) as Hstep.
    destruct (step_task E hooks t tr) as [evs t']. simpl in Hstep.
    match goal with |- context [run_schedule E bg hooks sched ?ts' ?rej' ?tr'] =>
      specialize (IH ts' rej' tr');
      destruct (run_schedule E bg hooks sched ts' rej' tr') as [evs' st]
    end.
    simpl in *. by apply Forall_app.
Qed.

Lemma emits_persistFiles hooks od files : emits P (persistFiles E hooks od files).
Proof.
  intros tr. unfold persistFiles.
  pose proof (start_tasks_events od files) as H0.
  destruct (start_tasks E od files) as [evs0 ts0]. cbn [fst snd] in H0.
  match goal with |- context [run_schedule E true hooks ?s ?ts ?rej ?tr'] =>
    pose proof (run_schedule_events true hooks s ts rej tr') as H1;
    destruct (run_schedule E true hooks s ts rej tr') as [evs1 [ts1 rej1]]
  end.
  match goal with |- context [run_schedule E false hooks ?s ?ts ?rej ?tr'] =>
    pose proof (run_schedule_events false hooks s ts rej tr') as H2;
    destruct (run_schedule E false hooks s ts rej tr') as [evs2 [ts2 rej2]]
  end.
  cbn [fst snd] in *. rewrite !Forall_app. auto.
Qed.

End Step7.

(** *** The phases add events of their own kinds only *)

Section Kinds.

Variable E : Env.
Variable P : Event -> Prop.

Lemma emits_probe hooks od skip :
  (forall a, P (EvAccess od a)) ->
  (forall a, P (EvHook OnSkipFiles [od] a)) ->
  emits P (probe E hooks od skip).
Proof.
  intros Ha Hh. unfold probe. apply emits_if; [|apply emits_ret].
  apply emits_try_catch; [|apply emits_ret].
  apply emits_bind; [by apply emits_perform|intros _].
  apply emits_bind; [by apply emits_callHook|intros _]. apply emits_ret.
Qed.

Lemma emits_copyIco hooks od copy root :
  (forall s d a, P (EvCopyFile s d a)) ->
  (forall args a, P (EvHook OnIcoCopied args a)) ->
  emits P (copyIco E hooks od copy root).
Proof.
  intros Hc Hh. unfold copyIco. apply emits_if; [|apply emits_ret].
  apply emits_if; [apply emits_throw|].
  apply emits_bind; [apply emits_path_join|intros s].
  apply emits_bind; [apply emits_path_join|intros d].
  apply emits_bind; [by apply emits_perform|intros _].
  by apply emits_callHook.
Qed.

Lemma emits_writeFile p d :
  P (EvWriteFile p d) -> (forall a, P (EvWriteDone p a)) ->
  emits P (writeFile E p d).
Proof. intros H1 H2 tr. simpl. by repeat constructor. Qed.

End Kinds.

(** Decomposing a computation into the calls it is made of. *)
Ltac emits_step :=
  first
    [ apply emits_ret
    | apply emits_throw
    | apply emits_path_join
    | apply emits_path_dirname
    | apply emits_if
    | apply emits_try_catch
    | apply emits_bind; [|intros ?]
    | apply emits_perform; intros ?
    | apply emits_callHook; intros ?
    | apply emits_writeFile; [|intros ?]
    | apply emits_persistFiles; intros [] ? ].


(** *** Validation (step 1) *)

(** C3.  A request whose [source] or [outputDir] is absent or empty fails
    with the error naming the missing option; no hook has been called and no
    call has left the generator: the trace of the invocation is empty. *)
Theorem validation_fails_before_any_hook_or_io E options :
  truthy (get options "source") = false \/
  truthy (get options "outputDir") = false ->
  exists msg,
    (msg = SourceRequired \/ msg = OutputDirRequired) /\
    run (generateFavicons E options) = ([], Err (ConfigError msg)) /\
    length (List.filter is_hook_call (run (generateFavicons E options)).1) = 0.
Proof.
  intros H. unfold run, generateFavicons.
  destruct (truthy (get options "source")) eqn:Hs; simpl.
  - destruct H as [H|H]; [done|]. rewrite H. simpl.
    exists OutputDirRequired. auto.
  - exists SourceRequired. auto.
Qed.

Lemma validation_fails_before_any_hook_or_io_witness :
  exists msg,
    (msg = SourceRequired \/ msg = OutputDirRequired) /\
    run (generateFavicons (Samples.world ["out"])
           (<["source" := JStr ""]> (Samples.request 1)))
    = ([], Err (ConfigError msg)) /\
    length (List.filter is_hook_call
              (run (generateFavicons (Samples.world ["out"])
                      (<["source" := JStr ""]> (Samples.request 1)))).1) = 0.
Proof.
  apply (validation_fails_before_any_hook_or_io (Samples.world ["out"])
           (<["source" := JStr ""]> (Samples.request 1))).
  left. vm_compute. reflexivity.
Defined.

(** *** The settings payload (steps 6 and 9) *)

Lemma faviconSettings_lookup options k :
  faviconSettings options !! k =
  if bool_decide (k ∈ orchestration_keys) then None else options !! k.
Proof.
  unfold faviconSettings, orchestration_keys. simpl.
  destruct (bool_decide_reflect
              (k ∈ ["source"; "outputDir"; "htmlOutput"; "skipIfExists";
                    "copyIcoToRoot"; "rootDir"; "hooks"])) as [Hk|Hk].
  - rewrite !lookup_delete.
    repeat (apply elem_of_cons in Hk as [->|Hk]);
      [by repeat case_decide..|].
    by apply elem_of_nil in Hk.
  - rewrite !not_elem_of_cons in Hk.
    rewrite !lookup_delete_ne; [done|intros Heq; subst k; tauto..].
Qed.


(** *** The first failure decides *)

Lemma first_failure_None evs :
  first_failure evs = None <-> Forall (fun ev => failure ev = None) evs.
Proof.
  induction evs as [|ev evs IH]; simpl.
  - split; [constructor|done].
  - destruct (failure ev) eqn:Hf.
    + split; [done|]. intros H. inversion H; congruence.
    + rewrite IH. split; [by constructor|]. intros H. by inversion H.
Qed.

Lemma first_failure_app_None evs evs' :
  first_failure evs = None -> first_failure (evs ++ evs') = first_failure evs'.
Proof.
  induction evs as [|ev evs IH]; simpl; [done|].
  destruct (failure ev); [done|apply IH].
Qed.

Lemma first_failure_app_Some evs evs' ev v rest :
  first_failure evs = Some (ev, v, rest) ->
  first_failure (evs ++ evs') = Some (ev, v, rest ++ evs').
Proof.
  induction evs as [|ev0 evs IH]; simpl; [done|].
  destruct (failure ev0); [|apply IH]. by intros [= -> -> ->].
Qed.

Lemma first_failure_split evs ev v rest :
  first_failure evs = Some (ev, v, rest) ->
  exists pre, evs = pre ++ ev :: rest /\ failure ev = Some v /\
              first_failure pre = None.
Proof.
  induction evs as [|ev0 evs IH]; simpl; [done|].
  destruct (failure ev0) eqn:Hf.
  - intros [= -> -> ->]. by exists [].
  - intros H. destruct (IH H) as (pre & -> & Hv & Hpre).
    exists (ev0 :: pre). simpl. by rewrite Hf.
Qed.

Lemma first_failure_at pre ev v rest :
  first_failure pre = None -> failure ev = Some v ->
  first_failure (pre ++ ev :: rest) = Some (ev, v, rest).
Proof.
  intros Hpre Hv. rewrite first_failure_app_None by done. simpl. by rewrite Hv.
Qed.

Section Strict.

Context {A B : Type}.

Lemma strict_quiet (m : M A) :
  emits (fun ev => failure ev = None) m -> strict m.
Proof.
  intros H tr. specialize (H tr). apply first_failure_None in H. by rewrite H.
Qed.

Lemma strict_ret (a : A) : strict (ret a).
Proof. by intros tr. Qed.

Lemma strict_throw e : strict (@throw A e).
Proof. by intros tr. Qed.

Lemma strict_bind (m : M A) (k : A -> M B) :
  strict m -> (forall a, strict (k a)) -> strict (bind m k).
Proof.
  intros Hm Hk tr. specialize (Hm tr). unfold bind.
  destruct (m tr) as [evs [a|e]]; cbn [fst snd] in *.
  2: { destruct (first_failure evs) as [[[ev v] rest]|]; [|done].
       by destruct Hm as [[= ->] ?]. }
  specialize (Hk a (tr ++ evs)). destruct (k a (tr ++ evs)) as [evs' r].
  cbn [fst snd] in *. destruct (first_failure evs) as [[[ev v] rest]|] eqn:Hf.
  - by destruct Hm.
  - by rewrite first_failure_app_None.
Qed.

Lemma strict_if (b : bool) (m1 m2 : M A) :
  strict m1 -> strict m2 -> strict (if b then m1 else m2).
Proof. by destruct b. Qed.

Lemma strict_perform (answer : Trace -> Answer A) ev :
  (forall a v, failure (ev a) = Some v -> a = Throws v) ->
  strict (perform answer ev).
Proof.
  intros H tr. simpl. destruct (failure (ev (answer tr))) eqn:Hf; [|done].
  rewrite (H _ _ Hf). simpl. split; [done|].
  destruct (is_step7 _); [constructor|done].
Qed.

End Strict.

Lemma strict_callHook E hooks n args : strict (callHook E hooks n args).
Proof.
  intros tr. unfold callHook. destruct (hook_slot E hooks n) as [f|]; [|done].
  simpl. destruct (f tr args) as [[]|v]; destruct n; simpl;
    first [done | split; [done|first [constructor|done]]].
Qed.

Lemma strict_path_join E a b : strict (path_join E a b).
Proof.
  unfold path_join.
  destruct a; try apply strict_throw; destruct b;
    first [apply strict_throw | apply strict_ret].
Qed.

Lemma strict_path_dirname E p : strict (path_dirname E p).
Proof. destruct p; first [apply strict_throw | apply strict_ret]. Qed.

Lemma strict_writeFile E p d : strict (writeFile E p d).
Proof.
  intros tr. simpl.
  destruct (fs_writeFile E (tr ++ [EvWriteFile p d]) p d) as [[]|v]; simpl;
    [done|]. split; [done|constructor].
Qed.

Lemma strict_probe E hooks od skip : strict (probe E hooks od skip).
Proof. apply strict_quiet. by apply emits_probe. Qed.

(** *** Step 7: [Promise.all] settles with the first failure in time *)

Section Settle.

Variable E : Env.

Lemma first_rejection_running ts : Forall running ts -> first_rejection ts = None.
Proof.
  induction 1 as [|t ts Ht _ IH]; simpl; [done|].
  unfold running in Ht. by rewrite Ht.
Qed.

Lemma start_task_running dir entry :
  running (start_task E (JStr dir) entry).2 /\
  first_failure (start_task E (JStr dir) entry).1 = None.
Proof. destruct entry as [f [b|s|b]]; by simpl. Qed.

Lemma start_tasks_running dir entries :
  Forall running (start_tasks E (JStr dir) entries).2 /\
  first_failure (start_tasks E (JStr dir) entries).1 = None.
Proof.
  induction entries as [|entry entries [IH1 IH2]]; simpl; [by split|].
  destruct (start_task_running dir entry) as [H1 H2].
  destruct (start_task E (JStr dir) entry) as [evs t].
  destruct (start_tasks E (JStr dir) entries) as [evs' ts]. simpl in *.
  split; [by constructor|]. by rewrite first_failure_app_None.
Qed.

Lemma step_task_rejection hooks t tr :
  running t ->
  task_error (step_task E hooks t tr).2 = rejection_of (step_task E hooks t tr).1.
Proof.
  unfold rejection_of. destruct t as [target b|target data|r]; simpl.
  - done.
  - intros _.
    destruct (fs_writeFile E tr (JStr target) (Buffer data)) as [[]|v]; simpl;
      [|done].
    unfold callHook. destruct (hook_slot E hooks OnFileWritten) as [f|]; simpl;
      [|done].
    by destruct (f _ _) as [[]|v].
  - by destruct r.
Qed.

Lemma run_schedule_rejection bg hooks sched ts rej tr :
  match rej with
  | Some e => (run_schedule E bg hooks sched ts rej tr).2.2 = Some e
  | None =>
      Forall running ts ->
      (run_schedule E bg hooks sched ts rej tr).2.2
      = rejection_of (run_schedule E bg hooks sched ts rej tr).1 /\
      ((run_schedule E bg hooks sched ts rej tr).2.2 = None ->
       Forall running (run_schedule E bg hooks sched ts rej tr).2.1)
  end.
Proof.
  revert ts rej tr. induction sched as [|i sched IH]; intros ts rej tr.
  - by destruct rej.
  - simpl. destruct rej as [e|]; simpl.
    + destruct bg; simpl; [|done].
      destruct (ts !! i) as [t|]; [|apply (IH ts (Some e))].
      destruct (step_task E hooks t tr) as [evs t'].
      specialize (IH (<[i:=t']> ts) (Some e) (tr ++ evs)).
      by destruct (run_schedule E true hooks sched _ _ _).
    + rewrite andb_false_r. intros Hts.
      destruct (ts !! i) as [t|] eqn:Hi; [|by apply (IH ts None)].
      assert (running t) as Ht.
      { eapply Forall_forall in Hts; [done|]. by eapply list_elem_of_lookup_2. }
      pose proof (step_task_rejection hooks t tr Ht) as Hstep.
      destruct (step_task E hooks t tr) as [evs t']. simpl in Hstep.
      specialize (IH (<[i:=t']> ts) (task_error t') (tr ++ evs)).
      destruct (run_schedule E bg hooks sched _ _ _) as [evs' [ts' rej']].
      simpl in *. unfold rejection_of in *.
      destruct (first_failure evs) as [[[ev v] rest]|] eqn:Hf.
      * rewrite Hstep in IH. rewrite IH.
        by rewrite (first_failure_app_Some _ _ _ _ _ Hf).
      * rewrite Hstep in IH. rewrite first_failure_app_None by done.
        apply IH. apply Forall_insert; [done|]. exact Hstep.
Qed.

Lemma run_schedule_idle hooks sched ts v tr :
  (run_schedule E false hooks sched ts (Some v) tr).1 = [].
Proof. by destruct sched. Qed.

(** When [outputDir] is not a string no task gets beyond [path.join]. *)
Lemma run_schedule_settled bg hooks sched ts rej tr :
  Forall (fun t => exists r, t = TDone r) ts ->
  (rej = None -> Forall running ts) ->
  run_schedule E bg hooks sched ts rej tr = ([], (ts, rej)).
Proof.
  revert ts rej tr. induction sched as [|i sched IH]; intros ts rej tr Hts Hrej;
    simpl; [done|].
  destruct (negb bg && bool_decide (is_Some rej)); [done|].
  destruct (ts !! i) as [t|] eqn:Hi; [|by apply IH].
  assert (exists r, t = TDone r) as [r ->].
  { eapply Forall_forall in Hts; [done|]. by eapply list_elem_of_lookup_2. }
  assert (match rej with Some e => Some e | None => task_error (TDone r) end
          = rej) as Hsame.
  { destruct rej as [e|]; [done|]. specialize (Hrej eq_refl).
    eapply Forall_forall in Hrej; [exact Hrej|].
    by eapply list_elem_of_lookup_2. }
  cbn [step_task]. rewrite Hsame, list_insert_id, app_nil_r by done.
  by rewrite (IH ts rej tr Hts Hrej).
Qed.

Lemma start_tasks_settled od entries :
  (forall dir, od <> JStr dir) ->
  start_tasks E od entries
  = ([], map (fun _ => TDone (Err (TypeError "path.join"))) entries).
Proof.
  intros Hod. induction entries as [|[f c] entries IH]; simpl; [done|].
  rewrite IH. destruct od; try done. by destruct (Hod s).
Qed.

(** The outcome of step 7 is its first failure in time: a write that failed
    or an [onFileWritten] that threw.  When [outputDir] is not a string,
    [path.join] throws in every task before anything is written. *)
Lemma persistFiles_outcome hooks od files tr :
  match od with
  | JStr _ =>
      (persistFiles E hooks od files tr).2 =
      match first_failure (persistFiles E hooks od files tr).1 with
      | Some (_, v, _) => Err (Thrown v)
      | None => Ok tt
      end
  | _ =>
      persistFiles E hooks od files tr =
      ([], match files with
           | [] => Ok tt
           | _ => Err (TypeError "path.join")
           end)
  end.
Proof.
  assert (forall dir, od = JStr dir ->
            (persistFiles E hooks od files tr).2 =
            match first_failure (persistFiles E hooks od files tr).1 with
            | Some (_, v, _) => Err (Thrown v)
            | None => Ok tt
            end) as Hstr.
  { intros dir ->. unfold persistFiles.
    destruct (start_tasks_running dir files) as [Hrun H0].
    destruct (start_tasks E (JStr dir) files) as [evs0 ts0]. simpl in Hrun, H0.
    rewrite (first_rejection_running _ Hrun).
    pose proof (run_schedule_rejection true hooks
                  (schedule E (tr ++ evs0)) ts0 None (tr ++ evs0) Hrun) as H1.
    destruct (run_schedule E true hooks _ ts0 None _) as [evs1 [ts1 rej1]].
    simpl in H1.
    pose proof (run_schedule_rejection false hooks
                  (seq 0 (length ts0) ++ seq 0 (length ts0)) ts1) as H2.
    destruct H1 as [-> Hrun1]. unfold rejection_of in *.
    destruct (first_failure evs1) as [[[ev v] rest]|] eqn:Hf1.
    - specialize (H2 (Some (Thrown v)) ((tr ++ evs0) ++ evs1)).
      pose proof (run_schedule_idle hooks
                    (seq 0 (length ts0) ++ seq 0 (length ts0)) ts1 (Thrown v)
                    ((tr ++ evs0) ++ evs1)) as Hidle.
      destruct (run_schedule E false hooks _ ts1 _ _) as [evs2 [ts2 rej2]].
      simpl in *. subst evs2 rej2. rewrite app_nil_r.
      rewrite first_failure_app_None by done. by rewrite Hf1.
    - specialize (H2 None ((tr ++ evs0) ++ evs1) (Hrun1 eq_refl)).
      destruct (run_schedule E false hooks _ ts1 _ _) as [evs2 [ts2 rej2]].
      simpl in *. destruct H2 as [-> _].
      rewrite !first_failure_app_None by done.
      by destruct (first_failure evs2) as [[[ev v] rest]|]. }
  assert ((forall dir, od <> JStr dir) ->
          persistFiles E hooks od files tr =
          ([], match files with
               | [] => Ok tt
               | _ => Err (TypeError "path.join")
               end)) as Hother.
  { intros Hod. unfold persistFiles. rewrite (start_tasks_settled od files Hod).
    set (ts := map (fun _ => TDone (Err (TypeError "path.join"))) files).
    assert (Forall (fun t => exists r, t = TDone r) ts) as Hts.
    { subst ts. apply Forall_forall. intros t Ht.
      apply list_elem_of_fmap in Ht as (x & -> & _). eauto. }
    assert (first_rejection ts = None -> Forall running ts) as Hrej.
    { subst ts. by destruct files. }
    rewrite (run_schedule_settled true hooks _ ts _ _ Hts Hrej).
    rewrite (run_schedule_settled false hooks _ ts _ _ Hts Hrej).
    subst ts. by destruct files. }
  destruct od; eauto.
Qed.

End Settle.

Lemma strict_persistFiles E hooks od files : strict (persistFiles E hooks od files).
Proof.
  intros tr.
  pose proof (persistFiles_outcome E hooks od files tr) as Hout.
  pose proof (emits_persistFiles E (fun ev => is_step7 ev = true)
                (fun ev H => H) hooks od files tr) as Hev.
  destruct (first_failure (persistFiles E hooks od files tr).1)
    as [[[ev v] rest]|] eqn:Hf; [|done].
  destruct (first_failure_split _ _ _ _ Hf) as (pre & Hsplit & Hv & Hpre).
  rewrite Hsplit in Hev. apply Forall_app in Hev as [_ Hev].
  apply Forall_cons in Hev as [Hev Hrest]. rewrite Hev.
  destruct od; try (by rewrite Hout in Hf). by rewrite Hout.
Qed.

Ltac strict_step :=
  first
    [ apply strict_ret
    | apply strict_throw
    | apply strict_path_join
    | apply strict_path_dirname
    | apply strict_probe
    | apply strict_persistFiles
    | apply strict_writeFile
    | apply strict_callHook
    | apply strict_if
    | apply strict_bind; [|intros ?]
    | apply strict_perform; intros [] ?; simpl; congruence ].

Lemma strict_generateFavicons E options : strict (generateFavicons E options).
Proof.
  unfold generateFavicons, assetGeneration, filesPhase, copyIco, htmlPhase.
  cbv zeta. repeat strict_step.
Qed.

(** *** Unfolding the generator *)

Lemma bind_unfold {A B} (m : M A) (k : A -> M B) tr :
  bind m k tr =
  match (m tr).2 with
  | Ok a => ((m tr).1 ++ (k a (tr ++ (m tr).1)).1, (k a (tr ++ (m tr).1)).2)
  | Err e => ((m tr).1, Err e)
  end.
Proof.
  unfold bind. destruct (m tr) as [evs [a|e]]; simpl; [|done].
  by destruct (k a (tr ++ evs)).
Qed.

Lemma callHook_unfold E hooks n args tr :
  callHook E hooks n args tr =
  match hook_slot E hooks n with
  | Some f => ([EvHook n args (f tr args)], lift (f tr args))
  | None => ([], Ok tt)
  end.
Proof. done. Qed.

(** The existence check never throws, and answers [true] only when
    [fs.access] returned and [onSkipFiles], if there is one, returned. *)
Lemma probe_unfold E hooks od skip tr :
  probe E hooks od skip tr =
  if truthy skip then
    match fs_access E tr od with
    | Throws v => ([EvAccess od (Throws v)], Ok false)
    | Returns _ =>
        let h := callHook E hooks OnSkipFiles [od] (tr ++ [EvAccess od (Returns tt)]) in
        (EvAccess od (Returns tt) :: h.1, Ok (is_ok h.2))
    end
  else ([], Ok false).
Proof.
  unfold probe. destruct (truthy skip); [|done].
  unfold try_catch, bind, perform, ret. simpl.
  destruct (fs_access E tr od) as [[]|v]; simpl; [|done].
  destruct (callHook E hooks OnSkipFiles [od] _) as [evs [[]|e]]; simpl;
    by rewrite ?app_nil_r.
Qed.

Lemma assetGeneration_unfold E options tr :
  let p := probe E (get options "hooks") (get options "outputDir")
                 (get_default options "skipIfExists" (JBool true)) tr in
  let f := filesPhase E options (tr ++ p.1) in
  assetGeneration E options tr =
  match p.2 with
  | Ok true => (p.1, Ok tt)
  | Ok false => (p.1 ++ f.1, f.2)
  | Err e => (p.1, Err e)
  end.
Proof.
  simpl. unfold assetGeneration. rewrite bind_unfold.
  destruct (probe E _ _ _ tr) as [evs [[]|e]]; simpl; [|done..].
  by rewrite app_nil_r.
Qed.

Lemma generateFavicons_unfold E options tr :
  truthy (get options "source") = true ->
  truthy (get options "outputDir") = true ->
  let s := callHook E (get options "hooks") OnStart [] tr in
  let a := assetGeneration E options (tr ++ s.1) in
  let h := htmlPhase E options ((tr ++ s.1) ++ a.1) in
  generateFavicons E options tr =
  match s.2 with
  | Err e => (s.1, Err e)
  | Ok _ =>
      match a.2 with
      | Err e => (s.1 ++ a.1, Err e)
      | Ok _ => (s.1 ++ a.1 ++ h.1, h.2)
      end
  end.
Proof.
  intros Hs Ho. simpl. unfold generateFavicons. rewrite Hs, Ho. simpl.
  rewrite bind_unfold.
  destruct (callHook E _ OnStart [] tr) as [evs [[]|e]]; simpl; [|done].
  rewrite bind_unfold.
  by destruct (assetGeneration E options (tr ++ evs)) as [evs' [[]|e]].
Qed.

Lemma htmlPhase_unfold E options tr :
  let settings := faviconSettings options in
  let g := generateFaviconHtml E tr settings in
  htmlPhase E options tr =
  match g with
  | Throws v => ([EvGenerateHtml settings g], Err (Thrown v))
  | Returns markups =>
      let html := String.concat "" markups in
      if truthy (get options "htmlOutput") then
        match get options "htmlOutput" with
        | JStr h =>
            let dir := JStr (dirname E h) in
            let m := fs_mkdir E (tr ++ [EvGenerateHtml settings g]) dir in
            match m with
            | Throws v => ([EvGenerateHtml settings g; EvMkdir dir m], Err (Thrown v))
            | Returns _ =>
                let w := fs_writeFile E
                           (tr ++ [EvGenerateHtml settings g; EvMkdir dir m;
                                   EvWriteFile (JStr h) (Utf8Text html)])
                           (JStr h) (Utf8Text html) in
                match w with
                | Throws v =>
                    ([EvGenerateHtml settings g; EvMkdir dir m;
                      EvWriteFile (JStr h) (Utf8Text html);
                      EvWriteDone (JStr h) w], Err (Thrown v))
                | Returns _ =>
                    let c := callHook E (get options "hooks") OnHtmlWritten [JStr h]
                               (tr ++ [EvGenerateHtml settings g; EvMkdir dir m;
                                       EvWriteFile (JStr h) (Utf8Text html);
                                       EvWriteDone (JStr h) w]) in
                    (EvGenerateHtml settings g :: EvMkdir dir m ::
                     EvWriteFile (JStr h) (Utf8Text html) ::
                     EvWriteDone (JStr h) w :: c.1, c.2)
                end
            end
        | _ => ([EvGenerateHtml settings g], Err (TypeError "path.dirname"))
        end
      else ([EvGenerateHtml settings g], Ok tt)
  end.
Proof.
  simpl. unfold htmlPhase, bind, perform. simpl.
  destruct (generateFaviconHtml E tr (faviconSettings options)) as [markups|v];
    simpl; [|done].
  destruct (truthy (get options "htmlOutput")) eqn:Ht; [|done].
  destruct (get options "htmlOutput") as [| |b|n|h|r] eqn:Hh; try done.
  unfold path_dirname, ret, writeFile. simpl.
  rewrite <- !app_assoc. simpl.
  destruct (fs_mkdir E _ (JStr (dirname E h))) as [[]|v]; simpl; [|done].
  destruct (fs_writeFile E _ (JStr h) _) as [[]|v]; simpl; [|done].
  by destruct (callHook E _ OnHtmlWritten _ _).
Qed.

Lemma filesPhase_unfold E options tr :
  let od := get options "outputDir" in
  let src := get options "source" in
  let hooks := get options "hooks" in
  let settings := faviconSettings options in
  let m := fs_mkdir E tr od in
  filesPhase E options tr =
  match m with
  | Throws v => ([EvMkdir od m], Err (Thrown v))
  | Returns _ =>
      let l := loadAndConvertToSvg E (tr ++ [EvMkdir od m]) src in
      match l with
      | Throws v => ([EvMkdir od m; EvLoadSvg src l], Err (Thrown v))
      | Returns svg =>
          let a := getNodeImageAdapter E (tr ++ [EvMkdir od m; EvLoadSvg src l]) in
          match a with
          | Throws v =>
              ([EvMkdir od m; EvLoadSvg src l; EvGetAdapter a], Err (Thrown v))
          | Returns ad =>
              let g := generateFaviconFiles E
                         (tr ++ [EvMkdir od m; EvLoadSvg src l; EvGetAdapter a])
                         {| icon := svg |} settings ad in
              let pre := [EvMkdir od m; EvLoadSvg src l; EvGetAdapter a;
                          EvGenerateFiles {| icon := svg |} settings ad g] in
              match g with
              | Throws v => (pre, Err (Thrown v))
              | Returns files =>
                  let p := persistFiles E hooks od files (tr ++ pre) in
                  match p.2 with
                  | Err e => (pre ++ p.1, Err e)
                  | Ok _ =>
                      let c := copyIco E hooks od (get options "copyIcoToRoot")
                                 (get options "rootDir") (tr ++ pre ++ p.1) in
                      (pre ++ p.1 ++ c.1, c.2)
                  end
              end
          end
      end
  end.
Proof.
  simpl. unfold filesPhase, bind, perform. simpl. rewrite <- !app_assoc. simpl.
  destruct (fs_mkdir E tr _) as [[]|v]; simpl; [|done].
  destruct (loadAndConvertToSvg E _ _) as [svg|v]; simpl; [|done].
  destruct (getNodeImageAdapter E _) as [ad|v]; simpl; [|done].
  destruct (generateFaviconFiles E _ _ _ _) as [files|v]; simpl; [|done].
  rewrite <- ?app_assoc. simpl.
  destruct (persistFiles E _ _ files _) as [pevs [[]|e]]; simpl; [|done].
  rewrite <- ?app_assoc. simpl.
  by destruct (copyIco E _ _ _ _ _).
Qed.

(** *** The skip path (steps 3 and 9) *)

(** When the existence check succeeds and [onSkipFiles], if there is one,
    returns, the invocation is [onStart], the check, [onSkipFiles], and the
    HTML phase. *)
Lemma skip_path_run E options :
  let hooks := get options "hooks" in
  let od := get options "outputDir" in
  let s := callHook E hooks OnStart [] [] in
  let k := callHook E hooks OnSkipFiles [od] (s.1 ++ [EvAccess od (Returns tt)]) in
  let pre := s.1 ++ EvAccess od (Returns tt) :: k.1 in
  truthy (get options "source") = true ->
  truthy od = true ->
  truthy (get_default options "skipIfExists" (JBool true)) = true ->
  s.2 = Ok tt ->
  fs_access E s.1 od = Returns tt ->
  k.2 = Ok tt ->
  run (generateFavicons E options)
  = (pre ++ (htmlPhase E options pre).1, (htmlPhase E options pre).2).
Proof.
  simpl. intros Hs Ho Hk Hstart Hacc Hskip. unfold run.
  rewrite generateFavicons_unfold by done. simpl. rewrite Hstart.
  rewrite assetGeneration_unfold. simpl. rewrite probe_unfold, Hk, Hacc. simpl.
  rewrite Hskip. simpl. by rewrite <- app_assoc.
Qed.

Lemma htmlPhase_events E options tr :
  Forall (html_event E options) (htmlPhase E options tr).1.
Proof.
  rewrite htmlPhase_unfold. simpl.
  destruct (generateFaviconHtml E tr _) as [markups|v]; simpl;
    [|by repeat constructor].
  destruct (truthy (get options "htmlOutput")); [|by repeat constructor].
  destruct (get options "htmlOutput") as [| |b|n|h|r] eqn:Hh;
    try by repeat constructor.
  destruct (fs_mkdir E _ _) as [[]|v]; simpl.
  2: { repeat constructor; simpl; rewrite ?Hh; eauto. }
  destruct (fs_writeFile E _ _ _) as [[]|v]; simpl.
  2: { repeat constructor; simpl; rewrite ?Hh; eauto. }
  rewrite callHook_unfold.
  destruct (hook_slot E _ OnHtmlWritten); simpl;
    repeat constructor; simpl; rewrite ?Hh; eauto.
Qed.

Lemma filter_none {A} (f : A -> bool) l :
  Forall (fun x => f x = false) l -> List.filter f l = [].
Proof.
  induction 1 as [|x l Hx _ IH]; simpl; [done|]. by rewrite Hx.
Qed.

Lemma htmlPhase_filter E options tr (f : Event -> bool) :
  (forall ev, html_event E options ev -> f ev = false) ->
  List.filter f (htmlPhase E options tr).1 = [].
Proof.
  intros H. apply filter_none. eapply Forall_impl; [apply htmlPhase_events|].
  done.
Qed.

Lemma callHook_filter E hooks n args tr (f : Event -> bool) :
  (forall a, f (EvHook n args a) = false) ->
  List.filter f (callHook E hooks n args tr).1 = [].
Proof.
  intros H. rewrite callHook_unfold. destruct (hook_slot E hooks n); simpl;
    [|done]. by rewrite H.
Qed.

Ltac html_kind :=
  intros [] Hev; simpl in *; try done;
  repeat match goal with
         | n : HookName |- _ => destruct n
         | d : FileData |- _ => destruct d
         end;
  done.

(** C1 (amended).  The output directory exists, [skipIfExists] is left at
    its default or truthy, [onStart] and [onSkipFiles] return: [onSkipFiles]
    is called exactly once, with the output directory; [onFileWritten] is
    never called; no collaborator is called for the image or the file set,
    no favicon file is written and none is copied; and the only directory
    created is the parent of [htmlOutput], in the HTML step. *)
Theorem skip_path_effects E options :
  let hooks := get options "hooks" in
  let od := get options "outputDir" in
  let s := callHook E hooks OnStart [] [] in
  let k := callHook E hooks OnSkipFiles [od] (s.1 ++ [EvAccess od (Returns tt)]) in
  truthy (get options "source") = true ->
  truthy od = true ->
  truthy (get_default options "skipIfExists" (JBool true)) = true ->
  s.2 = Ok tt ->
  fs_access E s.1 od = Returns tt ->
  k.2 = Ok tt ->
  let tr := (run (generateFavicons E options)).1 in
  List.filter (is_call_of OnSkipFiles) tr
  = match hook_slot E hooks OnSkipFiles with
    | Some _ => [EvHook OnSkipFiles [od] (Returns tt)]
    | None => []
    end /\
  List.filter (is_call_of OnFileWritten) tr = [] /\
  List.filter is_normalization tr = [] /\
  List.filter is_generation tr = [] /\
  List.filter is_favicon_write tr = [] /\
  List.filter is_ico_copy tr = [] /\
  Forall (fun ev => is_mkdir ev = true ->
            exists h a, get options "htmlOutput" = JStr h /\
                        ev = EvMkdir (JStr (dirname E h)) a) tr.
Proof.
  simpl. intros Hs Ho Hk Hstart Hacc Hskip.
  rewrite (skip_path_run E options) by done. simpl.
  rewrite !List.filter_app. simpl.
  rewrite ?List.filter_app.
  rewrite !(htmlPhase_filter E options) by html_kind.
  rewrite !(callHook_filter E _ OnStart) by done.
  split.
  { rewrite app_nil_r. simpl. revert Hskip. rewrite callHook_unfold.
    destruct (hook_slot E _ OnSkipFiles) as [f|]; simpl; [|done].
    by destruct (f _ _) as [[]|v]. }
  rewrite !(callHook_filter E _ OnSkipFiles) by done.
  repeat split; try done.
  rewrite !Forall_app. repeat split.
  - rewrite callHook_unfold. destruct (hook_slot E _ OnStart); simpl;
      by repeat constructor.
  - constructor; [done|]. rewrite callHook_unfold.
    destruct (hook_slot E _ OnSkipFiles); simpl; by repeat constructor.
  - eapply Forall_impl; [apply htmlPhase_events|].
    intros [] Hev Hm; simpl in *; try done.
    destruct Hev as (h & Hh & ->). eauto.
Qed.

Lemma skip_path_effects_witness :
  let E := Samples.world ["out"] in
  let options := Samples.request 1 in
  let tr := (run (generateFavicons E options)).1 in
  List.filter (is_call_of OnSkipFiles) tr
  = match hook_slot E (get options "hooks") OnSkipFiles with
    | Some _ => [EvHook OnSkipFiles [get options "outputDir"] (Returns tt)]
    | None => []
    end /\
  List.filter (is_call_of OnFileWritten) tr = [] /\
  List.filter is_normalization tr = [] /\
  List.filter is_generation tr = [] /\
  List.filter is_favicon_write tr = [] /\
  List.filter is_ico_copy tr = [] /\
  Forall (fun ev => is_mkdir ev = true ->
            exists h a, get options "htmlOutput" = JStr h /\
                        ev = EvMkdir (JStr (dirname E h)) a) tr.
Proof.
  apply (skip_path_effects (Samples.world ["out"]) (Samples.request 1));
    vm_compute; reflexivity.
Defined.

(** C1 as stated fails: with [htmlOutput: 'gen/favicons.html'] and the
    output directory ['out'] in place, the invocation skips the files phase
    and still calls [fs.mkdir('gen', { recursive: true })]. *)
Lemma skip_path_still_creates_html_directory :
  let E := Samples.world ["out"] in
  let options := Samples.request 1 in
  let tr := (run (generateFavicons E options)).1 in
  get options "outputDir" = JStr "out" /\
  options !! "skipIfExists" = None /\
  In (EvAccess (JStr "out") (Returns tt)) tr /\
  List.filter (is_call_of OnSkipFiles) tr
  = [EvHook OnSkipFiles [JStr "out"] (Returns tt)] /\
  List.filter is_mkdir tr = [EvMkdir (JStr "gen") (Returns tt)].
Proof.
  vm_compute. repeat split; auto.
Qed.

(** C5 (amended).  On the skip path the whole body of
    [if (!outputDirExists)] is bypassed, steps 4 to 8: nothing of them
    happens between the existence check and the HTML generation, with which
    the invocation resumes (step 9), nor after it. *)
Theorem skip_path_resumes_at_html_generation E options :
  let hooks := get options "hooks" in
  let od := get options "outputDir" in
  let s := callHook E hooks OnStart [] [] in
  let k := callHook E hooks OnSkipFiles [od] (s.1 ++ [EvAccess od (Returns tt)]) in
  let pre := s.1 ++ EvAccess od (Returns tt) :: k.1 in
  truthy (get options "source") = true ->
  truthy od = true ->
  truthy (get_default options "skipIfExists" (JBool true)) = true ->
  s.2 = Ok tt ->
  fs_access E s.1 od = Returns tt ->
  k.2 = Ok tt ->
  run (generateFavicons E options)
  = (pre ++ (htmlPhase E options pre).1, (htmlPhase E options pre).2) /\
  List.filter is_files_phase pre = [] /\
  (exists rest,
     (htmlPhase E options pre).1
     = EvGenerateHtml (faviconSettings options)
         (generateFaviconHtml E pre (faviconSettings options)) :: rest) /\
  List.filter (fun ev => is_favicon_write ev || is_call_of OnFileWritten ev
                         || is_ico_copy ev)
              (run (generateFavicons E options)).1 = [].
Proof.
  simpl. intros Hs Ho Hk Hstart Hacc Hskip.
  rewrite (skip_path_run E options) by done. simpl.
  split; [done|]. rewrite !List.filter_app. simpl. rewrite ?List.filter_app.
  rewrite !(htmlPhase_filter E options) by html_kind.
  rewrite !(callHook_filter E _ OnStart) by done.
  rewrite !(callHook_filter E _ OnSkipFiles) by done.
  repeat split; try done.
  rewrite htmlPhase_unfold. simpl.
  destruct (generateFaviconHtml E _ _) as [markups|v]; [|by eexists].
  destruct (truthy (get options "htmlOutput")); [|by eexists].
  destruct (get options "htmlOutput"); try by eexists.
  destruct (fs_mkdir E _ _) as [[]|v]; [|by eexists].
  destruct (fs_writeFile E _ _ _) as [[]|v]; by eexists.
Qed.

Lemma skip_path_resumes_at_html_generation_witness :
  let E := Samples.world ["out"] in
  let options := Samples.request_copy 1 in
  let pre := [EvHook OnStart [] (Returns tt); EvAccess (JStr "out") (Returns tt);
              EvHook OnSkipFiles [JStr "out"] (Returns tt)] in
  run (generateFavicons E options)
  = (pre ++ (htmlPhase E options pre).1, (htmlPhase E options pre).2) /\
  List.filter is_files_phase pre = [] /\
  (exists rest,
     (htmlPhase E options pre).1
     = EvGenerateHtml (faviconSettings options)
         (generateFaviconHtml E pre (faviconSettings options)) :: rest) /\
  List.filter (fun ev => is_favicon_write ev || is_call_of OnFileWritten ev
                         || is_ico_copy ev)
              (run (generateFavicons E options)).1 = [].
Proof.
  apply (skip_path_resumes_at_html_generation
           (Samples.world ["out"]) (Samples.request_copy 1));
    vm_compute; reflexivity.
Defined.

(** C5 as stated fails: it has step 8 among the steps that run on the skip
    path.  With [copyIcoToRoot: true, rootDir: 'static'] and the output
    directory in place, the invocation ends normally and favicon.ico was
    never copied: no [fs.copyFile], no [onIcoCopied], and no favicon file
    written either. *)
Lemma skip_path_bypasses_persistence_and_copy :
  let E := Samples.world ["out"] in
  let options := Samples.request_copy 1 in
  let tr := (run (generateFavicons E options)).1 in
  truthy (get options "copyIcoToRoot") = true /\
  get options "rootDir" = JStr "static" /\
  In (EvAccess (JStr "out") (Returns tt)) tr /\
  (run (generateFavicons E options)).2 = Ok tt /\
  List.filter is_ico_copy tr = [] /\
  List.filter is_favicon_write tr = [] /\
  List.filter (is_call_of OnFileWritten) tr = [].
Proof.
  vm_compute. repeat split; auto.
Qed.

(** *** HTML generation and persistence (steps 9 and 10) *)

(** C2.  When the steps before it have ended normally, also by skipping
    the files phase, [generateFaviconHtml] is called with the settings; and
    when [htmlOutput] is a non-empty path and the directory creation and the
    write go through, the invocation goes on with [fs.mkdir] on the parent
    directory of [htmlOutput], [fs.writeFile] of the joined markups to
    [htmlOutput] as UTF-8 text, and [onHtmlWritten(htmlOutput)]. *)
Theorem html_is_generated_and_persisted E options pre :
  let hooks := get options "hooks" in
  let settings := faviconSettings options in
  let g := generateFaviconHtml E pre settings in
  truthy (get options "source") = true ->
  truthy (get options "outputDir") = true ->
  (callHook E hooks OnStart [] ;; assetGeneration E options) [] = (pre, Ok tt) ->
  (exists rest,
     (run (generateFavicons E options)).1 = pre ++ EvGenerateHtml settings g :: rest) /\
  forall markups h,
    g = Returns markups ->
    get options "htmlOutput" = JStr h -> h <> "" ->
    let html := String.concat "" markups in
    let dir := JStr (dirname E h) in
    let tr1 := pre ++ [EvGenerateHtml settings g] in
    let tr2 := pre ++ [EvGenerateHtml settings g; EvMkdir dir (Returns tt);
                       EvWriteFile (JStr h) (Utf8Text html)] in
    let tr3 := pre ++ [EvGenerateHtml settings g; EvMkdir dir (Returns tt);
                       EvWriteFile (JStr h) (Utf8Text html);
                       EvWriteDone (JStr h) (Returns tt)] in
    fs_mkdir E tr1 dir = Returns tt ->
    fs_writeFile E tr2 (JStr h) (Utf8Text html) = Returns tt ->
    run (generateFavicons E options)
    = (tr3 ++ match hook_slot E hooks OnHtmlWritten with
              | Some f => [EvHook OnHtmlWritten [JStr h] (f tr3 [JStr h])]
              | None => []
              end,
       match hook_slot E hooks OnHtmlWritten with
       | Some f => lift (f tr3 [JStr h])
       | None => Ok tt
       end).
Proof.
  simpl. intros Hs Ho Hpre.
  assert (run (generateFavicons E options)
          = (pre ++ (htmlPhase E options pre).1, (htmlPhase E options pre).2))
    as Hrun.
  { unfold run. rewrite generateFavicons_unfold by done. simpl in *.
    rewrite bind_unfold in Hpre. simpl in Hpre.
    destruct (callHook E _ OnStart [] []) as [evs [[]|e]]; simpl in *; [|done].
    destruct (assetGeneration E options evs) as [evs' [[]|e]]; simpl in *;
      [|done].
    injection Hpre as <-. by rewrite app_assoc. }
  rewrite Hrun, htmlPhase_unfold. simpl. split.
  - destruct (generateFaviconHtml E pre _) as [markups|v]; [|by eexists].
    destruct (truthy (get options "htmlOutput")); [|by eexists].
    destruct (get options "htmlOutput"); try by eexists.
    destruct (fs_mkdir E _ _) as [[]|v]; [|by eexists].
    destruct (fs_writeFile E _ _ _) as [[]|v]; by eexists.
  - intros markups h -> -> Hh Hm Hw. simpl.
    assert (String.eqb h "" = false) as -> by by apply String.eqb_neq.
    simpl. rewrite Hm, Hw, callHook_unfold.
    destruct (hook_slot E _ OnHtmlWritten) as [f|]; simpl;
      by rewrite <- ?app_assoc.
Qed.

Lemma html_is_generated_and_persisted_witness :
  let E := Samples.world ["out"] in
  let options := Samples.request 1 in
  let pre := [EvHook OnStart [] (Returns tt); EvAccess (JStr "out") (Returns tt);
              EvHook OnSkipFiles [JStr "out"] (Returns tt)] in
  let g := Returns ["<link rel=icon href=/favicons/favicon.ico>";
                    "<meta name=apple-mobile-web-app-title>"] in
  let html := "<link rel=icon href=/favicons/favicon.ico><meta name=apple-mobile-web-app-title>" in
  run (generateFavicons E options)
  = (pre ++ [EvGenerateHtml (faviconSettings options) g;
             EvMkdir (JStr "gen") (Returns tt);
             EvWriteFile (JStr "gen/favicons.html") (Utf8Text html);
             EvWriteDone (JStr "gen/favicons.html") (Returns tt);
             EvHook OnHtmlWritten [JStr "gen/favicons.html"] (Returns tt)],
     Ok tt).
Proof.
  pose proof (html_is_generated_and_persisted
                (Samples.world ["out"]) (Samples.request 1)
                [EvHook OnStart [] (Returns tt);
                 EvAccess (JStr "out") (Returns tt);
                 EvHook OnSkipFiles [JStr "out"] (Returns tt)]
                eq_refl eq_refl eq_refl) as [_ H].
  exact (H _ "gen/favicons.html" eq_refl eq_refl ltac:(done) eq_refl eq_refl).
Defined.

(** *** The existence check (step 3) *)

Lemma not_in_split {A} (Q : A -> Prop) l tr1 ev tr2 :
  Forall (fun e => ~ Q e) l -> Q ev -> l <> tr1 ++ ev :: tr2.
Proof.
  intros Hl Hev ->. apply Forall_app in Hl as [_ Hl].
  by apply Forall_cons in Hl as [Hl _].
Qed.

Lemma skip_follows_access_none od evs :
  Forall not_skip_call evs -> skip_follows_access od evs.
Proof.
  intros H tr1 args a tr2 ->. apply Forall_app in H as [_ H].
  by apply Forall_cons in H as [H _].
Qed.

Lemma skip_follows_access_app_r od l1 l2 :
  Forall not_skip_call l1 -> skip_follows_access od l2 ->
  skip_follows_access od (l1 ++ l2).
Proof.
  induction l1 as [|y l1 IH]; intros H1 H2; [done|].
  apply Forall_cons in H1 as [Hy H1]. specialize (IH H1 H2).
  intros [|z tr1] args a tr2 Heq; simpl in *.
  - injection Heq as -> _. done.
  - injection Heq as -> Heq. destruct (IH _ _ _ _ Heq) as (-> & tr0 & ->).
    split; [done|]. by exists (z :: tr0).
Qed.

Lemma skip_follows_access_app_l od l1 l2 :
  skip_follows_access od l1 -> Forall not_skip_call l2 ->
  skip_follows_access od (l1 ++ l2).
Proof.
  intros H1 H2 tr1 args a tr2 Heq.
  apply app_eq_app in Heq as (k & [[-> Heq]|[-> Heq]]).
  - destruct k as [|z k]; simpl in *.
    + subst l2. by apply Forall_cons in H2 as [H2 _].
    + injection Heq as <- ->. by eapply H1.
  - subst l2. apply Forall_app in H2 as [_ H2].
    by apply Forall_cons in H2 as [H2 _].
Qed.

Lemma probe_skip_follows_access E hooks od skip tr :
  skip_follows_access od (probe E hooks od skip tr).1.
Proof.
  rewrite probe_unfold. destruct (truthy skip).
  2: { by apply skip_follows_access_none. }
  destruct (fs_access E tr od) as [[]|v]; simpl.
  2: { apply skip_follows_access_none. by repeat constructor. }
  rewrite callHook_unfold. destruct (hook_slot E hooks OnSkipFiles) as [f|]; simpl.
  2: { apply skip_follows_access_none. by repeat constructor. }
  intros [|z [|z' tr1]] args a tr2 Heq; simpl in *.
  - done.
  - injection Heq as -> -> _. split; [done|]. by exists [].
  - injection Heq as _ _ Heq. by destruct tr1.
Qed.

Lemma emits_not_skip_call E options :
  emits not_skip_call (filesPhase E options) /\
  emits not_skip_call (htmlPhase E options) /\
  emits not_skip_call (callHook E (get options "hooks") OnStart []).
Proof.
  repeat split.
  - unfold filesPhase, copyIco. cbv zeta. repeat emits_step; try done.
    by match goal with h : HookName |- _ => destruct h end.
  - unfold htmlPhase. cbv zeta. by repeat emits_step.
  - by emits_step.
Qed.

(** C10.  The existence check never throws; when [fs.access] throws the
    answer is "does not exist" and the files phase runs on; and
    [onSkipFiles] is only ever called right after [fs.access] has returned,
    with the output directory. *)
Theorem existence_check_is_total E options :
  let hooks := get options "hooks" in
  let od := get options "outputDir" in
  let skip := get_default options "skipIfExists" (JBool true) in
  (forall tr, exists b, (probe E hooks od skip tr).2 = Ok b) /\
  (forall tr v,
     truthy skip = true -> fs_access E tr od = Throws v ->
     probe E hooks od skip tr = ([EvAccess od (Throws v)], Ok false) /\
     assetGeneration E options tr
     = (EvAccess od (Throws v)
          :: (filesPhase E options (tr ++ [EvAccess od (Throws v)])).1,
        (filesPhase E options (tr ++ [EvAccess od (Throws v)])).2)) /\
  (forall tr1 args a tr2,
     (run (generateFavicons E options)).1
     = tr1 ++ EvHook OnSkipFiles args a :: tr2 ->
     args = [od] /\ exists tr0, tr1 = tr0 ++ [EvAccess od (Returns tt)]).
Proof.
  simpl. split; [|split].
  - intros tr. rewrite probe_unfold.
    destruct (truthy _); [|by eexists].
    destruct (fs_access E tr _) as [[]|v]; by eexists.
  - intros tr v Hk Hacc. rewrite assetGeneration_unfold. simpl.
    rewrite probe_unfold, Hk, Hacc. done.
  - fold (skip_follows_access (get options "outputDir")
            (run (generateFavicons E options)).1).
    destruct (emits_not_skip_call E options) as (Hfiles & Hhtml & Hstart).
    unfold run.
    destruct (truthy (get options "source")) eqn:Hs.
    2: { unfold generateFavicons. rewrite Hs.
         by apply skip_follows_access_none. }
    destruct (truthy (get options "outputDir")) eqn:Ho.
    2: { unfold generateFavicons. rewrite Hs, Ho.
         by apply skip_follows_access_none. }
    rewrite generateFavicons_unfold by done. simpl.
    specialize (Hstart []).
    assert (forall tr, skip_follows_access (get options "outputDir")
                         (assetGeneration E options tr).1) as Hasset.
    { intros tr. rewrite assetGeneration_unfold. simpl.
      pose proof (probe_skip_follows_access E (get options "hooks")
                    (get options "outputDir")
                    (get_default options "skipIfExists" (JBool true)) tr) as Hp.
      destruct (probe E _ _ _ tr) as [pevs [[]|e]]; simpl in *; try done.
      by apply skip_follows_access_app_l. }
    destruct (callHook E _ OnStart [] []) as [evs [[]|e]]; simpl in *.
    2: { by apply skip_follows_access_none. }
    specialize (Hasset evs).
    specialize (Hhtml (evs ++ (assetGeneration E options evs).1)).
    destruct (assetGeneration E options evs) as [aevs [[]|e]]; simpl in *.
    + apply skip_follows_access_app_r; [done|].
      by apply skip_follows_access_app_l.
    + by apply skip_follows_access_app_r.
Qed.

(** *** The copy of favicon.ico (step 8) *)

Lemma callHook_outcome E hooks n args tr m :
  (callHook E hooks n args tr).2 <> Err (ConfigError m).
Proof.
  rewrite callHook_unfold. destruct (hook_slot E hooks n) as [f|]; simpl;
    [|done]. by destruct (f tr args).
Qed.

Lemma htmlPhase_outcome E options tr m :
  (htmlPhase E options tr).2 <> Err (ConfigError m).
Proof.
  rewrite htmlPhase_unfold. simpl.
  destruct (generateFaviconHtml E tr _) as [markups|v]; [|done].
  destruct (truthy (get options "htmlOutput")); [|done].
  destruct (get options "htmlOutput"); try done.
  destruct (fs_mkdir E _ _) as [[]|v]; [|done].
  destruct (fs_writeFile E _ _ _) as [[]|v]; [|done].
  apply callHook_outcome.
Qed.


Lemma persistFiles_outcome_not_config E hooks od files tr m :
  (persistFiles E hooks od files tr).2 <> Err (ConfigError m).
Proof.
  pose proof (persistFiles_outcome E hooks od files tr) as H.
  destruct od; try (rewrite H; by destruct files).
  rewrite H. by destruct (first_failure _) as [[[ev v] rest]|].
Qed.

Lemma in_filter_true {A} (f : A -> bool) l x :
  In x l -> f x = true -> List.filter f l <> [].
Proof.
  intros Hin Hf Hnil. assert (In x (List.filter f l)) as H.
  { apply List.filter_In. done. }
  by rewrite Hnil in H.
Qed.


Lemma probe_filter E hooks od skip tr (f : Event -> bool) :
  (forall a, f (EvAccess od a) = false) ->
  (forall a, f (EvHook OnSkipFiles [od] a) = false) ->
  List.filter f (probe E hooks od skip tr).1 = [].
Proof.
  intros Ha Hh. apply filter_none.
  by apply (emits_probe E (fun ev => f ev = false)).
Qed.

Lemma probe_returns E hooks od skip tr :
  exists b, (probe E hooks od skip tr).2 = Ok b.
Proof.
  rewrite probe_unfold. destruct (truthy skip); [|by eexists].
  destruct (fs_access E tr od) as [[]|v]; by eexists.
Qed.

Lemma probe_first_failure E hooks od skip tr :
  first_failure (probe E hooks od skip tr).1 = None.
Proof.
  apply first_failure_None. by apply (emits_probe E (fun ev => failure ev = None)).
Qed.

Lemma callHook_first_failure E hooks n args tr :
  (callHook E hooks n args tr).2 = Ok tt ->
  first_failure (callHook E hooks n args tr).1 = None.
Proof.
  rewrite callHook_unfold. destruct (hook_slot E hooks n) as [f|]; [|done].
  simpl. destruct (f tr args) as [[]|v]; [|done]. by destruct n.
Qed.




(** *** Hooks that throw *)

(** C8 (code bug).  A hook that throws is to abort the pipeline at its call
    and its exception is to reach the caller.  The call of [onSkipFiles]
    does neither: it sits inside the [try] written around [fs.access], whose
    [catch] takes the exception for a missing directory.  With the output
    directory ['out'] in place and an [onSkipFiles] that throws, the
    exception is caught, [outputDirExists] is set back to [false], the files
    phase runs over the existing assets (the directory is created, three
    files are written), the HTML is written and the invocation ends
    normally. *)
Lemma throwing_onSkipFiles_is_caught :
  let E := Samples.world ["out"] in
  let options := Samples.request 2 in
  let tr := (run (generateFavicons E options)).1 in
  take 3 tr = [EvHook OnStart [] (Returns tt);
               EvAccess (JStr "out") (Returns tt);
               EvHook OnSkipFiles [JStr "out"] (Throws (JStr "hook failed"))] /\
  List.filter is_mkdir tr = [EvMkdir (JStr "out") (Returns tt);
                             EvMkdir (JStr "gen") (Returns tt)] /\
  length (List.filter is_favicon_write tr) = 3 /\
  (run (generateFavicons E options)).2 = Ok tt.
Proof.
  vm_compute. repeat split; auto.
Qed.

(** *** The collaborators come before the writes (steps 5 to 7) *)

Lemma split_middle {A} (Q : A -> Prop) (a f h tr1 tr2 : list A) x :
  Forall (fun e => ~ Q e) a -> Forall (fun e => ~ Q e) h -> Q x ->
  a ++ f ++ h = tr1 ++ x :: tr2 ->
  exists t1 t2, tr1 = a ++ t1 /\ f = t1 ++ x :: t2.
Proof.
  intros Ha Hh Hx Heq.
  apply app_eq_app in Heq as (k & [[Hk Heq]|[Hk Heq]]).
  - (* the split point is inside [a] *)
    destruct k as [|z k]; simpl in *.
    + destruct f as [|y f]; simpl in *.
      * subst h. by apply Forall_cons in Hh as [Hh _].
      * injection Heq as Hy Ht. subst. exists [], f.
        by rewrite !app_nil_r.
    + injection Heq as Hz _. subst. apply Forall_app in Ha as [_ Ha].
      by apply Forall_cons in Ha as [Ha _].
  - subst tr1. apply app_eq_app in Heq as (k' & [[Hk' Heq]|[Hk' Heq]]).
    + destruct k' as [|z k']; simpl in *.
      * subst h. by apply Forall_cons in Hh as [Hh _].
      * injection Heq as Hz Ht. subst. by exists k, k'.
    + subst. apply Forall_app in Hh as [_ Hh].
      by apply Forall_cons in Hh as [Hh _].
Qed.

Lemma filesPhase_collaborators E options tr :
  let f := filesPhase E options tr in
  (forall v,
     List.filter (is_collaborator_failure v) f.1 <> [] ->
     f.2 = Err (Thrown v) /\
     List.filter is_favicon_write f.1 = [] /\
     List.filter (is_call_of OnFileWritten) f.1 = []) /\
  (forall tr1 p d tr2,
     f.1 = tr1 ++ EvWriteFile p (Buffer d) :: tr2 ->
     exists svg ad files,
       In (EvLoadSvg (get options "source") (Returns svg)) tr1 /\
       In (EvGenerateFiles {| icon := svg |} (faviconSettings options) ad
                           (Returns files)) tr1).
Proof.
  simpl. rewrite filesPhase_unfold. simpl.
  destruct (fs_mkdir E tr _) as [[]|v0].
  2: { split; [done|]. by intros [|? [|? ?]]. }
  destruct (loadAndConvertToSvg E _ _) as [svg|v0].
  2: { split.
       - intros v. simpl. case_bool_decide; [by subst|done].
       - by intros [|? [|? [|? ?]]]. }
  destruct (getNodeImageAdapter E _) as [ad|v0].
  2: { split; [done|]. by intros [|? [|? [|? [|? ?]]]]. }
  destruct (generateFaviconFiles E _ _ _ _) as [files|v0].
  2: { split.
       - intros v. simpl. case_bool_decide; [by subst|done].
       - by intros [|? [|? [|? [|? [|? ?]]]]]. }
  set (pre := [EvMkdir _ _; EvLoadSvg _ _; EvGetAdapter _; EvGenerateFiles _ _ _ _]).
  pose proof (emits_persistFiles E (fun ev => is_step7 ev = true)
                (fun ev H => H) (get options "hooks")
                (get options "outputDir") files (tr ++ pre)) as Hev.
  destruct (persistFiles E _ _ files (tr ++ pre)) as [pevs rp]. simpl in Hev.
  assert (forall cevs,
            Forall (fun ev => is_ico_copy ev = true) cevs ->
            (forall v, List.filter (is_collaborator_failure v)
                         (pre ++ pevs ++ cevs) = []) /\
            (forall tr1 p d tr2,
               pre ++ pevs ++ cevs = tr1 ++ EvWriteFile p (Buffer d) :: tr2 ->
               exists svg ad files,
                 In (EvLoadSvg (get options "source") (Returns svg)) tr1 /\
                 In (EvGenerateFiles {| icon := svg |} (faviconSettings options)
                                     ad (Returns files)) tr1)) as Hgen.
  { intros cevs Hc. split.
    - intros v. rewrite !List.filter_app. simpl.
      rewrite !filter_none; [done| |].
      + eapply Forall_impl; [exact Hc|]. by intros [[] | | | | | | | | | ].
      + eapply Forall_impl; [exact Hev|]. by intros [[] | | | | | | [] | | | ].
    - intros tr1 p d tr2 Hsplit. exists svg, ad, files.
      destruct (split_middle (fun ev => is_favicon_write ev = true)
                  pre pevs cevs tr1 tr2 (EvWriteFile p (Buffer d)))
        as (t1 & t2 & -> & _); try done.
      + by repeat constructor.
      + eapply Forall_impl; [exact Hc|]. by intros [[] | | | | | | | | | ].
      + split; apply in_or_app; left; simpl; auto. }
  destruct rp as [[]|e]; cbn [fst snd].
  - set (c := copyIco E _ _ _ _ _).
    assert (Forall (fun ev => is_ico_copy ev = true) c.1) as Hc.
    { by apply (emits_copyIco E (fun ev => is_ico_copy ev = true)). }
    destruct (Hgen c.1 Hc) as [H1 H2]. split; [|exact H2].
    intros v Hv. by destruct Hv.
  - destruct (Hgen [] ltac:(constructor)) as [H1 H2].
    rewrite app_nil_r in H1, H2. split; [|exact H2].
    intros v Hv. by destruct Hv.
Qed.

(** C6.  When [loadAndConvertToSvg] or [generateFaviconFiles] throws, the
    invocation ends with what it threw, and no favicon file is written nor
    [onFileWritten] called in it; and before any favicon file is written,
    both collaborators have returned. *)
Theorem collaborator_failure_writes_no_file E options :
  let tr := (run (generateFavicons E options)).1 in
  let out := (run (generateFavicons E options)).2 in
  (forall v,
     (exists src, In (EvLoadSvg src (Throws v)) tr) \/
     (exists m settings ad, In (EvGenerateFiles m settings ad (Throws v)) tr) ->
     out = Err (Thrown v) /\
     List.filter is_favicon_write tr = [] /\
     List.filter (is_call_of OnFileWritten) tr = []) /\
  (forall tr1 p d tr2,
     tr = tr1 ++ EvWriteFile p (Buffer d) :: tr2 ->
     exists svg ad files,
       In (EvLoadSvg (get options "source") (Returns svg)) tr1 /\
       In (EvGenerateFiles {| icon := svg |} (faviconSettings options) ad
                           (Returns files)) tr1).
Proof.
  simpl.
  assert (forall v,
     (exists src, In (EvLoadSvg src (Throws v))
                     (run (generateFavicons E options)).1) \/
     (exists m settings ad, In (EvGenerateFiles m settings ad (Throws v))
                               (run (generateFavicons E options)).1) ->
     List.filter (is_collaborator_failure v)
                 (run (generateFavicons E options)).1 <> []) as Hin.
  { intros v [(src & H)|(m & s & ad & H)];
      (eapply in_filter_true; [exact H|]); simpl; by case_bool_decide. }
  cut ((forall v,
          List.filter (is_collaborator_failure v)
                      (run (generateFavicons E options)).1 <> [] ->
          (run (generateFavicons E options)).2 = Err (Thrown v) /\
          List.filter is_favicon_write (run (generateFavicons E options)).1 = [] /\
          List.filter (is_call_of OnFileWritten)
                      (run (generateFavicons E options)).1 = []) /\
       (forall tr1 p d tr2,
          (run (generateFavicons E options)).1
          = tr1 ++ EvWriteFile p (Buffer d) :: tr2 ->
          exists svg ad files,
            In (EvLoadSvg (get options "source") (Returns svg)) tr1 /\
            In (EvGenerateFiles {| icon := svg |} (faviconSettings options) ad
                                (Returns files)) tr1)).
  { intros [H1 H2]. split; [|exact H2]. intros v Hv. apply H1, Hin, Hv. }
  clear Hin. unfold run.
  destruct (truthy (get options "source")) eqn:Hs.
  2: { unfold generateFavicons. rewrite Hs. simpl.
       split; [intros v H; by destruct H|].
       intros tr1 p d tr2 Heq. by destruct tr1. }
  destruct (truthy (get options "outputDir")) eqn:Ho.
  2: { unfold generateFavicons. rewrite Hs, Ho. simpl.
       split; [intros v H; by destruct H|].
       intros tr1 p d tr2 Heq. by destruct tr1. }
  rewrite generateFavicons_unfold by done. simpl.
  pose proof (callHook_filter E (get options "hooks") OnStart [] []) as Hsf.
  destruct (callHook E _ OnStart [] []) as [sevs rs]; simpl in *.
  assert (Forall (fun ev => ~ is_favicon_write ev = true) sevs) as Hsw.
  { apply Forall_forall. intros ev Hev%list_elem_of_In Hw.
    eapply (in_filter_true is_favicon_write); [exact Hev|exact Hw|].
    by apply Hsf. }
  destruct rs as [[]|e].
  2: { split; [intros v H; rewrite Hsf in H by done; by destruct H|].
       intros tr1 p d tr2 Heq.
       by destruct (not_in_split (fun ev => is_favicon_write ev = true) _
                      tr1 (EvWriteFile p (Buffer d)) tr2 Hsw eq_refl). }
  rewrite assetGeneration_unfold. simpl.
  pose proof (probe_filter E (get options "hooks") (get options "outputDir")
                (get_default options "skipIfExists" (JBool true)) sevs) as Hpf.
  destruct (probe_returns E (get options "hooks") (get options "outputDir")
              (get_default options "skipIfExists" (JBool true)) sevs)
    as [b Hb].
  destruct (probe E _ _ _ sevs) as [pevs rp]; simpl in *. subst rp.
  assert (Forall (fun ev => ~ is_favicon_write ev = true) (sevs ++ pevs)) as Hpw.
  { apply Forall_app. split; [done|].
    apply Forall_forall. intros ev Hev%list_elem_of_In Hw.
    eapply (in_filter_true is_favicon_write); [exact Hev|exact Hw|].
    by apply Hpf. }
  assert (forall tr', Forall (fun ev => ~ is_favicon_write ev = true)
                        (htmlPhase E options tr').1) as Hhw.
  { intros tr'. eapply Forall_impl; [apply htmlPhase_events|].
    intros [] Hev; simpl in *; try done.
    by match goal with d : FileData |- _ => destruct d end. }
  destruct b; simpl.
  - (* the files phase is skipped *)
    split.
    { intros v H. exfalso. apply H.
      rewrite !List.filter_app, !(htmlPhase_filter E options) by html_kind.
      by rewrite !Hsf, !Hpf by done. }
    intros tr1 p d tr2 Heq. rewrite app_assoc in Heq.
    pose proof (Forall_app_2 _ _ _ Hpw (Hhw (sevs ++ pevs))) as Hall.
    by destruct (not_in_split (fun ev => is_favicon_write ev = true) _
                   tr1 (EvWriteFile p (Buffer d)) tr2 Hall eq_refl).
  - (* the files phase runs *)
    destruct (filesPhase_collaborators E options (sevs ++ pevs)) as [Hfail Hord].
    specialize (Hhw ((sevs ++ pevs) ++ (filesPhase E options (sevs ++ pevs)).1)).
    destruct (filesPhase E options (sevs ++ pevs)) as [fevs rf]; simpl in *.
    assert (forall hevs,
              Forall (fun ev => ~ is_favicon_write ev = true) hevs ->
              forall tr1 p d tr2,
                sevs ++ pevs ++ fevs ++ hevs
                = tr1 ++ EvWriteFile p (Buffer d) :: tr2 ->
                exists svg ad files,
                  In (EvLoadSvg (get options "source") (Returns svg)) tr1 /\
                  In (EvGenerateFiles {| icon := svg |}
                        (faviconSettings options) ad (Returns files)) tr1)
      as Hord'.
    { intros hevs Hh tr1 p d tr2 Heq. rewrite app_assoc in Heq.
      destruct (split_middle (fun ev => is_favicon_write ev = true)
                  (sevs ++ pevs) fevs hevs tr1 tr2 (EvWriteFile p (Buffer d)))
        as (t1 & t2 & -> & Hf); try done.
      destruct (Hord _ _ _ _ Hf) as (svg & ad & files & H1 & H2).
      exists svg, ad, files. split; apply in_or_app; by right. }
    destruct rf as [[]|e]; cbn [fst snd].
    + split.
      * intros v Hv. exfalso. apply Hv.
        rewrite !List.filter_app, !(htmlPhase_filter E options) by html_kind.
        rewrite !Hsf, !Hpf by done. simpl. rewrite app_nil_r.
        destruct (List.filter (is_collaborator_failure v) fevs) eqn:Hff;
          [done|]. destruct (Hfail v) as [? _]; [by rewrite Hff|done].
      * intros tr1 p d tr2 Heq. rewrite <- app_assoc in Heq.
        rewrite <- app_assoc in Hhw. by eapply Hord'.
    + split.
      * intros v Hv. rewrite !List.filter_app in *.
        rewrite !Hsf, !Hpf in * by done. simpl in *. by apply Hfail.
      * intros tr1 p d tr2 Heq. apply (Hord' [] ltac:(constructor) tr1 p d tr2).
        by rewrite app_nil_r.
Qed.

Lemma collaborator_failure_writes_no_file_witness :
  let E := Samples.world_bad_image [] in
  let options := Samples.request 1 in
  (run (generateFavicons E options)).2
  = Err (Thrown (JStr "unsupported image")) /\
  List.filter is_favicon_write (run (generateFavicons E options)).1 = [] /\
  List.filter (is_call_of OnFileWritten) (run (generateFavicons E options)).1 = [].
Proof.
  apply (proj1 (collaborator_failure_writes_no_file
                  (Samples.world_bad_image []) (Samples.request 1))).
  left. exists (JStr "logo.png"). vm_compute. auto 10.
Defined.

(** *** The adapters *)

Lemma resolve_optional_typed E v tr :
  optional_string v ->
  resolve_optional E (cwd E) v tr = ([], Ok (resolved_optional E v)).
Proof.
  intros [->|[s ->]]; [done|]. unfold resolve_optional, resolved_optional.
  simpl. by destruct (String.eqb s "").
Qed.

Lemma resolved_options_typed E options s d tr :
  get options "source" = JStr s ->
  get options "outputDir" = JStr d ->
  optional_string (get options "rootDir") ->
  optional_string (get options "htmlOutput") ->
  resolved_options E (cwd E) options tr =
  ([], Ok (<["htmlOutput" := resolved_optional E (get options "htmlOutput")]>
           (<["rootDir" := resolved_optional E (get options "rootDir")]>
            (<["outputDir" := JStr (resolve E (cwd E) d)]>
             (<["source" := JStr (resolve E (cwd E) s)]> options))))).
Proof.
  intros Hs Hd Hr Hh. unfold resolved_options, bind. rewrite Hs, Hd.
  cbn [path_resolve ret]. rewrite (resolve_optional_typed E _ _ Hr).
  by rewrite (resolve_optional_typed E _ _ Hh).
Qed.

(** C9.  On an options record of the declared type, both adapters call
    [generateFavicons] once, with [source] and [outputDir] resolved against
    [process.cwd()], [rootDir] and [htmlOutput] resolved when they are
    non-empty and [undefined] otherwise, and every other property, the
    hooks among them, as it is in the record; they do nothing else. *)
Theorem adapters_resolve_paths_and_forward E options s d :
  get options "source" = JStr s ->
  get options "outputDir" = JStr d ->
  optional_string (get options "rootDir") ->
  optional_string (get options "htmlOutput") ->
  exists forwarded : JsObject,
    (forall tr, generateFaviconsNode E options tr = generateFavicons E forwarded tr) /\
    (forall tr, buildStart (realFavicon E options) tr
                = generateFavicons E forwarded tr) /\
    get forwarded "source" = JStr (resolve E (cwd E) s) /\
    get forwarded "outputDir" = JStr (resolve E (cwd E) d) /\
    get forwarded "rootDir" = resolved_optional E (get options "rootDir") /\
    get forwarded "htmlOutput" = resolved_optional E (get options "htmlOutput") /\
    (forall k, k ∉ ["source"; "outputDir"; "rootDir"; "htmlOutput"] ->
               forwarded !! k = options !! k) /\
    get forwarded "hooks" = get options "hooks" /\
    get_default forwarded "skipIfExists" (JBool true)
    = get_default options "skipIfExists" (JBool true) /\
    faviconSettings forwarded = faviconSettings options.
Proof.
  intros Hs Hd Hr Hh.
  pose proof (resolved_options_typed E options s d) as Hres.
  exists (<["htmlOutput" := resolved_optional E (get options "htmlOutput")]>
          (<["rootDir" := resolved_optional E (get options "rootDir")]>
           (<["outputDir" := JStr (resolve E (cwd E) d)]>
            (<["source" := JStr (resolve E (cwd E) s)]> options)))).
  split; [|split].
  - intros tr. unfold generateFaviconsNode. rewrite bind_unfold.
    rewrite (Hres tr Hs Hd Hr Hh). simpl. rewrite app_nil_r.
    by destruct (generateFavicons E _ tr).
  - intros tr. unfold realFavicon. simpl. rewrite bind_unfold.
    rewrite (Hres tr Hs Hd Hr Hh). simpl. rewrite app_nil_r.
    by destruct (generateFavicons E _ tr).
  - assert (forall k, k ∉ ["source"; "outputDir"; "rootDir"; "htmlOutput"] ->
              (<["htmlOutput" := resolved_optional E (get options "htmlOutput")]>
               (<["rootDir" := resolved_optional E (get options "rootDir")]>
                (<["outputDir" := JStr (resolve E (cwd E) d)]>
                 (<["source" := JStr (resolve E (cwd E) s)]> options)))) !! k
              = options !! k) as Hother.
    { intros k Hk. rewrite !not_elem_of_cons in Hk.
      rewrite !lookup_insert_ne; [done|intros Heq; subst k; tauto..]. }
    unfold get, get_default. repeat split.
    + by rewrite !lookup_insert_ne, lookup_insert_eq by done.
    + by rewrite !lookup_insert_ne, lookup_insert_eq by done.
    + by rewrite !lookup_insert_ne, lookup_insert_eq by done.
    + by rewrite lookup_insert_eq.
    + exact Hother.
    + rewrite Hother; [done|].
      rewrite !not_elem_of_cons. repeat split; try done. apply not_elem_of_nil.
    + rewrite Hother; [done|].
      rewrite !not_elem_of_cons. repeat split; try done. apply not_elem_of_nil.
    + apply map_eq. intros k. rewrite !faviconSettings_lookup.
      case_bool_decide as Hk; [done|]. apply Hother.
      intros Hin. apply Hk. unfold orchestration_keys.
      rewrite !elem_of_cons in *. tauto.
Qed.

Lemma adapters_resolve_paths_and_forward_witness :
  exists forwarded : JsObject,
    (forall tr, generateFaviconsNode (Samples.world []) (Samples.request_copy 1) tr
                = generateFavicons (Samples.world []) forwarded tr) /\
    (forall tr, buildStart (realFavicon (Samples.world []) (Samples.request_copy 1)) tr
                = generateFavicons (Samples.world []) forwarded tr) /\
    get forwarded "source" = JStr "/work/logo.png" /\
    get forwarded "outputDir" = JStr "/work/out" /\
    get forwarded "rootDir" = JStr "/work/static" /\
    get forwarded "htmlOutput" = JStr "/work/gen/favicons.html" /\
    (forall k, k ∉ ["source"; "outputDir"; "rootDir"; "htmlOutput"] ->
               forwarded !! k = Samples.request_copy 1 !! k) /\
    get forwarded "hooks" = JRef 1 /\
    get_default forwarded "skipIfExists" (JBool true) = JBool true /\
    faviconSettings forwarded = faviconSettings (Samples.request_copy 1).
Proof.
  apply (adapters_resolve_paths_and_forward
           (Samples.world []) (Samples.request_copy 1) "logo.png" "out").
  - vm_compute. reflexivity.
  - vm_compute. reflexivity.
  - right. eexists. vm_compute. reflexivity.
  - right. eexists. vm_compute. reflexivity.
Defined.

(** *** Step 7 waits for every write *)

Section Waits.

Variable E : Env.
Variable hooks : JsVal.
Variable dir : string.

Lemma task_of_incl evs evs' entry t :
  (forall ev, In ev evs -> In ev evs') ->
  task_of E hooks dir evs entry t -> task_of E hooks dir evs' entry t.
Proof.
  intros Hincl. destruct t as [tg b|tg d|[[]|e]]; simpl; try done.
  - intros (-> & -> & H). auto.
  - intros (H1 & H2 & H3). repeat split; auto.
Qed.

Lemma task_of_mono evs evs' entry t :
  task_of E hooks dir evs entry t -> task_of E hooks dir (evs ++ evs') entry t.
Proof. apply task_of_incl. intros ev H. apply in_or_app. by left. Qed.

Lemma start_tasks_task_of entries :
  Forall2 (task_of E hooks dir (start_tasks E (JStr dir) entries).1)
          entries (start_tasks E (JStr dir) entries).2.
Proof.
  induction entries as [|[f c] entries IH]; simpl; [constructor|].
  destruct (start_tasks E (JStr dir) entries) as [evs' ts]. simpl in *.
  destruct c as [b|s|b]; simpl; constructor; simpl; auto;
    (eapply Forall2_impl; [exact IH|]); intros entry t;
    apply task_of_incl; intros ev H; by right.
Qed.

Lemma step_task_task_of evs entry t tr :
  task_of E hooks dir evs entry t ->
  task_of E hooks dir (evs ++ (step_task E hooks t tr).1) entry
          (step_task E hooks t tr).2.
Proof.
  destruct t as [tg b|tg d|r]; simpl.
  - intros [-> ->]. repeat split. apply in_or_app. right. by left.
  - intros (-> & -> & Hw).
    destruct (fs_writeFile E tr _ _) as [[]|v]; simpl; [|done].
    rewrite callHook_unfold.
    destruct (hook_slot E hooks OnFileWritten) as [f|] eqn:Hslot; simpl.
    + destruct (f _ _) as [[]|v]; simpl; [|done].
      split; [|split]; [| |intros _]; apply in_or_app; simpl; auto.
    + split; [|split]; [| |intros [x Hx]; congruence];
        apply in_or_app; simpl; auto.
  - rewrite app_nil_r. done.
Qed.

Lemma step_task_awaits_left t tr :
  awaits_left (step_task E hooks t tr).2 <= awaits_left t - 1.
Proof.
  destruct t as [tg b|tg d|r]; simpl; try lia.
  destruct (fs_writeFile E tr _ _) as [[]|v]; simpl; [|lia].
  destruct (callHook E hooks OnFileWritten _ _). simpl. lia.
Qed.

Lemma run_schedule_task_of bg sched entries ts rej tr evs :
  Forall2 (task_of E hooks dir evs) entries ts ->
  Forall2 (task_of E hooks dir
             (evs ++ (run_schedule E bg hooks sched ts rej tr).1))
          entries (run_schedule E bg hooks sched ts rej tr).2.1.
Proof.
  revert ts rej tr evs. induction sched as [|i sched IH];
    intros ts rej tr evs Hts; simpl.
  - by rewrite app_nil_r.
  - destruct (negb bg && bool_decide (is_Some rej)); simpl.
    { by rewrite app_nil_r. }
    destruct (ts !! i) as [t|] eqn:Hi; [|by apply IH].
    destruct (Forall2_lookup_r _ _ _ _ _ Hts Hi) as (entry & Hentry & Ht).
    pose proof (step_task_task_of evs entry t tr Ht) as Hstep.
    destruct (step_task E hooks t tr) as [new t']. simpl in Hstep.
    match goal with |- context [run_schedule E bg hooks sched ?ts' ?rej' ?tr'] =>
      specialize (IH ts' rej' tr' (evs ++ new));
      destruct (run_schedule E bg hooks sched ts' rej' tr') as [evs' [ts'' rej'']]
    end.
    simpl in *. rewrite app_assoc. apply IH.
    rewrite <- (list_insert_id entries i entry) by done.
    apply Forall2_insert; [|done].
    eapply Forall2_impl; [exact Hts|]. intros ? ? ?. by apply task_of_mono.
Qed.

Lemma run_schedule_awaits_left sched ts tr i t :
  (run_schedule E false hooks sched ts None tr).2.2 = None ->
  ts !! i = Some t ->
  exists t',
    (run_schedule E false hooks sched ts None tr).2.1 !! i = Some t' /\
    awaits_left t' <= awaits_left t - resumptions i sched.
Proof.
  revert ts tr t. induction sched as [|j sched IH]; intros ts tr t Hrej Hi;
    simpl in *.
  - exists t. split; [done|lia].
  - destruct (ts !! j) as [tj|] eqn:Hj.
    + pose proof (step_task_awaits_left tj tr) as Hleft.
      destruct (step_task E hooks tj tr) as [new tj']. simpl in Hleft.
      destruct (task_error tj') as [e|] eqn:He.
      * (* rejected: the run stops, which the hypothesis excludes *)
        exfalso. destruct sched; simpl in Hrej; done.
      * destruct (run_schedule E false hooks sched (<[j:=tj']> ts) None
                                (tr ++ new)) as [evs' [ts' rej']] eqn:Hrun.
        simpl in *.
        destruct (decide (j = i)) as [->|Hne].
        -- rewrite Hi in Hj. injection Hj as ->.
           destruct (IH (<[i:=tj']> ts) (tr ++ new) tj') as (t' & Ht' & Hle).
           { by rewrite Hrun. }
           { apply list_lookup_insert_eq. by eapply lookup_lt_Some. }
           rewrite Hrun in Ht'. simpl in *. exists t'. split; [done|].
           rewrite Nat.eqb_refl. lia.
        -- destruct (IH (<[j:=tj']> ts) (tr ++ new) t) as (t' & Ht' & Hle).
           { by rewrite Hrun. }
           { by rewrite list_lookup_insert_ne. }
           rewrite Hrun in Ht'. simpl in *. exists t'. split; [done|].
           apply Nat.eqb_neq in Hne. rewrite Hne. lia.
    + destruct (IH ts tr t Hrej Hi) as (t' & Ht' & Hle). exists t'.
      split; [done|].
      assert (j <> i) as Hne.
      { intros ->. by rewrite Hi in Hj. }
      apply Nat.eqb_neq in Hne. rewrite Hne. lia.
Qed.

Lemma resumptions_app i s1 s2 :
  resumptions i (s1 ++ s2) = resumptions i s1 + resumptions i s2.
Proof. induction s1 as [|j s1 IH]; simpl; [done|]. rewrite IH. lia. Qed.

Lemma resumptions_seq i k n :
  k <= i < k + n -> resumptions i (seq k n) = 1.
Proof.
  revert k. induction n as [|n IH]; intros k Hi; simpl; [lia|].
  destruct (Nat.eqb_spec k i) as [->|Hne].
  - clear IH Hi. assert (forall m k, i < k -> resumptions i (seq k m) = 0) as H0.
    { induction m as [|m IHm]; intros k Hk; simpl; [done|].
      destruct (Nat.eqb_spec k i); [lia|]. rewrite IHm; lia. }
    rewrite H0; lia.
  - rewrite IH; lia.
Qed.

(** Step 7 waits for every write.  When [await Promise.all(...)] returns,
    every file of the set was written under the output directory with its
    content as a Buffer, the write returned, and [onFileWritten], if there
    is one, was called with its path: step 8 and the HTML phase only start
    after the last write. *)
Theorem step7_waits_for_every_write files tr :
  (persistFiles E hooks (JStr dir) files tr).2 = Ok tt ->
  Forall (written E hooks dir (persistFiles E hooks (JStr dir) files tr).1) files.
Proof.
  unfold persistFiles.
  pose proof (start_tasks_task_of files) as H0.
  destruct (start_tasks_running E dir files) as [Hrun0 _].
  destruct (start_tasks E (JStr dir) files) as [evs0 ts0]. simpl in H0, Hrun0.
  rewrite (first_rejection_running _ Hrun0).
  pose proof (run_schedule_task_of true (schedule E (tr ++ evs0)) files ts0
                None (tr ++ evs0) evs0 H0) as H1.
  pose proof (run_schedule_rejection E true hooks (schedule E (tr ++ evs0))
                ts0 None (tr ++ evs0) Hrun0) as [_ Hrun1].
  destruct (run_schedule E true hooks _ ts0 None _) as [evs1 [ts1 rej1]].
  simpl in H1, Hrun1.
  set (drain := seq 0 (length ts0) ++ seq 0 (length ts0)).
  pose proof (run_schedule_task_of false drain files ts1 rej1
                ((tr ++ evs0) ++ evs1) (evs0 ++ evs1) H1) as H2.
  pose proof (run_schedule_awaits_left drain ts1 ((tr ++ evs0) ++ evs1)) as Hleft.
  pose proof (run_schedule_rejection E false hooks drain ts1 rej1
                ((tr ++ evs0) ++ evs1)) as Hrej2.
  destruct rej1 as [e|].
  { destruct (run_schedule E false hooks drain ts1 (Some e) _)
      as [evs2 [ts2 rej2]]. simpl in *. by subst rej2. }
  specialize (Hrun1 eq_refl). destruct (Hrej2 Hrun1) as [_ Hrun2].
  destruct (run_schedule E false hooks drain ts1 None _) as [evs2 [ts2 rej2]].
  simpl in *. intros Hok. destruct rej2 as [e|]; [done|].
  specialize (Hrun2 eq_refl). rewrite <- app_assoc in H2.
  pose proof (Forall2_length _ _ _ H0) as Hlen0.
  pose proof (Forall2_length _ _ _ H1) as Hlen1.
  apply Forall_forall. intros entry Hentry.
  apply list_elem_of_lookup in Hentry as [i Hi].
  destruct (Forall2_lookup_l _ _ _ _ _ H1 Hi) as (t1 & Ht1 & _).
  destruct (Hleft i t1 eq_refl Ht1) as (t2 & Ht2 & Hle).
  pose proof (Forall2_lookup_lr _ _ _ _ _ _ H2 Hi Ht2) as Htask.
  assert (resumptions i drain = 2) as Hres.
  { unfold drain. apply lookup_lt_Some in Hi.
    rewrite resumptions_app, !resumptions_seq; lia. }
  assert (awaits_left t1 <= 2) as Hmax by (destruct t1; simpl; lia).
  assert (running t2) as Hrun.
  { eapply Forall_forall in Hrun2; [exact Hrun2|].
    by eapply list_elem_of_lookup_2. }
  destruct t2 as [tg b|tg d|[[]|e]]; simpl in Hle; try lia; try done.
Qed.

End Waits.

(** *** Failure semantics *)

Section Explained.

Context {A B : Type}.

Lemma explained_ret (a : A) : explained (ret a).
Proof. by intros tr v. Qed.

Lemma explained_throw_config msg : explained (@throw A (ConfigError msg)).
Proof. by intros tr v. Qed.

Lemma explained_throw_type fn : explained (@throw A (TypeError fn)).
Proof. by intros tr v. Qed.

Lemma explained_bind (m : M A) (k : A -> M B) :
  explained m -> (forall a, explained (k a)) -> explained (bind m k).
Proof.
  intros Hm Hk tr v. rewrite bind_unfold. specialize (Hm tr).
  destruct (m tr) as [evs [a|e]]; simpl in *.
  - intros Hv. apply Hk in Hv.
    destruct (first_failure evs) as [[[ev0 v0] rest0]|] eqn:Hf.
    + by rewrite (first_failure_app_Some _ _ _ _ _ Hf).
    + by rewrite first_failure_app_None.
  - intros [= ->]. by apply (Hm v).
Qed.

Lemma explained_if (b : bool) (m1 m2 : M A) :
  explained m1 -> explained m2 -> explained (if b then m1 else m2).
Proof. by destruct b. Qed.

Lemma explained_perform (answer : Trace -> Answer A) ev :
  (forall v, failure (ev (Throws v)) = Some v) ->
  explained (perform answer ev).
Proof.
  intros H tr v. unfold perform. simpl.
  destruct (answer tr) as [a|v']; simpl; [done|]. by rewrite H.
Qed.

End Explained.

Lemma explained_callHook E hooks n args :
  n <> OnSkipFiles -> explained (callHook E hooks n args).
Proof.
  intros Hn tr v. rewrite callHook_unfold.
  destruct (hook_slot E hooks n) as [f|]; simpl; [|done].
  destruct (f tr args) as [[]|v']; simpl; [done|]. by destruct n.
Qed.

Lemma explained_path_join E a b : explained (path_join E a b).
Proof.
  unfold path_join.
  destruct a; try apply explained_throw_type; destruct b;
    first [apply explained_throw_type | apply explained_ret].
Qed.

Lemma explained_path_dirname E p : explained (path_dirname E p).
Proof. destruct p; first [apply explained_throw_type | apply explained_ret]. Qed.

Lemma explained_writeFile E p d : explained (writeFile E p d).
Proof.
  intros tr v. unfold writeFile. simpl.
  by destruct (fs_writeFile E _ p d) as [[]|v'].
Qed.

Lemma explained_probe {A} E hooks od skip (k : bool -> M A) :
  (forall b, explained (k b)) -> explained (bind (probe E hooks od skip) k).
Proof.
  intros Hk tr v. rewrite bind_unfold.
  destruct (probe_returns E hooks od skip tr) as [b Hb].
  pose proof (probe_first_failure E hooks od skip tr) as Hf.
  destruct (probe E hooks od skip tr) as [evs r]. simpl in *. subst r. simpl.
  intros Hv. apply Hk in Hv. by rewrite first_failure_app_None.
Qed.

Lemma explained_persistFiles E hooks od files :
  explained (persistFiles E hooks od files).
Proof.
  intros tr v. pose proof (persistFiles_outcome E hooks od files tr) as Hout.
  destruct od; try (rewrite Hout; by destruct files).
  rewrite Hout. by destruct (first_failure _) as [[[ev0 v0] rest0]|].
Qed.

Ltac explained_step :=
  first
    [ apply explained_ret
    | apply explained_throw_config
    | apply explained_throw_type
    | apply explained_path_join
    | apply explained_path_dirname
    | apply explained_persistFiles
    | apply explained_writeFile
    | apply explained_callHook; done
    | apply explained_if
    | apply explained_probe; intros ?
    | apply explained_bind; [|intros ?]
    | apply explained_perform; intros ?; done ].

Lemma explained_generateFavicons E options : explained (generateFavicons E options).
Proof.
  unfold generateFavicons, assetGeneration, filesPhase, copyIco, htmlPhase.
  cbv zeta. repeat explained_step.
Qed.


Lemma step7_waits_for_every_write_witness :
  Forall (written (Samples.world []) (JRef 1) "out"
            (persistFiles (Samples.world []) (JRef 1) (JStr "out")
                          Samples.sample_files []).1)
         Samples.sample_files.
Proof.
  apply (step7_waits_for_every_write (Samples.world []) (JRef 1) "out"
           Samples.sample_files []).
  vm_compute. reflexivity.
Defined.

Lemma filesPhase_no_probe E options :
  emits (fun ev => is_probe ev = false) (filesPhase E options).
Proof.
  unfold filesPhase, copyIco. cbv zeta. repeat emits_step; try done.
  by match goal with h : HookName |- _ => destruct h end.
Qed.

(** With [skipIfExists] false (or otherwise falsy) the output directory is
    never probed and [onSkipFiles] never called: the files phase runs on
    every invocation. *)
Theorem without_skipIfExists_the_files_phase_always_runs E options :
  truthy (get_default options "skipIfExists" (JBool true)) = false ->
  (forall tr, assetGeneration E options tr = filesPhase E options tr) /\
  List.filter is_probe (run (generateFavicons E options)).1 = [].
Proof.
  intros Hk.
  assert (forall tr, assetGeneration E options tr = filesPhase E options tr)
    as Hasset.
  { intros tr. rewrite assetGeneration_unfold. simpl.
    rewrite probe_unfold, Hk. simpl. rewrite app_nil_r.
    by destruct (filesPhase E options tr). }
  split; [exact Hasset|]. unfold run.
  destruct (truthy (get options "source")) eqn:Hs.
  2: { unfold generateFavicons. by rewrite Hs. }
  destruct (truthy (get options "outputDir")) eqn:Ho.
  2: { unfold generateFavicons. by rewrite Hs, Ho. }
  rewrite generateFavicons_unfold by done. simpl. rewrite Hasset.
  pose proof (callHook_filter E (get options "hooks") OnStart [] [] is_probe)
    as Hsf.
  destruct (callHook E _ OnStart [] []) as [sevs [[]|e]]; simpl in *;
    [|by apply Hsf].
  pose proof (filesPhase_no_probe E options sevs) as Hff.
  apply filter_none in Hff.
  destruct (filesPhase E options sevs) as [fevs [[]|e]]; simpl in *.
  - rewrite !List.filter_app, Hsf, Hff by done.
    by rewrite (htmlPhase_filter E options) by html_kind.
  - by rewrite !List.filter_app, Hsf, Hff by done.
Qed.

Lemma without_skipIfExists_the_files_phase_always_runs_witness :
  (forall tr, assetGeneration (Samples.world ["out"]) (Samples.request_no_skip 1) tr
              = filesPhase (Samples.world ["out"]) (Samples.request_no_skip 1) tr) /\
  List.filter is_probe
    (run (generateFavicons (Samples.world ["out"]) (Samples.request_no_skip 1))).1
  = [].
Proof.
  apply (without_skipIfExists_the_files_phase_always_runs
           (Samples.world ["out"]) (Samples.request_no_skip 1)).
  vm_compute. reflexivity.
Defined.

(** *** A run, event by event *)

(** The request of [Samples.request 1] in a world where ['out'] does not
    exist: the directory is created, the three files of the set are written
    (the Blob last, the tasks being resumed last to first), each followed by
    [onFileWritten], then the markup is written to ['gen/favicons.html']. *)
Example fresh_directory_run :
  run (generateFavicons (Samples.world []) (Samples.request 1))
  = ([EvHook OnStart [] (Returns tt);
      EvAccess (JStr "out") (Throws (JStr "ENOENT"));
      EvMkdir (JStr "out") (Returns tt);
      EvLoadSvg (JStr "logo.png") (Returns (JStr "<svg/>"));
      EvGetAdapter (Returns (JRef 9));
      EvGenerateFiles {| icon := JStr "<svg/>" |}
        (faviconSettings (Samples.request 1)) (JRef 9)
        (Returns Samples.sample_files);
      EvWriteFile (JStr "out/favicon.ico")
        (Buffer [Byte.x00; Byte.x00; Byte.x01; Byte.x00]);
      EvWriteFile (JStr "out/site.webmanifest") (Buffer [Byte.x7b; Byte.x7d]);
      EvWriteFile (JStr "out/favicon-96x96.png") (Buffer [Byte.x89; Byte.x50]);
      EvWriteDone (JStr "out/site.webmanifest") (Returns tt);
      EvHook OnFileWritten [JStr "out/site.webmanifest"] (Returns tt);
      EvWriteDone (JStr "out/favicon.ico") (Returns tt);
      EvHook OnFileWritten [JStr "out/favicon.ico"] (Returns tt);
      EvWriteDone (JStr "out/favicon-96x96.png") (Returns tt);
      EvHook OnFileWritten [JStr "out/favicon-96x96.png"] (Returns tt);
      EvGenerateHtml (faviconSettings (Samples.request 1))
        (Returns ["<link rel=icon href=/favicons/favicon.ico>";
                  "<meta name=apple-mobile-web-app-title>"]);
      EvMkdir (JStr "gen") (Returns tt);
      EvWriteFile (JStr "gen/favicons.html")
        (Utf8Text "<link rel=icon href=/favicons/favicon.ico><meta name=apple-mobile-web-app-title>");
      EvWriteDone (JStr "gen/favicons.html") (Returns tt);
      EvHook OnHtmlWritten [JStr "gen/favicons.html"] (Returns tt)],
     Ok tt).
Proof. vm_compute. reflexivity. Qed.

(** ** Further properties of the generator and the adapters *)

(** *** An induction principle for step 7 *)

Section Step7Invariant.

Variable E : Env.
Variable hooks : JsVal.
Variable dir : string.
Variable files : list (string * Content).
Variable I : list Event -> list Task -> Prop.

Hypothesis I_start :
  I (start_tasks E (JStr dir) files).1 (start_tasks E (JStr dir) files).2.
Hypothesis I_step : forall evs ts i t tr,
  I evs ts -> ts !! i = Some t ->
  I (evs ++ (step_task E hooks t tr).1) (<[i := (step_task E hooks t tr).2]> ts).

Lemma run_schedule_invariant bg sched ts rej tr evs :
  I evs ts ->
  I (evs ++ (run_schedule E bg hooks sched ts rej tr).1)
    (run_schedule E bg hooks sched ts rej tr).2.1.
Proof.
  revert ts rej tr evs. induction sched as [|i sched IH];
    intros ts rej tr evs Hts; simpl.
  - by rewrite app_nil_r.
  - destruct (negb bg && bool_decide (is_Some rej)); simpl.
    { by rewrite app_nil_r. }
    destruct (ts !! i) as [t|] eqn:Hi; [|by apply IH].
    pose proof (I_step evs ts i t tr Hts Hi) as Hstep.
    destruct (step_task E hooks t tr) as [new t']. simpl in Hstep.
    match goal with |- context [run_schedule E bg hooks sched ?ts' ?rej' ?tr'] =>
      specialize (IH ts' rej' tr' (evs ++ new) Hstep);
      destruct (run_schedule E bg hooks sched ts' rej' tr') as [evs' [ts'' rej'']]
    end.
    simpl in *. by rewrite app_assoc.
Qed.

Lemma run_schedule_length bg sched ts rej tr :
  length (run_schedule E bg hooks sched ts rej tr).2.1 = length ts.
Proof.
  revert ts rej tr. induction sched as [|i sched IH]; intros ts rej tr; simpl;
    [done|].
  destruct (negb bg && bool_decide (is_Some rej)); simpl; [done|].
  destruct (ts !! i) as [t|] eqn:Hi; [|by apply IH].
  destruct (step_task E hooks t tr) as [new t'].
  match goal with |- context [run_schedule E bg hooks sched ?ts' ?rej' ?tr'] =>
    specialize (IH ts' rej' tr');
    destruct (run_schedule E bg hooks sched ts' rej' tr') as [evs' [ts'' rej'']]
  end.
  simpl in *. by rewrite IH, length_insert.
Qed.

Lemma start_tasks_length od entries :
  length (start_tasks E od entries).2 = length entries.
Proof.
  induction entries as [|entry entries IH]; simpl; [done|].
  destruct (start_task E od entry) as [evs t].
  destruct (start_tasks E od entries) as [evs' ts]. simpl in *. by rewrite IH.
Qed.

(** What holds of the tasks when they are started and is kept by every
    resumption holds of the events of step 7 and the tasks it leaves; when
    the [await] returns, each of them has ended normally. *)
Lemma persistFiles_invariant tr :
  exists ts,
    I (persistFiles E hooks (JStr dir) files tr).1 ts /\
    length ts = length files /\
    ((persistFiles E hooks (JStr dir) files tr).2 = Ok tt ->
     Forall (fun t => t = TDone (Ok tt)) ts).
Proof.
  unfold persistFiles.
  pose proof I_start as H0.
  pose proof (start_tasks_length (JStr dir) files) as Hlen0.
  destruct (start_tasks_running E dir files) as [Hrun0 _].
  destruct (start_tasks E (JStr dir) files) as [evs0 ts0]. simpl in H0, Hrun0, Hlen0.
  rewrite (first_rejection_running _ Hrun0).
  pose proof (run_schedule_invariant true (schedule E (tr ++ evs0)) ts0
                None (tr ++ evs0) evs0 H0) as H1.
  pose proof (run_schedule_length true (schedule E (tr ++ evs0)) ts0
                None (tr ++ evs0)) as Hlen1.
  pose proof (run_schedule_rejection E true hooks (schedule E (tr ++ evs0))
                ts0 None (tr ++ evs0) Hrun0) as [_ Hrun1].
  destruct (run_schedule E true hooks _ ts0 None _) as [evs1 [ts1 rej1]].
  simpl in H1, Hrun1, Hlen1.
  set (drain := seq 0 (length ts0) ++ seq 0 (length ts0)).
  pose proof (run_schedule_invariant false drain ts1 rej1
                ((tr ++ evs0) ++ evs1) (evs0 ++ evs1) H1) as H2.
  pose proof (run_schedule_length false drain ts1 rej1
                ((tr ++ evs0) ++ evs1)) as Hlen2.
  pose proof (run_schedule_awaits_left E hooks drain ts1
                ((tr ++ evs0) ++ evs1)) as Hleft.
  pose proof (run_schedule_rejection E false hooks drain ts1 rej1
                ((tr ++ evs0) ++ evs1)) as Hrej2.
  destruct rej1 as [e|].
  { destruct (run_schedule E false hooks drain ts1 (Some e) _)
      as [evs2 [ts2 rej2]]. simpl in *. subst rej2.
    exists ts2. rewrite <- app_assoc in H2. split; [done|].
    split; [congruence|done]. }
  specialize (Hrun1 eq_refl). destruct (Hrej2 Hrun1) as [_ Hrun2].
  destruct (run_schedule E false hooks drain ts1 None _) as [evs2 [ts2 rej2]].
  simpl in *. rewrite <- app_assoc in H2. exists ts2.
  split; [done|]. split; [congruence|].
  intros Hok. destruct rej2 as [e|]; [done|]. specialize (Hrun2 eq_refl).
  apply Forall_lookup. intros i t2 Ht2.
  assert (i < length ts1) as Hi.
  { rewrite <- Hlen2. by eapply lookup_lt_Some. }
  destruct (lookup_lt_is_Some_2 ts1 i Hi) as [t1 Ht1].
  destruct (Hleft i t1 eq_refl Ht1) as (t2' & Ht2' & Hle).
  rewrite Ht2 in Ht2'. injection Ht2' as <-.
  assert (resumptions i drain = 2) as Hres.
  { unfold drain. rewrite resumptions_app, !resumptions_seq; lia. }
  assert (awaits_left t1 <= 2) as Hmax by (destruct t1; simpl; lia).
  assert (running t2) as Hrun.
  { eapply Forall_forall in Hrun2; [exact Hrun2|].
    by eapply list_elem_of_lookup_2. }
  destruct t2 as [tg b|tg d|[[]|e]]; simpl in Hle; try lia; try done.
Qed.

End Step7Invariant.

(** *** The phases of an invocation *)

Lemma generateFavicons_cases E options :
  let hooks := get options "hooks" in
  let od := get options "outputDir" in
  let s := callHook E hooks OnStart [] [] in
  let p := probe E hooks od (get_default options "skipIfExists" (JBool true)) s.1 in
  let f := filesPhase E options (s.1 ++ p.1) in
  let hs := htmlPhase E options (s.1 ++ p.1) in
  let hf := htmlPhase E options (s.1 ++ p.1 ++ f.1) in
  let r := run (generateFavicons E options) in
  truthy (get options "source") = true ->
  truthy od = true ->
  (is_ok s.2 = false /\ r = s) \/
  (s.2 = Ok tt /\ p.2 = Ok true /\ r = (s.1 ++ p.1 ++ hs.1, hs.2)) \/
  (s.2 = Ok tt /\ p.2 = Ok false /\ is_ok f.2 = false /\
   r = (s.1 ++ p.1 ++ f.1, f.2)) \/
  (s.2 = Ok tt /\ p.2 = Ok false /\ f.2 = Ok tt /\
   r = (s.1 ++ p.1 ++ f.1 ++ hf.1, hf.2)).
Proof.
  intros hooks od s p f hs hf r Hs Ho. subst r. unfold run.
  rewrite generateFavicons_unfold by done. simpl. fold hooks s.
  destruct (s.2) as [[]|e] eqn:Hs2.
  2: { left. split; [done|]. rewrite <- Hs2. by destruct s. }
  right. rewrite assetGeneration_unfold. simpl. fold hooks od p.
  destruct (probe_returns E hooks od
              (get_default options "skipIfExists" (JBool true)) s.1) as [b Hb].
  fold p in Hb. rewrite Hb. destruct b; simpl.
  { left. by rewrite <- ?app_assoc. }
  right. fold f. destruct (f.2) as [[]|e] eqn:Hf2; simpl.
  - right. by rewrite <- ?app_assoc.
  - left. by rewrite <- ?app_assoc.
Qed.

Lemma callHook_kind E hooks n args tr :
  Forall (fun ev => is_call_of n ev = true) (callHook E hooks n args tr).1.
Proof.
  rewrite callHook_unfold. destruct (hook_slot E hooks n); simpl; [|constructor].
  apply Forall_singleton. by destruct n.
Qed.

(** The events of an invocation, phase by phase: the call of [onStart],
    the existence check, the files phase when it runs, the HTML phase when
    it is reached. *)
Lemma generateFavicons_trace E options :
  exists sevs pevs fevs hevs,
    (run (generateFavicons E options)).1 = sevs ++ pevs ++ fevs ++ hevs /\
    Forall (fun ev => is_call_of OnStart ev = true) sevs /\
    Forall (fun ev => is_probe ev = true) pevs /\
    (fevs = [] \/
     fevs = (filesPhase E options (sevs ++ pevs)).1 /\
     ((run (generateFavicons E options)).2 = Ok tt ->
      (filesPhase E options (sevs ++ pevs)).2 = Ok tt)) /\
    Forall (html_event E options) hevs.
Proof.
  destruct (truthy (get options "source")) eqn:Hs.
  2: { exists [], [], [], []. unfold run, generateFavicons. rewrite Hs. simpl.
       split; [done|]. split; [constructor|]. split; [constructor|].
       split; [by left|constructor]. }
  destruct (truthy (get options "outputDir")) eqn:Ho.
  2: { exists [], [], [], []. unfold run, generateFavicons. rewrite Hs, Ho. simpl.
       split; [done|]. split; [constructor|]. split; [constructor|].
       split; [by left|constructor]. }
  pose proof (generateFavicons_cases E options Hs Ho) as Hcases.
  cbv zeta in Hcases.
  set (hooks := get options "hooks") in *.
  set (sc := callHook E hooks OnStart [] []) in *.
  set (p := probe E hooks (get options "outputDir") _ sc.1) in *.
  assert (Forall (fun ev => is_call_of OnStart ev = true) sc.1) as Hsc
    by apply callHook_kind.
  assert (Forall (fun ev => is_probe ev = true) p.1) as Hp
    by (apply emits_probe; done).
  destruct Hcases as [[_ ->]|[(_ & _ & ->)|[(_ & _ & Hf & ->)|(_ & _ & Hf & ->)]]];
    simpl.
  - exists sc.1, [], [], []. rewrite !app_nil_r.
    split; [done|]. split; [done|]. split; [constructor|].
    split; [by left|constructor].
  - exists sc.1, p.1, [], (htmlPhase E options (sc.1 ++ p.1)).1.
    split; [done|]. split; [done|]. split; [done|].
    split; [by left|apply htmlPhase_events].
  - exists sc.1, p.1, (filesPhase E options (sc.1 ++ p.1)).1, [].
    rewrite !app_nil_r.
    split; [done|]. split; [done|]. split; [done|].
    split; [|constructor]. right. split; [done|].
    intros Hok. by rewrite Hok in Hf.
  - exists sc.1, p.1, (filesPhase E options (sc.1 ++ p.1)).1,
      (htmlPhase E options (sc.1 ++ p.1 ++ (filesPhase E options (sc.1 ++ p.1)).1)).1.
    split; [done|]. split; [done|]. split; [done|].
    split; [by right|apply htmlPhase_events].
Qed.

Lemma filter_kinds {A} (f g : A -> bool) l :
  Forall (fun x => g x = true) l -> (forall x, g x = true -> f x = false) ->
  List.filter f l = [].
Proof.
  intros Hl Hfg. apply filter_none. eapply Forall_impl; [exact Hl|]. exact Hfg.
Qed.

Lemma not_in_kind {A} (f : A -> bool) l x :
  List.filter f l = [] -> In x l -> f x = false.
Proof.
  intros Hf Hin. destruct (f x) eqn:Hx; [|done].
  by destruct (in_filter_true f l x Hin Hx).
Qed.

Lemma filesPhase_kind E options :
  emits (fun ev => is_files_phase ev = true) (filesPhase E options).
Proof.
  unfold filesPhase, copyIco. cbv zeta. repeat emits_step; try done.
  all: try (unfold is_files_phase;
            match goal with H : is_step7 _ = true |- _ => rewrite H end;
            by rewrite !orb_true_r).
Qed.

(** The events of an invocation come in the order of its phases: first the
    call of [onStart]; then the existence check ([fs.access],
    [onSkipFiles]); then the files phase (the output directory, the two
    collaborators, the writes of step 7, the copy); then the HTML phase
    ([generateFaviconHtml] on the settings, the parent directory of
    [htmlOutput], the text write, [onHtmlWritten]).  Nothing of an earlier
    phase happens once a later one has begun. *)
Theorem events_come_in_phase_order E options :
  exists sevs pevs fevs hevs,
    (run (generateFavicons E options)).1 = sevs ++ pevs ++ fevs ++ hevs /\
    Forall (fun ev => is_call_of OnStart ev = true) sevs /\
    Forall (fun ev => is_probe ev = true) pevs /\
    Forall (fun ev => is_files_phase ev = true) fevs /\
    Forall (html_event E options) hevs.
Proof.
  destruct (generateFavicons_trace E options)
    as (sevs & pevs & fevs & hevs & Heq & Hs & Hp & Hf & Hh).
  exists sevs, pevs, fevs, hevs. repeat (split; [done|]). split; [|done].
  destruct Hf as [->|[-> _]]; [constructor|apply filesPhase_kind].
Qed.

(** *** Where an invocation reads and writes *)

Section Step7Files.

Variable E : Env.
Variable hooks : JsVal.
Variable dir : string.

Lemma start_tasks_from entries files :
  (forall entry, In entry entries -> In entry files) ->
  Forall (step7_of E dir files) (start_tasks E (JStr dir) entries).1 /\
  Forall (task_from E dir files) (start_tasks E (JStr dir) entries).2.
Proof.
  induction entries as [|[f c] entries IH]; intros Hin; simpl; [by split|].
  destruct IH as [IH1 IH2]; [intros entry H; apply Hin; by right|].
  destruct (start_tasks E (JStr dir) entries) as [evs' ts]. simpl in *.
  assert (In (f, c) files) as Hfc by (apply Hin; by left).
  destruct c as [b|s|b]; simpl; (split; [|apply Forall_cons; split; [|done]]);
    try done; try (apply Forall_cons; split; [|done]);
    eexists; (split; [exact Hfc|done]).
Qed.

Lemma step_task_from files t tr :
  task_from E dir files t ->
  Forall (step7_of E dir files) (step_task E hooks t tr).1 /\
  task_from E dir files (step_task E hooks t tr).2.
Proof.
  destruct t as [tg b|tg d|r]; simpl.
  - intros (entry & Hin & -> & ->). split; [|by exists entry].
    apply Forall_singleton. by exists entry.
  - intros (entry & Hin & -> & ->).
    destruct (fs_writeFile E tr _ _) as [[]|v]; simpl.
    + rewrite callHook_unfold.
      destruct (hook_slot E hooks OnFileWritten) as [f|]; simpl;
        (split; [|done]); repeat (apply Forall_cons; split);
        try (by exists entry); by apply Forall_nil.
    + split; [|done]. apply Forall_singleton. by exists entry.
  - by split.
Qed.

Lemma persistFiles_from files tr :
  Forall (step7_of E dir files) (persistFiles E hooks (JStr dir) files tr).1.
Proof.
  destruct (persistFiles_invariant E hooks dir files
              (fun evs ts => Forall (step7_of E dir files) evs /\
                             Forall (task_from E dir files) ts)) with (tr := tr)
    as (ts & [H _] & _); [| |done].
  - by apply start_tasks_from.
  - intros evs ts i t tr' [Hevs Hts] Hi.
    destruct (step_task_from files t tr') as [H1 H2].
    { eapply Forall_forall in Hts; [exact Hts|]. by eapply list_elem_of_lookup_2. }
    split; [by apply Forall_app|]. by apply Forall_insert.
Qed.

End Step7Files.

Lemma emits_persistFiles_within E options files :
  emits (within_request E options)
        (persistFiles E (get options "hooks") (get options "outputDir") files).
Proof.
  intros tr. destruct (get options "outputDir") as [| | | |dir|] eqn:Hod;
    try (pose proof (persistFiles_outcome E (get options "hooks")
                       (get options "outputDir") files tr) as H;
         rewrite Hod in H; rewrite H; by constructor).
  eapply Forall_impl; [apply persistFiles_from|].
  intros [] Hev; simpl in *; try done.
  - destruct d; [|done]. destruct Hev as (entry & _ & [= -> _]).
    exists dir, entry.1. by rewrite Hod.
  - destruct Hev as (entry & _ & ->). left. exists dir, entry.1. by rewrite Hod.
Qed.

Lemma emits_bind_path_join {A} E P a b (k : string -> M A) :
  (forall x y, a = JStr x -> b = JStr y -> emits P (k (join E x y))) ->
  emits P (bind (path_join E a b) k).
Proof.
  intros Hk tr. unfold bind, path_join.
  destruct a; try (by constructor). destruct b; try (by constructor).
  simpl. rewrite app_nil_r. specialize (Hk _ _ eq_refl eq_refl tr).
  by destruct (k _ _).
Qed.

Lemma emits_bind_path_dirname {A} E P p (k : string -> M A) :
  (forall x, p = JStr x -> emits P (k (dirname E x))) ->
  emits P (bind (path_dirname E p) k).
Proof.
  intros Hk tr. unfold bind, path_dirname.
  destruct p; try (by constructor).
  simpl. rewrite app_nil_r. specialize (Hk _ eq_refl tr).
  by destruct (k _ _).
Qed.

(** Every filesystem call of an invocation is on a path of the request:
    [fs.access] and the first [fs.mkdir] on [outputDir], the favicon writes
    on [path.join(outputDir, name)], the copy from and to [favicon.ico]
    under [outputDir] and [rootDir], the second [fs.mkdir] on the parent of
    [htmlOutput] and the text write on [htmlOutput]; the image loaded is
    [source]. *)
Theorem filesystem_calls_stay_within_the_request E options :
  Forall (within_request E options) (run (generateFavicons E options)).1.
Proof.
  assert (emits (within_request E options) (generateFavicons E options)) as H;
    [|apply H].
  unfold generateFavicons, assetGeneration, probe, filesPhase, copyIco, htmlPhase.
  cbv zeta.
  repeat first [ apply emits_persistFiles_within
               | apply emits_bind_path_join; intros ? ? ? ?
               | apply emits_bind_path_dirname; intros ? ?
               | emits_step ]; simpl; auto.
  - match goal with
    | H1 : JStr _ = JStr ?y, H2 : JStr _ = JStr ?y0 |- _ =>
        injection H1 as <-; injection H2 as <-
    end.
    by eexists _, _.
  - right. by eexists.
Qed.

(** *** How often each call is made *)

Section AtMost.

Context {A B : Type}.
Variable f : Event -> bool.

Lemma at_most_le n n' (m : M A) : at_most f n m -> n <= n' -> at_most f n' m.
Proof. intros H Hle tr. specialize (H tr). lia. Qed.

Lemma at_most_ret (a : A) : at_most f 0 (ret a).
Proof. by intros tr. Qed.

Lemma at_most_throw e : at_most f 0 (@throw A e).
Proof. by intros tr. Qed.

Lemma at_most_bind n n' (m : M A) (k : A -> M B) :
  at_most f n m -> (forall a, at_most f n' (k a)) -> at_most f (n + n') (bind m k).
Proof.
  intros Hm Hk tr. unfold bind. specialize (Hm tr).
  destruct (m tr) as [evs [a|e]]; simpl in *; [|lia].
  specialize (Hk a (tr ++ evs)). destruct (k a (tr ++ evs)) as [evs' r].
  simpl in *. rewrite List.filter_app, length_app. lia.
Qed.

Lemma at_most_try_catch n n' (m h : M A) :
  at_most f n m -> at_most f n' h -> at_most f (n + n') (try_catch m h).
Proof.
  intros Hm Hh tr. unfold try_catch. specialize (Hm tr).
  destruct (m tr) as [evs [a|e]]; simpl in *; [lia|].
  specialize (Hh (tr ++ evs)). destruct (h (tr ++ evs)) as [evs' r].
  simpl in *. rewrite List.filter_app, length_app. lia.
Qed.

Lemma at_most_if n n' (b : bool) (m1 m2 : M A) :
  at_most f n m1 -> at_most f n' m2 ->
  at_most f (Nat.max n n') (if b then m1 else m2).
Proof. intros H1 H2 tr. specialize (H1 tr). specialize (H2 tr). destruct b; lia. Qed.

Lemma at_most_perform (answer : Trace -> Answer A) ev :
  at_most f 1 (perform answer ev).
Proof. intros tr. unfold perform. simpl. destruct (f _); simpl; lia. Qed.

Lemma at_most_perform_other (answer : Trace -> Answer A) ev :
  (forall a, f (ev a) = false) -> at_most f 0 (perform answer ev).
Proof. intros H tr. unfold perform. simpl. by rewrite H. Qed.

Lemma at_most_quiet (m : M A) :
  emits (fun ev => f ev = false) m -> at_most f 0 m.
Proof. intros H tr. by rewrite (filter_none f _ (H tr)). Qed.

End AtMost.

Lemma at_most_callHook E f hooks n args :
  at_most f 1 (callHook E hooks n args).
Proof.
  intros tr. rewrite callHook_unfold.
  destruct (hook_slot E hooks n); simpl; [|lia]. destruct (f _); simpl; lia.
Qed.

Lemma at_most_writeFile E f p d :
  f (EvWriteFile p d) = false -> (forall a, f (EvWriteDone p a) = false) ->
  at_most f 0 (writeFile E p d).
Proof. intros H1 H2. apply at_most_quiet. by apply emits_writeFile. Qed.

Lemma at_most_step7 E f hooks od files :
  (forall ev, is_step7 ev = true -> f ev = false) ->
  at_most f 0 (persistFiles E hooks od files).
Proof. intros H. apply at_most_quiet. by apply emits_persistFiles. Qed.

Lemma at_most_writeFile_call E f p d :
  (forall a, f (EvWriteDone p a) = false) -> at_most f 1 (writeFile E p d).
Proof.
  intros H tr. unfold writeFile. simpl. rewrite H.
  destruct (f _); simpl; lia.
Qed.

Ltac step7_kind :=
  intros [] ?; simpl in *; try done;
  repeat match goal with
         | n : HookName |- _ => destruct n
         | d : FileData |- _ => destruct d
         end;
  done.

Ltac at_most_step :=
  lazymatch goal with
  | |- at_most _ _ (ret _) => eapply at_most_ret
  | |- at_most _ _ (throw _) => eapply at_most_throw
  | |- at_most _ _ (path_join _ _ _) => eapply at_most_quiet; apply emits_path_join
  | |- at_most _ _ (path_dirname _ _) =>
      eapply at_most_quiet; apply emits_path_dirname
  | |- at_most _ _ (if _ then _ else _) => eapply at_most_if
  | |- at_most _ _ (try_catch _ _) => eapply at_most_try_catch
  | |- at_most _ _ (bind _ _) => eapply at_most_bind; [|intros ?]
  | |- at_most _ _ (persistFiles _ _ _ _) => eapply at_most_step7; step7_kind
  | |- at_most _ _ (writeFile _ _ _) =>
      first [ eapply at_most_writeFile; by simpl
            | eapply at_most_writeFile_call; by simpl ]
  | |- at_most _ _ (callHook _ _ _ _) =>
      first [ eapply at_most_quiet; apply emits_callHook; by intros ?
            | eapply at_most_callHook ]
  | |- at_most _ _ (perform _ _) =>
      first [ eapply at_most_perform_other; by intros ?
            | eapply at_most_perform ]
  end.

Ltac at_most_generator :=
  match goal with
  | |- length (List.filter ?f (generateFavicons ?E ?options ?tr).1) <= ?n =>
      let H := fresh in
      assert (at_most f n (generateFavicons E options)) as H;
      [ eapply at_most_le;
        [ unfold generateFavicons, assetGeneration, probe, filesPhase, copyIco,
            htmlPhase;
          cbv zeta; repeat at_most_step
        | simpl; lia ]
      | apply H ]
  end.

(** No call but the writes of step 7 is made twice.  In one invocation
    [onStart], [fs.access], [onSkipFiles], [loadAndConvertToSvg],
    [getNodeImageAdapter], [generateFaviconFiles], [fs.copyFile],
    [onIcoCopied], [generateFaviconHtml], the write of the markup and
    [onHtmlWritten] are each called at most once, and [fs.mkdir] at most
    twice. *)
Theorem each_step_runs_at_most_once E options :
  let count f := count f (run (generateFavicons E options)).1 in
  count (is_call_of OnStart) <= 1 /\
  count is_access <= 1 /\
  count (is_call_of OnSkipFiles) <= 1 /\
  count is_load <= 1 /\
  count is_get_adapter <= 1 /\
  count is_generation <= 1 /\
  count is_copy <= 1 /\
  count (is_call_of OnIcoCopied) <= 1 /\
  count is_html_generation <= 1 /\
  count is_html_write <= 1 /\
  count (is_call_of OnHtmlWritten) <= 1 /\
  count is_mkdir <= 2.
Proof.
  cbv zeta. unfold run, count.
  repeat split; at_most_generator.
Qed.

(** *** One write and one report per generated file *)

Section Step7Writes.

Variable E : Env.
Variable hooks : JsVal.
Variable dir : string.

Lemma start_tasks_writes entries :
  List.filter is_favicon_write (start_tasks E (JStr dir) entries).1
    ++ concat (map pending_write (start_tasks E (JStr dir) entries).2)
  ≡ₚ map (write_of E dir) entries.
Proof.
  induction entries as [|[f c] entries IH]; simpl; [done|].
  destruct (start_tasks E (JStr dir) entries) as [evs' ts]. simpl in *.
  destruct c as [b|s|b]; simpl; unfold write_of at 1; simpl.
  - rewrite <- IH. by rewrite Permutation_middle.
  - by rewrite IH.
  - by rewrite IH.
Qed.

Lemma pending_write_insert ts i t t' :
  ts !! i = Some t -> pending_write t' = [] ->
  concat (map pending_write ts)
  ≡ₚ pending_write t ++ concat (map pending_write (<[i:=t']> ts)).
Proof.
  revert i. induction ts as [|t0 ts IH]; intros [|i] Hi Ht'; simpl in *; try done.
  - injection Hi as ->. by rewrite Ht'.
  - rewrite (IH i Hi Ht'). by rewrite !app_assoc, (Permutation_app_comm (pending_write t0)).
Qed.

Lemma step_task_writes t tr :
  List.filter is_favicon_write (step_task E hooks t tr).1 = pending_write t /\
  pending_write (step_task E hooks t tr).2 = [].
Proof.
  destruct t as [tg b|tg d|r]; simpl; try done.
  destruct (fs_writeFile E tr _ _) as [[]|v]; simpl; [|done].
  rewrite callHook_unfold. by destruct (hook_slot E hooks OnFileWritten).
Qed.

Lemma persistFiles_writes files tr :
  List.filter is_favicon_write (persistFiles E hooks (JStr dir) files tr).1
    ⊆+ map (write_of E dir) files /\
  ((persistFiles E hooks (JStr dir) files tr).2 = Ok tt ->
   List.filter is_favicon_write (persistFiles E hooks (JStr dir) files tr).1
     ≡ₚ map (write_of E dir) files).
Proof.
  destruct (persistFiles_invariant E hooks dir files
              (fun evs ts => List.filter is_favicon_write evs
                               ++ concat (map pending_write ts)
                             ≡ₚ map (write_of E dir) files)) with (tr := tr)
    as (ts & H & _ & Hdone).
  - apply start_tasks_writes.
  - intros evs ts i t tr' Hinv Hi.
    destruct (step_task_writes t tr') as [H1 H2].
    rewrite List.filter_app, H1, <- Hinv, <- app_assoc.
    by rewrite (pending_write_insert ts i t _ Hi H2).
  - split.
    + rewrite <- H. by apply submseteq_inserts_r.
    + intros Hok. specialize (Hdone Hok). rewrite <- H.
      assert (concat (map pending_write ts) = []) as ->; [|by rewrite app_nil_r].
      clear H. induction Hdone as [|t ts -> _ IH]; simpl; [done|]. exact IH.
Qed.

End Step7Writes.

Section Step7Reports.

Variable E : Env.
Variable hooks : JsVal.
Variable dir : string.

Lemma unsettled_insert f ts i t t' :
  ts !! i = Some t ->
  unsettled f (<[i:=t']> ts) + (if f t then 0 else 1)
  = unsettled f ts + (if f t' then 0 else 1).
Proof.
  unfold unsettled. revert i.
  induction ts as [|t0 ts IH]; intros [|i] Hi; simpl in *; try done.
  - injection Hi as ->. destruct (f t), (f t'); simpl; lia.
  - specialize (IH i Hi). destruct (f t0); simpl; lia.
Qed.

Lemma start_tasks_unsettled f entries :
  (forall t, f t = true -> is_done t = true) ->
  count (is_call_of OnFileWritten) (start_tasks E (JStr dir) entries).1 = 0 /\
  count is_file_report (start_tasks E (JStr dir) entries).1 = 0 /\
  unsettled f (start_tasks E (JStr dir) entries).2 = length entries.
Proof.
  intros Hf. unfold count, unsettled.
  induction entries as [|[fn c] entries IH]; simpl; [done|].
  destruct (start_tasks E (JStr dir) entries) as [evs' ts]. simpl in *.
  destruct IH as (IH1 & IH2 & IH3).
  destruct c as [b|s|b]; simpl;
    match goal with |- context [f ?t] =>
      pose proof (Hf t) as Ht; destruct (f t); [by specialize (Ht eq_refl)|]
    end; simpl; by rewrite IH1, IH2, IH3.
Qed.

Lemma step_task_calls t tr :
  count (is_call_of OnFileWritten) (step_task E hooks t tr).1 + (if is_done (step_task E hooks t tr).2 then 0 else 1)
  <= if is_done t then 0 else 1.
Proof.
  unfold count. destruct t as [tg b|tg d|r]; simpl; try lia.
  destruct (fs_writeFile E tr _ _) as [[]|v]; simpl; [|lia].
  rewrite callHook_unfold.
  destruct (hook_slot E hooks OnFileWritten); simpl; lia.
Qed.

Lemma step_task_reports f t tr :
  hook_slot E hooks OnFileWritten = Some f ->
  count is_file_report (step_task E hooks t tr).1
  + (if is_settled_ok (step_task E hooks t tr).2 then 0 else 1)
  = if is_settled_ok t then 0 else 1.
Proof.
  intros Hslot. unfold count.
  destruct t as [tg b|tg d|[[]|e]]; simpl; try lia.
  destruct (fs_writeFile E tr _ _) as [[]|v]; simpl; [|lia].
  rewrite callHook_unfold, Hslot. simpl.
  by destruct (f _ _) as [[]|v].
Qed.

Lemma persistFiles_calls files tr :
  count (is_call_of OnFileWritten) (persistFiles E hooks (JStr dir) files tr).1 <= length files.
Proof.
  destruct (persistFiles_invariant E hooks dir files
              (fun evs ts => count (is_call_of OnFileWritten) evs + unsettled is_done ts <= length files))
    with (tr := tr) as (ts & H & _).
  - destruct (start_tasks_unsettled is_done files) as (H1 & _ & H3); [done|].
    rewrite H1, H3. lia.
  - intros evs ts i t tr' Hinv Hi.
    pose proof (step_task_calls t tr') as Hstep.
    pose proof (unsettled_insert is_done ts i t (step_task E hooks t tr').2 Hi).
    unfold count in *. rewrite List.filter_app, length_app. lia.
  - lia.
Qed.

Lemma persistFiles_reports f files tr :
  hook_slot E hooks OnFileWritten = Some f ->
  (persistFiles E hooks (JStr dir) files tr).2 = Ok tt ->
  count is_file_report (persistFiles E hooks (JStr dir) files tr).1 = length files.
Proof.
  intros Hslot Hok.
  destruct (persistFiles_invariant E hooks dir files
              (fun evs ts => count is_file_report evs + unsettled is_settled_ok ts
                             = length files))
    with (tr := tr) as (ts & H & _ & Hdone).
  - destruct (start_tasks_unsettled is_settled_ok files) as (_ & H2 & H3).
    { by intros [| |[]]. }
    rewrite H2, H3. lia.
  - intros evs ts i t tr' Hinv Hi.
    pose proof (step_task_reports f t tr' Hslot) as Hstep.
    pose proof (unsettled_insert is_settled_ok ts i t
                  (step_task E hooks t tr').2 Hi).
    unfold count in *. rewrite List.filter_app, length_app. lia.
  - specialize (Hdone Hok).
    assert (unsettled is_settled_ok ts = 0) as Hz; [|lia].
    clear H. unfold unsettled.
    induction Hdone as [|t ts' -> _ IH]; simpl; [done|]. exact IH.
Qed.

End Step7Reports.

(** The favicon writes and [onFileWritten] calls of an invocation are those
    of its step 7. *)
Lemma filesPhase_step7 E options tr m s ad files (f : Event -> bool) :
  (forall ev, f ev = true ->
              is_favicon_write ev = true \/ is_call_of OnFileWritten ev = true) ->
  let fp := filesPhase E options tr in
  In (EvGenerateFiles m s ad (Returns files)) fp.1 ->
  exists t,
    let p := persistFiles E (get options "hooks") (get options "outputDir")
                          files t in
    List.filter f fp.1 = List.filter f p.1 /\
    (fp.2 = Ok tt -> p.2 = Ok tt).
Proof.
  intros Hf fp. subst fp.
  assert (forall ev, is_favicon_write ev = false ->
                     is_call_of OnFileWritten ev = false -> f ev = false) as Hf'.
  { intros ev H1 H2. destruct (f ev) eqn:Hev; [|done].
    destruct (Hf ev Hev); congruence. }
  rewrite filesPhase_unfold. cbv zeta.
  destruct (fs_mkdir E tr _) as [[]|v]; simpl.
  2: { intros [|[]]; done. }
  destruct (loadAndConvertToSvg E _ _) as [svg|v]; simpl.
  2: { intros [|[|[]]]; done. }
  destruct (getNodeImageAdapter E _) as [ad'|v]; simpl.
  2: { intros [|[|[|[]]]]; done. }
  destruct (generateFaviconFiles E _ _ _ _) as [files'|v]; simpl.
  2: { intros [|[|[|[|[]]]]]; done. }
  match goal with |- context [persistFiles E ?h ?o _ ?t] =>
    pose proof (emits_persistFiles E (fun ev => is_generation ev = false)
                  ltac:(by intros [] ?) h o files' t) as Hgen;
    set (tp := t) in *;
    destruct (persistFiles E h o files' tp) as [pevs [[]|e]] eqn:Hp
  end; simpl in *.
  - match goal with |- context [copyIco E ?h ?o ?c ?r ?t] =>
      pose proof (emits_copyIco E (fun ev => is_generation ev = false) h o c r
                    ltac:(done) ltac:(done) t) as Hc1;
      pose proof (emits_copyIco E (fun ev => f ev = false) h o c r
                    ltac:(intros; by apply Hf') ltac:(intros; by apply Hf') t)
        as Hc2;
      destruct (copyIco E h o c r t) as [cevs cr]
    end; simpl in *. rewrite !Hf' by done.
    apply filter_none in Hc1, Hc2, Hgen.
    intros [H|[H|[H|[H|H]]]]; try done.
    + injection H as _ _ _ ->. exists tp. rewrite Hp. simpl.
      by rewrite List.filter_app, Hc2, app_nil_r.
    + apply in_app_or in H as [H|H];
        [by pose proof (not_in_kind _ _ _ Hgen H)
        |by pose proof (not_in_kind _ _ _ Hc1 H)].
  - rewrite !Hf' by done. apply filter_none in Hgen.
    intros [H|[H|[H|[H|H]]]]; try done.
    + injection H as _ _ _ ->. exists tp. rewrite Hp. by simpl.
    + by pose proof (not_in_kind _ _ _ Hgen H).
Qed.

Lemma step7_of_invocation E options m s ad files (f : Event -> bool) :
  (forall ev, f ev = true ->
              is_favicon_write ev = true \/ is_call_of OnFileWritten ev = true) ->
  In (EvGenerateFiles m s ad (Returns files)) (run (generateFavicons E options)).1 ->
  exists t,
    let p := persistFiles E (get options "hooks") (get options "outputDir")
                          files t in
    List.filter f (run (generateFavicons E options)).1 = List.filter f p.1 /\
    ((run (generateFavicons E options)).2 = Ok tt -> p.2 = Ok tt).
Proof.
  intros Hf Hin.
  assert (forall ev, is_favicon_write ev = false ->
                     is_call_of OnFileWritten ev = false -> f ev = false) as Hf'.
  { intros ev H1 H2. destruct (f ev) eqn:Hev; [|done].
    destruct (Hf ev Hev); congruence. }
  destruct (generateFavicons_trace E options)
    as (sevs & pevs & fevs & hevs & Heq & Hs & Hp & Hfp & Hh).
  rewrite Heq in *.
  assert (forall g : Event -> bool,
            (forall ev, is_call_of OnStart ev = true -> g ev = false) ->
            List.filter g sevs = []) as Hsf by (intros g; by apply filter_kinds).
  assert (forall g : Event -> bool,
            (forall ev, is_probe ev = true -> g ev = false) ->
            List.filter g pevs = []) as Hpf by (intros g; by apply filter_kinds).
  assert (forall g : Event -> bool,
            (forall ev, html_event E options ev -> g ev = false) ->
            List.filter g hevs = []) as Hhf.
  { intros g Hg. apply filter_none. eapply Forall_impl; [exact Hh|]. exact Hg. }
  assert (In (EvGenerateFiles m s ad (Returns files)) fevs) as Hinf.
  { apply in_app_or in Hin as [Hin|Hin].
    { by pose proof (not_in_kind is_generation _ _
                       (Hsf is_generation ltac:(by intros [])) Hin). }
    apply in_app_or in Hin as [Hin|Hin].
    { by pose proof (not_in_kind is_generation _ _
                       (Hpf is_generation ltac:(by intros [])) Hin). }
    apply in_app_or in Hin as [Hin|Hin]; [done|].
    by pose proof (not_in_kind is_generation _ _
                     (Hhf is_generation ltac:(html_kind)) Hin). }
  destruct Hfp as [->|[-> Hok]]; [done|].
  destruct (filesPhase_step7 E options _ m s ad files f Hf Hinf) as (t & Hfilter & Hpok).
  exists t. cbv zeta in *. split; [|by intros H; apply Hpok, Hok].
  rewrite !List.filter_app, Hfilter.
  rewrite Hsf, Hpf, Hhf, app_nil_r; [done| | |].
  - intros ev Hev. apply Hf'; revert ev Hev; html_kind.
  - intros [] Hev; simpl in *; try done; apply Hf'; try done.
    by match goal with h : HookName |- _ => destruct h end.
  - intros [] Hev; simpl in *; try done; apply Hf'; try done.
    by match goal with h : HookName |- _ => destruct h end.
Qed.

(** The favicon writes of an invocation are those of the generated set,
    each made at most once: when [generateFaviconFiles] returned [files]
    and [outputDir] is a string, the Buffer writes are, up to their order,
    among the writes of [files] to [path.join(outputDir, name)], each with
    the file's content; when the invocation ends normally they are all of
    them, with nothing written twice. *)
Theorem favicon_writes_are_the_generated_files E options dir m s ad files :
  let tr := (run (generateFavicons E options)).1 in
  get options "outputDir" = JStr dir ->
  In (EvGenerateFiles m s ad (Returns files)) tr ->
  List.filter is_favicon_write tr ⊆+ map (write_of E dir) files /\
  ((run (generateFavicons E options)).2 = Ok tt ->
   List.filter is_favicon_write tr ≡ₚ map (write_of E dir) files).
Proof.
  intros tr Hod Hin. subst tr.
  destruct (step7_of_invocation E options m s ad files is_favicon_write
              ltac:(by left) Hin) as (t & -> & Hok).
  cbv zeta in Hok. rewrite Hod in *.
  destruct (persistFiles_writes E (get options "hooks") dir files t) as [H1 H2].
  split; [done|]. intros H. by apply H2, Hok.
Qed.

Lemma favicon_writes_are_the_generated_files_witness :
  let E := Samples.world [] in
  let tr := (run (generateFavicons E (Samples.request 1))).1 in
  List.filter is_favicon_write tr ⊆+ map (write_of E "out") Samples.sample_files /\
  ((run (generateFavicons E (Samples.request 1))).2 = Ok tt ->
   List.filter is_favicon_write tr ≡ₚ map (write_of E "out") Samples.sample_files).
Proof.
  apply (favicon_writes_are_the_generated_files (Samples.world [])
           (Samples.request 1) "out" {| icon := JStr "<svg/>" |}
           (faviconSettings (Samples.request 1)) (JRef 9) Samples.sample_files).
  - reflexivity.
  - vm_compute. do 5 right. left. reflexivity.
Defined.

Lemma start_tasks_quiet E od entries :
  Forall (fun ev => is_hook_call ev = false) (start_tasks E od entries).1.
Proof.
  induction entries as [|[f c] entries IH]; simpl; [constructor|].
  destruct (start_tasks E od entries) as [evs' ts]. simpl in *.
  destruct od; simpl; try done. destruct c; simpl; try done; by constructor.
Qed.

Lemma persistFiles_no_hook E hooks od files tr :
  hook_slot E hooks OnFileWritten = None ->
  List.filter is_hook_call (persistFiles E hooks od files tr).1 = [].
Proof.
  intros Hslot.
  destruct od as [| | | |dir|];
    try (match goal with |- context [persistFiles E hooks ?o files tr] =>
           pose proof (persistFiles_outcome E hooks o files tr) as H
         end;
         simpl in H; by rewrite H).
  destruct (persistFiles_invariant E hooks dir files
              (fun evs _ => List.filter is_hook_call evs = [])) with (tr := tr)
    as (ts & H & _); [| |done].
  - apply filter_none, start_tasks_quiet.
  - intros evs ts i t tr' Hevs _. rewrite List.filter_app, Hevs. simpl.
    destruct t as [tg b|tg d|r]; simpl; try done.
    destruct (fs_writeFile E tr' _ _) as [[]|v]; simpl; [|done].
    rewrite callHook_unfold, Hslot. done.
Qed.

Lemma filter_sub {A} (f g : A -> bool) l :
  (forall x, f x = true -> g x = true) ->
  List.filter g l = [] -> List.filter f l = [].
Proof.
  intros Hfg Hg. apply filter_none. apply Forall_forall. intros x Hx.
  destruct (f x) eqn:Hf; [|done]. apply list_elem_of_In in Hx.
  by destruct (in_filter_true g l x Hx (Hfg x Hf)).
Qed.

Lemma reports_are_calls evs :
  first_failure evs = None ->
  List.filter (is_call_of OnFileWritten) evs = List.filter is_file_report evs.
Proof.
  rewrite first_failure_None. induction 1 as [|ev evs Hev _ IH]; simpl; [done|].
  rewrite IH. by destruct ev as [[] ? []| | | | | | | | |].
Qed.

(** [onFileWritten] is called once per generated file: never more often
    than there are files in the set [generateFaviconFiles] returned, and,
    when the invocation ends normally, exactly as often if the hook is
    given (and never if it is not). *)
Theorem onFileWritten_is_called_once_per_file E options m s ad files :
  let tr := (run (generateFavicons E options)).1 in
  In (EvGenerateFiles m s ad (Returns files)) tr ->
  count (is_call_of OnFileWritten) tr <= length files /\
  ((run (generateFavicons E options)).2 = Ok tt ->
   count (is_call_of OnFileWritten) tr
   = match hook_slot E (get options "hooks") OnFileWritten with
     | Some _ => length files
     | None => 0
     end).
Proof.
  intros tr Hin. subst tr. unfold count.
  destruct (step7_of_invocation E options m s ad files (is_call_of OnFileWritten)
              ltac:(by right) Hin) as (t & -> & Hok).
  cbv zeta in Hok. set (hooks := get options "hooks") in *.
  pose proof (persistFiles_outcome E hooks (get options "outputDir") files t)
    as Hout.
  destruct (get options "outputDir") as [| | | |dir|];
    try (rewrite Hout in *; simpl; split; [lia|]; intros H; specialize (Hok H);
         simpl in Hok; destruct files; [by destruct (hook_slot _ _ _)|done]).
  split; [apply persistFiles_calls|].
  intros H. specialize (Hok H).
  destruct (hook_slot E hooks OnFileWritten) as [f|] eqn:Hslot.
  - rewrite reports_are_calls.
    + by apply (persistFiles_reports E hooks dir f).
    + rewrite Hok in Hout.
      by destruct (first_failure _) as [[[? ?] ?]|].
  - rewrite (filter_sub _ is_hook_call); [done| |by apply persistFiles_no_hook].
    by intros [[]| | | | | | | | |].
Qed.

Lemma onFileWritten_is_called_once_per_file_witness :
  let E := Samples.world [] in
  let tr := (run (generateFavicons E (Samples.request 1))).1 in
  count (is_call_of OnFileWritten) tr <= 3 /\
  ((run (generateFavicons E (Samples.request 1))).2 = Ok tt ->
   count (is_call_of OnFileWritten) tr = 3).
Proof.
  apply (onFileWritten_is_called_once_per_file (Samples.world [])
           (Samples.request 1) {| icon := JStr "<svg/>" |}
           (faviconSettings (Samples.request 1)) (JRef 9) Samples.sample_files).
  vm_compute. do 5 right. left. reflexivity.
Defined.

(** *** The copy of favicon.ico *)

Lemma persistFiles_written E hooks dir files tr :
  (persistFiles E hooks (JStr dir) files tr).2 = Ok tt ->
  Forall (written E hooks dir (persistFiles E hooks (JStr dir) files tr).1) files.
Proof.
  intros Hok.
  destruct (persistFiles_invariant E hooks dir files
              (fun evs ts => Forall2 (task_of E hooks dir evs) files ts))
    with (tr := tr) as (ts & H & _ & Hdone).
  - apply start_tasks_task_of.
  - intros evs ts i t tr' Hinv Hi.
    destruct (Forall2_lookup_r _ _ _ _ _ Hinv Hi) as (entry & Hentry & Ht).
    rewrite <- (list_insert_id files i entry) by done.
    apply Forall2_insert; [|by apply step_task_task_of].
    eapply Forall2_impl; [exact Hinv|]. intros ? ? ?. by apply task_of_mono.
  - specialize (Hdone Hok). apply Forall_lookup. intros i entry Hi.
    destruct (Forall2_lookup_l _ _ _ _ _ H Hi) as (t & Ht & Htask).
    eapply Forall_lookup in Hdone; [|exact Ht]. by subst t.
Qed.

Lemma written_incl E hooks dir evs evs' entry :
  (forall ev, In ev evs -> In ev evs') ->
  written E hooks dir evs entry -> written E hooks dir evs' entry.
Proof. intros H. apply (task_of_incl E hooks dir evs evs' entry (TDone (Ok tt)) H). Qed.

Lemma copyIco_unfold E hooks od copy root tr :
  copyIco E hooks od copy root tr =
  if truthy copy then
    if truthy root then
      match od, root with
      | JStr x, JStr y =>
          let src := join E x "favicon.ico" in
          let dst := join E y "favicon.ico" in
          let a := fs_copyFile E tr src dst in
          match a with
          | Throws v => ([EvCopyFile src dst a], Err (Thrown v))
          | Returns _ =>
              let h := callHook E hooks OnIcoCopied [JStr dst]
                         (tr ++ [EvCopyFile src dst a]) in
              (EvCopyFile src dst a :: h.1, h.2)
          end
      | _, _ => ([], Err (TypeError "path.join"))
      end
    else ([], Err (ConfigError RootDirRequired))
  else ([], Ok tt).
Proof.
  unfold copyIco. destruct (truthy copy); [|done].
  destruct (truthy root) eqn:Hr; simpl; [|done].
  unfold bind, path_join, perform, ret, throw.
  destruct od; try done.
  destruct root; try done. simpl. rewrite ?app_nil_r.
  destruct (fs_copyFile E _ _ _) as [[]|v]; simpl; [|done].
  by destruct (callHook E hooks OnIcoCopied _ _).
Qed.

Lemma split_unique {A} (f : A -> bool) a x b tr1 y tr2 :
  List.filter f a = [] -> List.filter f b = [] -> f y = true ->
  a ++ x :: b = tr1 ++ y :: tr2 -> tr1 = a /\ y = x /\ tr2 = b.
Proof.
  intros Ha Hb Hy. revert tr1. induction a as [|z a IH]; intros tr1 Heq.
  - destruct tr1 as [|z tr1]; simpl in Heq.
    + by injection Heq as -> ->.
    + injection Heq as -> ->.
      assert (In y (tr1 ++ y :: tr2)) as Hin by (apply in_or_app; right; by left).
      pose proof (not_in_kind f _ _ Hb Hin). congruence.
  - simpl in Ha. destruct (f z) eqn:Hz; [done|].
    destruct tr1 as [|z' tr1]; simpl in Heq.
    + injection Heq as -> _. congruence.
    + injection Heq as -> Heq. destruct (IH Ha tr1 Heq) as (-> & -> & ->). done.
Qed.

Lemma filesPhase_copy E options tr src dst a :
  let f := filesPhase E options tr in
  let hooks := get options "hooks" in
  In (EvCopyFile src dst a) f.1 ->
  exists dir svg ad files pevs rest,
    get options "outputDir" = JStr dir /\
    truthy (get options "copyIcoToRoot") = true /\
    f.1 = ([EvMkdir (JStr dir) (Returns tt);
            EvLoadSvg (get options "source") (Returns svg);
            EvGetAdapter (Returns ad);
            EvGenerateFiles {| icon := svg |} (faviconSettings options) ad
                            (Returns files)] ++ pevs)
          ++ EvCopyFile src dst a :: rest /\
    Forall (fun ev => is_step7 ev = true) pevs /\
    Forall (written E hooks dir pevs) files /\
    Forall (fun ev => is_call_of OnIcoCopied ev = true) rest.
Proof.
  intros f hooks. subst f. rewrite filesPhase_unfold. cbv zeta.
  destruct (fs_mkdir E tr _) as [[]|v]; simpl.
  2: { intros [|[]]; done. }
  destruct (loadAndConvertToSvg E _ _) as [svg|v]; simpl.
  2: { intros [|[|[]]]; done. }
  destruct (getNodeImageAdapter E _) as [ad'|v]; simpl.
  2: { intros [|[|[|[]]]]; done. }
  destruct (generateFaviconFiles E _ _ _ _) as [files'|v]; simpl.
  2: { intros [|[|[|[|[]]]]]; done. }
  fold hooks.
  match goal with |- context [persistFiles E hooks ?o _ ?t] =>
    pose proof (persistFiles_outcome E hooks o files' t) as Hout;
    pose proof (emits_persistFiles E (fun ev => is_step7 ev = true)
                  ltac:(done) hooks o files' t) as Hstep7;
    pose proof (fun dir => persistFiles_written E hooks dir files' t) as Hwritten;
    destruct (persistFiles E hooks o files' t) as [pevs [[]|e]] eqn:Hp
  end; simpl in *.
  2: { intros [H|[H|[H|[H|H]]]]; try done.
       eapply Forall_forall in Hstep7; [|by apply list_elem_of_In]. done. }
  rewrite copyIco_unfold.
  destruct (truthy (get options "copyIcoToRoot")) eqn:Hc.
  2: { simpl. rewrite app_nil_r. intros [H|[H|[H|[H|H]]]]; try done.
       eapply Forall_forall in Hstep7; [|by apply list_elem_of_In]. done. }
  assert (forall l, In (EvCopyFile src dst a) (pevs ++ l) ->
                    In (EvCopyFile src dst a) l) as Hin.
  { intros l H. apply in_app_or in H as [H|H]; [|done].
    eapply Forall_forall in Hstep7; [|by apply list_elem_of_In]. done. }
  destruct (truthy (get options "rootDir")) eqn:Hr.
  2: { simpl. intros [H|[H|[H|[H|H]]]]; try done. by apply Hin in H. }
  destruct (get options "outputDir") as [| | | |dir|] eqn:Hod;
    try (simpl; intros [H|[H|[H|[H|H]]]]; try done; by apply Hin in H).
  destruct (get options "rootDir") as [| | | |root|] eqn:Hroot;
    try (simpl; intros [H|[H|[H|[H|H]]]]; try done; by apply Hin in H).
  cbv zeta. specialize (Hwritten dir). rewrite Hp in Hwritten. simpl in Hwritten.
  specialize (Hwritten eq_refl).
  destruct (fs_copyFile E _ _ _) as [[]|v]; simpl.
  - intros [H|[H|[H|[H|H]]]]; try done. apply Hin in H as [H|H].
    + injection H as <- <- <-.
      exists dir, svg, ad', files', pevs. eexists.
      split; [done|]. split; [done|]. split; [reflexivity|].
      split; [done|]. split; [done|]. apply callHook_kind.
    + pose proof (callHook_kind E hooks OnIcoCopied
                    [JStr (join E root "favicon.ico")]) as Hk.
      eapply Forall_forall in Hk; [|apply list_elem_of_In; exact H]. done.
  - intros [H|[H|[H|[H|H]]]]; try done. apply Hin in H as [H|[]].
    injection H as <- <- <-.
    exists dir, svg, ad', files', pevs, [].
    split; [done|]. split; [done|]. split; [reflexivity|].
    split; [done|]. split; [done|]. constructor.
Qed.

(** [favicon.ico] is copied only once step 7 is over: when [fs.copyFile] is
    called, [copyIcoToRoot] is set, [generateFaviconFiles] has returned a
    file set, every file of it has been written under [outputDir] (the
    write returned and [onFileWritten], if any, was called), and no favicon
    write or [onFileWritten] call comes after it. *)
Theorem ico_copy_follows_every_write E options tr1 src dst a tr2 :
  (run (generateFavicons E options)).1 = tr1 ++ EvCopyFile src dst a :: tr2 ->
  truthy (get options "copyIcoToRoot") = true /\
  (exists dir svg ad files,
     get options "outputDir" = JStr dir /\
     In (EvGenerateFiles {| icon := svg |} (faviconSettings options) ad
                         (Returns files)) tr1 /\
     Forall (written E (get options "hooks") dir tr1) files) /\
  List.filter (fun ev => is_favicon_write ev || is_call_of OnFileWritten ev) tr2 = [].
Proof.
  intros Htr.
  destruct (generateFavicons_trace E options)
    as (sevs & pevs & fevs & hevs & Heq & Hs & Hp & Hf & Hh).
  rewrite Heq in Htr.
  assert (In (EvCopyFile src dst a) (sevs ++ pevs ++ fevs ++ hevs)) as Hin.
  { rewrite Htr. apply in_or_app. right. by left. }
  assert (forall f : Event -> bool,
            (forall ev, is_call_of OnStart ev = true -> f ev = false) ->
            List.filter f sevs = []) as Hsf by (intros f; by apply filter_kinds).
  assert (forall f : Event -> bool,
            (forall ev, is_probe ev = true -> f ev = false) ->
            List.filter f pevs = []) as Hpf by (intros f; by apply filter_kinds).
  assert (forall f : Event -> bool,
            (forall ev, html_event E options ev -> f ev = false) ->
            List.filter f hevs = []) as Hhf.
  { intros f Hf'. apply filter_none. eapply Forall_impl; [exact Hh|]. exact Hf'. }
  assert (In (EvCopyFile src dst a) fevs) as Hinf.
  { apply in_app_or in Hin as [Hin|Hin].
    { by pose proof (not_in_kind is_copy _ _ (Hsf is_copy ltac:(by intros [])) Hin). }
    apply in_app_or in Hin as [Hin|Hin].
    { by pose proof (not_in_kind is_copy _ _ (Hpf is_copy ltac:(by intros [])) Hin). }
    apply in_app_or in Hin as [Hin|Hin]; [done|].
    by pose proof (not_in_kind is_copy _ _ (Hhf is_copy ltac:(html_kind)) Hin). }
  destruct Hf as [->|[-> _]]; [done|].
  destruct (filesPhase_copy E options _ src dst a Hinf)
    as (dir & svg & ad & files & wevs & rest & Hod & Hc & Hfevs & H7 & Hw & Hrest).
  rewrite Hfevs in Htr. clear Hfevs Hinf Hin Heq.
  set (pre := [EvMkdir (JStr dir) (Returns tt);
               EvLoadSvg (get options "source") (Returns svg);
               EvGetAdapter (Returns ad);
               EvGenerateFiles {| icon := svg |} (faviconSettings options) ad
                               (Returns files)]) in *.
  assert ((sevs ++ pevs ++ pre ++ wevs) ++ EvCopyFile src dst a :: (rest ++ hevs)
          = tr1 ++ EvCopyFile src dst a :: tr2) as Hsplit.
  { rewrite <- Htr. by rewrite <- !app_assoc. }
  apply (split_unique is_copy) in Hsplit as (-> & _ & ->); [| | |done].
  - split; [done|]. split.
    + exists dir, svg, ad, files. split; [done|]. split.
      * apply in_or_app. right. apply in_or_app. right. apply in_or_app. left.
        do 3 right. by left.
      * eapply Forall_impl; [exact Hw|]. intros entry. apply written_incl.
        intros ev Hev. apply in_or_app. right. apply in_or_app. right.
        apply in_or_app. by right.
    + rewrite List.filter_app.
      rewrite (filter_kinds _ _ _ Hrest) by (by intros [[]| | | | | | | | | ]).
      by rewrite Hhf by html_kind.
  - rewrite !List.filter_app. rewrite Hsf by (by intros []).
    rewrite Hpf by (by intros []). simpl.
    apply filter_none. eapply Forall_impl; [exact H7|]. by intros [].
  - rewrite List.filter_app.
    rewrite (filter_kinds _ _ _ Hrest) by (by intros [[]| | | | | | | | | ]).
    by rewrite Hhf by html_kind.
Qed.

Lemma ico_copy_follows_every_write_witness :
  let E := Samples.world [] in
  let options := Samples.request_copy 1 in
  let tr := (run (generateFavicons E options)).1 in
  truthy (get options "copyIcoToRoot") = true /\
  (exists dir svg ad files,
     get options "outputDir" = JStr dir /\
     In (EvGenerateFiles {| icon := svg |} (faviconSettings options) ad
                         (Returns files)) (take 15 tr) /\
     Forall (written E (get options "hooks") dir (take 15 tr)) files) /\
  List.filter (fun ev => is_favicon_write ev || is_call_of OnFileWritten ev)
              (drop 16 tr) = [].
Proof.
  apply (ico_copy_follows_every_write (Samples.world []) (Samples.request_copy 1)
           (take 15 (run (generateFavicons (Samples.world [])
                                           (Samples.request_copy 1))).1)
           "out/favicon.ico" "static/favicon.ico" (Returns tt)
           (drop 16 (run (generateFavicons (Samples.world [])
                                           (Samples.request_copy 1))).1)).
  vm_compute. reflexivity.
Defined.

(** Nothing is copied unless asked for: with [copyIcoToRoot] unset or
    falsy, no invocation calls [fs.copyFile] or [onIcoCopied], whatever
    [rootDir] holds. *)
Theorem no_copy_unless_requested E options :
  truthy (get options "copyIcoToRoot") = false ->
  List.filter is_ico_copy (run (generateFavicons E options)).1 = [].
Proof.
  intros Hc. apply filter_none.
  apply (fun H : emits (fun ev => is_ico_copy ev = false)
                       (generateFavicons E options) => H []).
  unfold generateFavicons, assetGeneration, probe, filesPhase, copyIco, htmlPhase.
  cbv zeta. rewrite Hc. repeat emits_step; try done.
  by match goal with h : HookName |- _ => destruct h end.
Qed.

Lemma no_copy_unless_requested_witness :
  List.filter is_ico_copy
    (run (generateFavicons (Samples.world []) (Samples.request 1))).1 = [].
Proof.
  apply (no_copy_unless_requested (Samples.world []) (Samples.request 1)).
  vm_compute. reflexivity.
Defined.

(** *** The markup file *)

(** The markup is put on disk only when asked for: with [htmlOutput] unset
    or empty, no invocation writes a text file or calls [onHtmlWritten], and
    the only directory it may create is [outputDir]. *)
Theorem no_html_file_unless_requested E options :
  truthy (get options "htmlOutput") = false ->
  List.filter is_html_output (run (generateFavicons E options)).1 = [] /\
  Forall (fun ev => is_mkdir ev = true ->
            exists a, ev = EvMkdir (get options "outputDir") a)
         (run (generateFavicons E options)).1.
Proof.
  intros Hh. split.
  - apply filter_none.
    apply (fun H : emits (fun ev => is_html_output ev = false)
                         (generateFavicons E options) => H []).
    unfold generateFavicons, assetGeneration, probe, filesPhase, copyIco, htmlPhase.
    cbv zeta. rewrite Hh. repeat emits_step; try done.
    + by match goal with h : HookName |- _ => destruct h end.
    + by match goal with d : FileData |- _ => destruct d end.
  - apply (fun H : emits (fun ev => is_mkdir ev = true ->
                            exists a, ev = EvMkdir (get options "outputDir") a)
                         (generateFavicons E options) => H []).
    unfold generateFavicons, assetGeneration, probe, filesPhase, copyIco, htmlPhase.
    cbv zeta. rewrite Hh. repeat emits_step; try done.
    intros _. by eexists.
Qed.

Lemma no_html_file_unless_requested_witness :
  let E := Samples.world [] in
  let options := delete "htmlOutput" (Samples.request 1) in
  List.filter is_html_output (run (generateFavicons E options)).1 = [] /\
  Forall (fun ev => is_mkdir ev = true ->
            exists a, ev = EvMkdir (get options "outputDir") a)
         (run (generateFavicons E options)).1.
Proof.
  apply (no_html_file_unless_requested (Samples.world [])
           (delete "htmlOutput" (Samples.request 1))).
  vm_compute. reflexivity.
Defined.

(** A repeated build changes nothing on disk: when [skipIfExists] is in
    force, [fs.access] finds the output directory, the two hooks on the way
    return and no [htmlOutput] is given, the invocation consists of
    [onStart], [fs.access], [onSkipFiles] and [generateFaviconHtml]; it
    creates no directory, writes no file, copies nothing, and ends as
    [generateFaviconHtml] does. *)
Theorem repeated_build_is_read_only E options :
  let hooks := get options "hooks" in
  let od := get options "outputDir" in
  let s := callHook E hooks OnStart [] [] in
  let k := callHook E hooks OnSkipFiles [od] (s.1 ++ [EvAccess od (Returns tt)]) in
  let pre := s.1 ++ EvAccess od (Returns tt) :: k.1 in
  let g := generateFaviconHtml E pre (faviconSettings options) in
  truthy (get options "source") = true ->
  truthy od = true ->
  truthy (get_default options "skipIfExists" (JBool true)) = true ->
  s.2 = Ok tt ->
  fs_access E s.1 od = Returns tt ->
  k.2 = Ok tt ->
  truthy (get options "htmlOutput") = false ->
  run (generateFavicons E options)
  = (pre ++ [EvGenerateHtml (faviconSettings options) g],
     match g with Returns _ => Ok tt | Throws v => Err (Thrown v) end) /\
  List.filter is_mutation (run (generateFavicons E options)).1 = [].
Proof.
  intros hooks od s k pre g Hs Ho Hskip Hs2 Ha Hk2 Hh.
  pose proof (skip_path_run E options Hs Ho Hskip Hs2 Ha Hk2) as Hrun.
  cbv zeta in Hrun. fold hooks od s k pre in Hrun.
  rewrite htmlPhase_unfold in Hrun. cbv zeta in Hrun. fold g in Hrun.
  rewrite Hh in Hrun.
  assert (run (generateFavicons E options)
          = (pre ++ [EvGenerateHtml (faviconSettings options) g],
             match g with Returns _ => Ok tt | Throws v => Err (Thrown v) end))
    as Heq.
  { rewrite Hrun. by destruct g. }
  split; [exact Heq|]. rewrite Heq. simpl. subst pre.
  rewrite !List.filter_app. simpl. rewrite ?List.filter_app. simpl.
  unfold s, k. by rewrite !callHook_filter by done.
Qed.

Lemma repeated_build_is_read_only_witness :
  let E := Samples.world ["out"] in
  let options := delete "htmlOutput" (Samples.request 1) in
  let hooks := get options "hooks" in
  let od := get options "outputDir" in
  let s := callHook E hooks OnStart [] [] in
  let k := callHook E hooks OnSkipFiles [od] (s.1 ++ [EvAccess od (Returns tt)]) in
  let pre := s.1 ++ EvAccess od (Returns tt) :: k.1 in
  let g := generateFaviconHtml E pre (faviconSettings options) in
  run (generateFavicons E options)
  = (pre ++ [EvGenerateHtml (faviconSettings options) g],
     match g with Returns _ => Ok tt | Throws v => Err (Thrown v) end) /\
  List.filter is_mutation (run (generateFavicons E options)).1 = [].
Proof.
  apply (repeated_build_is_read_only (Samples.world ["out"])
           (delete "htmlOutput" (Samples.request 1)));
    vm_compute; reflexivity.
Defined.

(** *** The settings payload *)

(** Building a request from a settings object and orchestration fields and
    taking the settings back out is the identity: whatever the seven
    orchestration properties hold, and on whichever side they are spread,
    the generator libraries receive exactly the settings object. *)
Theorem settings_round_trip (settings orchestration : JsObject) :
  (forall k, k ∈ orchestration_keys -> settings !! k = None) ->
  (forall k, is_Some (orchestration !! k) -> k ∈ orchestration_keys) ->
  faviconSettings (orchestration ∪ settings) = settings /\
  faviconSettings (settings ∪ orchestration) = settings.
Proof.
  intros Hset Horch.
  assert (forall k, k ∉ orchestration_keys -> orchestration !! k = None) as Hnone.
  { intros k Hk. destruct (orchestration !! k) eqn:Hl; [|done].
    destruct Hk. apply Horch. by rewrite Hl. }
  split; apply map_eq; intros k; rewrite faviconSettings_lookup;
    case_bool_decide as Hk.
  - by rewrite Hset.
  - rewrite lookup_union, (Hnone k Hk). by destruct (settings !! k).
  - by rewrite Hset.
  - rewrite lookup_union, (Hnone k Hk). by destruct (settings !! k).
Qed.

Lemma settings_round_trip_witness :
  let settings : JsObject := <["path" := JStr "/favicons/"]> (<["icon" := JRef 7]> ∅) in
  let orchestration : JsObject :=
    <["source" := JStr "logo.png"]> (<["outputDir" := JStr "out"]>
    (<["skipIfExists" := JBool false]> ∅)) in
  faviconSettings (orchestration ∪ settings) = settings /\
  faviconSettings (settings ∪ orchestration) = settings.
Proof.
  apply (settings_round_trip
           (<["path" := JStr "/favicons/"]> (<["icon" := JRef 7]> ∅))
           (<["source" := JStr "logo.png"]> (<["outputDir" := JStr "out"]>
            (<["skipIfExists" := JBool false]> ∅)))).
  - intros k Hk. rewrite !lookup_insert_ne; [apply lookup_empty| |];
      intros <-; revert Hk; unfold orchestration_keys;
      rewrite !elem_of_cons, elem_of_nil; intros [|[|[|[|[|[|[|]]]]]]]; done.
  - intros k [v Hv]. unfold orchestration_keys. rewrite !elem_of_cons.
    destruct (decide (k = "source")) as [->|H1]; [tauto|].
    destruct (decide (k = "outputDir")) as [->|H2]; [tauto|].
    destruct (decide (k = "skipIfExists")) as [->|H3]; [tauto|].
    rewrite !lookup_insert_ne, lookup_empty in Hv by done. done.
Defined.

(** Two requests send the same settings to the generator libraries exactly
    when they agree on every property that is not an orchestration field;
    and taking the settings of a settings object changes nothing. *)
Theorem settings_depend_on_non_orchestration_fields_only (o1 o2 : JsObject) :
  (faviconSettings o1 = faviconSettings o2 <->
   forall k, k ∉ orchestration_keys -> o1 !! k = o2 !! k) /\
  faviconSettings (faviconSettings o1) = faviconSettings o1.
Proof.
  split; [split|].
  - intros Heq k Hk.
    assert (faviconSettings o1 !! k = faviconSettings o2 !! k) as H
      by (by rewrite Heq).
    rewrite !faviconSettings_lookup in H. by rewrite bool_decide_eq_false_2 in H.
  - intros H. apply map_eq. intros k. rewrite !faviconSettings_lookup.
    case_bool_decide; [done|]. by apply H.
  - apply map_eq. intros k. rewrite !faviconSettings_lookup.
    by case_bool_decide.
Qed.

(** *** What the generator reads of a request *)

Lemma generateFavicons_ext E o1 o2 tr :
  (forall k, k ∈ ["source"; "outputDir"; "htmlOutput"; "copyIcoToRoot"; "rootDir";
                  "hooks"] -> get o1 k = get o2 k) ->
  truthy (get_default o1 "skipIfExists" (JBool true))
  = truthy (get_default o2 "skipIfExists" (JBool true)) ->
  faviconSettings o1 = faviconSettings o2 ->
  generateFavicons E o1 tr = generateFavicons E o2 tr.
Proof.
  intros Hget Hskip Hset.
  unfold generateFavicons, assetGeneration, probe, filesPhase, htmlPhase.
  cbv zeta. rewrite Hskip, Hset.
  rewrite !(Hget "source"), !(Hget "outputDir"), !(Hget "htmlOutput"),
    !(Hget "copyIcoToRoot"), !(Hget "rootDir"), !(Hget "hooks");
    rewrite ?elem_of_cons; tauto.
Qed.

Lemma insert_skipIfExists_ext E options v tr :
  truthy (get_default options "skipIfExists" (JBool true)) = truthy v ->
  v <> JUndefined ->
  generateFavicons E options tr
  = generateFavicons E (<["skipIfExists" := v]> options) tr.
Proof.
  intros Hv Hu. apply generateFavicons_ext.
  - intros k Hk. unfold get. rewrite lookup_insert_ne; [done|].
    intros <-. revert Hk. rewrite !elem_of_cons, elem_of_nil.
    intros [|[|[|[|[|[|]]]]]]; done.
  - rewrite Hv. unfold get_default. rewrite lookup_insert_eq. by destruct v.
  - apply map_eq. intros k. rewrite !faviconSettings_lookup.
    destruct (bool_decide_reflect (k ∈ orchestration_keys)) as [Hk|Hk]; [done|].
    rewrite lookup_insert_ne; [done|]. intros <-. apply Hk.
    unfold orchestration_keys. rewrite !elem_of_cons. tauto.
Qed.

(** [skipIfExists] is read by its truthiness, and only a missing or
    [undefined] value gets the default: a request without it behaves as
    with [skipIfExists: true], and a request that gives any other value,
    [null] included, behaves as with the boolean that value converts to. *)
Theorem skipIfExists_defaults_to_true E options tr :
  (options !! "skipIfExists" = None \/ options !! "skipIfExists" = Some JUndefined ->
   generateFavicons E options tr
   = generateFavicons E (<["skipIfExists" := JBool true]> options) tr) /\
  (forall v,
     options !! "skipIfExists" = Some v -> v <> JUndefined ->
     generateFavicons E options tr
     = generateFavicons E (<["skipIfExists" := JBool (truthy v)]> options) tr).
Proof.
  split.
  - intros H. apply insert_skipIfExists_ext; [|done].
    unfold get_default. by destruct H as [-> | ->].
  - intros v Hv Hu. apply insert_skipIfExists_ext; [|done].
    unfold get_default. rewrite Hv. by destruct v as [| |[]| | |].
Qed.

(** *** How an invocation can end *)

Lemma filesPhase_config E options tr m :
  (filesPhase E options tr).2 = Err (ConfigError m) ->
  m = RootDirRequired /\
  truthy (get options "copyIcoToRoot") = true /\
  truthy (get options "rootDir") = false.
Proof.
  rewrite filesPhase_unfold. cbv zeta.
  destruct (fs_mkdir E tr _) as [[]|v]; simpl; [|done].
  destruct (loadAndConvertToSvg E _ _) as [svg|v]; simpl; [|done].
  destruct (getNodeImageAdapter E _) as [ad|v]; simpl; [|done].
  destruct (generateFaviconFiles E _ _ _ _) as [files|v]; simpl; [|done].
  match goal with |- context [persistFiles E ?h ?o _ ?t] =>
    pose proof (persistFiles_outcome_not_config E h o files t m) as Hp;
    destruct (persistFiles E h o files t) as [pevs [[]|e]]
  end; simpl in *; [|congruence].
  rewrite copyIco_unfold.
  destruct (truthy (get options "copyIcoToRoot")); [|done].
  destruct (truthy (get options "rootDir")); simpl; [|by intros [= <-]].
  destruct (get options "outputDir"); try done.
  destruct (get options "rootDir"); try done.
  cbv zeta. destruct (fs_copyFile E _ _ _) as [[]|v]; simpl; [|done].
  intros H. by apply callHook_outcome in H.
Qed.

Lemma generateFavicons_config E options m :
  (run (generateFavicons E options)).2 = Err (ConfigError m) ->
  match m with
  | SourceRequired => truthy (get options "source") = false
  | OutputDirRequired =>
      truthy (get options "source") = true /\
      truthy (get options "outputDir") = false
  | RootDirRequired =>
      truthy (get options "source") = true /\
      truthy (get options "outputDir") = true /\
      truthy (get options "copyIcoToRoot") = true /\
      truthy (get options "rootDir") = false
  end.
Proof.
  destruct (truthy (get options "source")) eqn:Hs.
  2: { unfold run, generateFavicons. rewrite Hs. simpl. by intros [= <-]. }
  destruct (truthy (get options "outputDir")) eqn:Ho.
  2: { unfold run, generateFavicons. rewrite Hs, Ho. simpl. by intros [= <-]. }
  assert ((run (generateFavicons E options)).2 = Err (ConfigError m) ->
          m = RootDirRequired /\
          truthy (get options "copyIcoToRoot") = true /\
          truthy (get options "rootDir") = false) as Hm.
  { destruct (generateFavicons_cases E options Hs Ho)
      as [[Hf ->]|[(_ & _ & ->)|[(_ & _ & Hf & ->)|(_ & _ & Hf & ->)]]]; simpl.
    - intros H. by apply callHook_outcome in H.
    - intros H. by apply htmlPhase_outcome in H.
    - apply filesPhase_config.
    - intros H. by apply htmlPhase_outcome in H. }
  intros H. destruct (Hm H) as (-> & ? & ?). done.
Qed.

(** The three configuration errors, exactly.  The invocation ends with the
    "source" error exactly when [source] is falsy, with the "outputDir"
    error exactly when [source] is given and [outputDir] is falsy, and with
    the "rootDir" error only when both are given, [copyIcoToRoot] is set
    and [rootDir] is falsy. *)
Theorem config_errors_characterised E options :
  let out := (run (generateFavicons E options)).2 in
  (out = Err (ConfigError SourceRequired) <->
   truthy (get options "source") = false) /\
  (out = Err (ConfigError OutputDirRequired) <->
   truthy (get options "source") = true /\
   truthy (get options "outputDir") = false) /\
  (out = Err (ConfigError RootDirRequired) ->
   truthy (get options "source") = true /\
   truthy (get options "outputDir") = true /\
   truthy (get options "copyIcoToRoot") = true /\
   truthy (get options "rootDir") = false).
Proof.
  cbv zeta. split; [|split].
  - split; [apply (generateFavicons_config E options SourceRequired)|].
    intros Hs. unfold run, generateFavicons. by rewrite Hs.
  - split; [apply (generateFavicons_config E options OutputDirRequired)|].
    intros [Hs Ho]. unfold run, generateFavicons. by rewrite Hs, Ho.
  - apply (generateFavicons_config E options RootDirRequired).
Qed.

Lemma callHook_no_type_error E hooks n args tr fn :
  (callHook E hooks n args tr).2 <> Err (TypeError fn).
Proof.
  rewrite callHook_unfold. destruct (hook_slot E hooks n) as [f|]; simpl; [|done].
  by destruct (f tr args).
Qed.

Lemma htmlPhase_no_type_error E options tr fn :
  path_like (get options "htmlOutput") ->
  (htmlPhase E options tr).2 <> Err (TypeError fn).
Proof.
  intros Hh. rewrite htmlPhase_unfold. cbv zeta.
  destruct (generateFaviconHtml E tr _) as [markups|v]; [|done].
  destruct (truthy (get options "htmlOutput")) eqn:Ht; [|done].
  destruct Hh as [Hh|[h Hh]]; [congruence|]. rewrite Hh.
  destruct (fs_mkdir E _ _) as [[]|v]; [|done].
  destruct (fs_writeFile E _ _ _) as [[]|v]; [|done].
  simpl. apply callHook_no_type_error.
Qed.

Lemma filesPhase_no_type_error E options dir tr fn :
  get options "outputDir" = JStr dir ->
  path_like (get options "rootDir") ->
  (filesPhase E options tr).2 <> Err (TypeError fn).
Proof.
  intros Hod Hroot. rewrite filesPhase_unfold. cbv zeta. rewrite Hod.
  destruct (fs_mkdir E tr _) as [[]|v]; simpl; [|done].
  destruct (loadAndConvertToSvg E _ _) as [svg|v]; simpl; [|done].
  destruct (getNodeImageAdapter E _) as [ad|v]; simpl; [|done].
  destruct (generateFaviconFiles E _ _ _ _) as [files|v]; simpl; [|done].
  match goal with |- context [persistFiles E ?h ?o _ ?t] =>
    pose proof (persistFiles_outcome E h o files t) as Hp;
    destruct (persistFiles E h o files t) as [pevs [[]|e]]
  end; simpl in *.
  2: { rewrite Hp. by destruct (first_failure pevs) as [[[? ?] ?]|]. }
  rewrite copyIco_unfold.
  destruct (truthy (get options "copyIcoToRoot")); [|done].
  destruct (truthy (get options "rootDir")) eqn:Hr; simpl; [|done].
  destruct Hroot as [Hroot|[root Hroot]]; [congruence|]. rewrite Hroot.
  cbv zeta. destruct (fs_copyFile E _ _ _) as [[]|v]; simpl; [|done].
  apply callHook_no_type_error.
Qed.

Lemma generateFavicons_no_type_error E options dir fn :
  get options "outputDir" = JStr dir ->
  path_like (get options "rootDir") ->
  path_like (get options "htmlOutput") ->
  (run (generateFavicons E options)).2 <> Err (TypeError fn).
Proof.
  intros Hod Hroot Hhtml.
  destruct (truthy (get options "source")) eqn:Hs.
  2: { unfold run, generateFavicons. by rewrite Hs. }
  destruct (truthy (get options "outputDir")) eqn:Ho.
  2: { unfold run, generateFavicons. by rewrite Hs, Ho. }
  destruct (generateFavicons_cases E options Hs Ho)
    as [[Hf ->]|[(_ & _ & ->)|[(_ & _ & Hf & ->)|(_ & _ & Hf & ->)]]]; simpl.
  - apply callHook_no_type_error.
  - by apply htmlPhase_no_type_error.
  - by eapply filesPhase_no_type_error.
  - by apply htmlPhase_no_type_error.
Qed.

(** A request of the declared type, with [source] and [outputDir] given
    and [rootDir] given when [copyIcoToRoot] is set, ends normally exactly
    when none of its calls outside the existence check throws; and it never
    ends with a TypeError of [node:path]. *)
Theorem valid_request_succeeds_iff_no_call_throws E options dir :
  truthy (get options "source") = true ->
  get options "outputDir" = JStr dir -> dir <> "" ->
  path_like (get options "rootDir") ->
  path_like (get options "htmlOutput") ->
  (truthy (get options "copyIcoToRoot") = true ->
   truthy (get options "rootDir") = true) ->
  let tr := (run (generateFavicons E options)).1 in
  let out := (run (generateFavicons E options)).2 in
  (out = Ok tt <-> first_failure tr = None) /\
  (forall fn, out <> Err (TypeError fn)).
Proof.
  intros Hs Hod Hdir Hroot Hhtml Hcopy. cbv zeta.
  assert (truthy (get options "outputDir") = true) as Ho.
  { rewrite Hod. simpl. by destruct dir. }
  pose proof (strict_generateFavicons E options []) as Hstrict.
  pose proof (explained_generateFavicons E options []) as Hexpl.
  pose proof (generateFavicons_config E options) as Hconfig.
  pose proof (fun fn => generateFavicons_no_type_error E options dir fn
                          Hod Hroot Hhtml) as Htype.
  unfold run in *. split; [|exact Htype]. split.
  - intros Hok. destruct (first_failure _) as [[[ev v] rest]|]; [|done].
    destruct Hstrict as [Hout _]. congruence.
  - intros Hnone.
    destruct (generateFavicons E options []).2 as [[]|[m|fn|v]] eqn:Hout; [done| | |].
    + specialize (Hconfig m eq_refl). destruct m.
      * congruence.
      * destruct Hconfig. congruence.
      * destruct Hconfig as (_ & _ & Hc & Hr). specialize (Hcopy Hc). congruence.
    + by destruct (Htype fn).
    + by destruct (Hexpl v eq_refl).
Qed.

Lemma valid_request_succeeds_iff_no_call_throws_witness :
  let E := Samples.world [] in
  let options := Samples.request_copy 1 in
  ((run (generateFavicons E options)).2 = Ok tt <->
   first_failure (run (generateFavicons E options)).1 = None) /\
  (forall fn, (run (generateFavicons E options)).2 <> Err (TypeError fn)).
Proof.
  apply (valid_request_succeeds_iff_no_call_throws (Samples.world [])
           (Samples.request_copy 1) "out").
  - vm_compute. reflexivity.
  - vm_compute. reflexivity.
  - done.
  - right. by exists "static".
  - right. by exists "gen/favicons.html".
  - intros _. vm_compute. reflexivity.
Defined.

(** *** What the hooks are told *)

Lemma hooks_follow_quiet evs :
  Forall (fun ev => is_hook_call ev = false) evs -> hooks_follow evs.
Proof.
  intros Hq tr1 h args a tr2 Heq _. exfalso.
  apply (not_in_split (fun ev => is_hook_call ev = true) evs tr1
           (EvHook h args a) tr2); [|done|done].
  eapply Forall_impl; [exact Hq|]. intros ev Hev. by rewrite Hev.
Qed.

Lemma hooks_follow_app l1 l2 :
  hooks_follow l1 -> hooks_follow l2 -> hooks_follow (l1 ++ l2).
Proof.
  intros H1 H2 tr1 h args a tr2 Heq Hh.
  apply app_eq_app in Heq as (k & [[-> Hk]|[-> Hk]]).
  - destruct k as [|ev k]; simpl in Hk.
    + subst l2.
      destruct (H2 [] h args a tr2 eq_refl Hh) as (tr0 & prev & Hnil & _).
      by destruct tr0.
    + injection Hk as <- ->. destruct (H1 tr1 h args a k eq_refl Hh)
        as (tr0 & prev & -> & Hrep).
      by exists tr0, prev.
  - destruct (H2 k h args a tr2 Hk Hh) as (tr0 & prev & -> & Hrep).
    exists (l1 ++ tr0), prev. by rewrite app_assoc.
Qed.

Lemma hooks_follow_report ev h args a :
  is_hook_call ev = false -> reports h args ev ->
  hooks_follow [ev; EvHook h args a].
Proof.
  intros Hev Hrep tr1 h' args' a' tr2 Heq _.
  destruct tr1 as [|e1 [|e2 tr1]]; simpl in Heq.
  - injection Heq as -> _. done.
  - injection Heq as <- <- <- <- <-. by exists [], ev.
  - injection Heq as _ _ Heq. by destruct tr1.
Qed.

Lemma hooks_follow_call ev hooks E h args tr :
  is_hook_call ev = false -> reports h args ev ->
  hooks_follow (ev :: (callHook E hooks h args tr).1).
Proof.
  intros Hev Hrep. rewrite callHook_unfold.
  destruct (hook_slot E hooks h) as [f|]; simpl.
  - by apply hooks_follow_report.
  - apply hooks_follow_quiet. by repeat constructor.
Qed.

Lemma hooks_follow_onStart E hooks tr :
  hooks_follow (callHook E hooks OnStart [] tr).1.
Proof.
  rewrite callHook_unfold. destruct (hook_slot E hooks OnStart) as [f|]; simpl.
  - intros tr1 h args a tr2 Heq Hh. destruct tr1 as [|e1 tr1]; simpl in Heq.
    + by injection Heq as <- _ _ _.
    + injection Heq as _ Heq. by destruct tr1.
  - by apply hooks_follow_quiet.
Qed.

Lemma hooks_follow_probe E hooks od skip tr :
  hooks_follow (probe E hooks od skip tr).1.
Proof.
  rewrite probe_unfold. destruct (truthy skip); [|by apply hooks_follow_quiet].
  destruct (fs_access E tr od) as [[]|v]; simpl.
  - by apply hooks_follow_call.
  - apply hooks_follow_quiet. by repeat constructor.
Qed.

Lemma hooks_follow_step_task E hooks t tr :
  hooks_follow (step_task E hooks t tr).1.
Proof.
  destruct t as [tg b|tg d|r]; simpl.
  - apply hooks_follow_quiet. by repeat constructor.
  - destruct (fs_writeFile E tr _ _) as [[]|v] eqn:Hw; simpl.
    + pose proof (hooks_follow_call (EvWriteDone (JStr tg) (Returns tt)) hooks E
                    OnFileWritten [JStr tg]
                    (tr ++ [EvWriteDone (JStr tg) (Returns tt)])
                    eq_refl eq_refl) as H.
      by destruct (callHook E hooks OnFileWritten _ _).
    + apply hooks_follow_quiet. by repeat constructor.
  - by apply hooks_follow_quiet.
Qed.

Lemma hooks_follow_persistFiles E hooks od files tr :
  hooks_follow (persistFiles E hooks od files tr).1.
Proof.
  destruct od as [| | | |dir|];
    try (match goal with |- context [persistFiles E hooks ?o files tr] =>
           pose proof (persistFiles_outcome E hooks o files tr) as H
         end;
         simpl in H; rewrite H; by apply hooks_follow_quiet).
  destruct (persistFiles_invariant E hooks dir files
              (fun evs _ => hooks_follow evs)) with (tr := tr) as (ts & H & _).
  - apply hooks_follow_quiet. apply start_tasks_quiet.
  - intros evs ts i t tr' Hevs _. apply hooks_follow_app; [done|].
    apply hooks_follow_step_task.
  - done.
Qed.

Lemma hooks_follow_copyIco E hooks od copy root tr :
  hooks_follow (copyIco E hooks od copy root tr).1.
Proof.
  rewrite copyIco_unfold.
  destruct (truthy copy); [|by apply hooks_follow_quiet].
  destruct (truthy root); [|by apply hooks_follow_quiet].
  destruct od; try (by apply hooks_follow_quiet).
  destruct root; try (by apply hooks_follow_quiet).
  cbv zeta. destruct (fs_copyFile E _ _ _) as [[]|v]; simpl.
  - by apply hooks_follow_call.
  - apply hooks_follow_quiet. by repeat constructor.
Qed.

Lemma hooks_follow_filesPhase E options tr :
  hooks_follow (filesPhase E options tr).1.
Proof.
  rewrite filesPhase_unfold. cbv zeta.
  destruct (fs_mkdir E tr _) as [[]|v]; simpl.
  2: { apply hooks_follow_quiet. by repeat constructor. }
  destruct (loadAndConvertToSvg E _ _) as [svg|v]; simpl.
  2: { apply hooks_follow_quiet. by repeat constructor. }
  destruct (getNodeImageAdapter E _) as [ad|v]; simpl.
  2: { apply hooks_follow_quiet. by repeat constructor. }
  destruct (generateFaviconFiles E _ _ _ _) as [files|v]; simpl.
  2: { apply hooks_follow_quiet. by repeat constructor. }
  match goal with |- context [persistFiles E ?h ?o _ ?t] =>
    pose proof (hooks_follow_persistFiles E h o files t) as Hp;
    destruct (persistFiles E h o files t) as [pevs [[]|e]]
  end; simpl in *.
  - match goal with |- context [copyIco E ?h ?o ?c ?r ?t] =>
      pose proof (hooks_follow_copyIco E h o c r t) as Hc;
      destruct (copyIco E h o c r t) as [cevs cr]
    end; simpl in *.
    apply (hooks_follow_app [_; _; _; _]); [|by apply hooks_follow_app].
    apply hooks_follow_quiet. by repeat constructor.
  - apply (hooks_follow_app [_; _; _; _]); [|done].
    apply hooks_follow_quiet. by repeat constructor.
Qed.

Lemma hooks_follow_htmlPhase E options tr :
  hooks_follow (htmlPhase E options tr).1.
Proof.
  rewrite htmlPhase_unfold. cbv zeta.
  destruct (generateFaviconHtml E tr _) as [markups|v].
  2: { apply hooks_follow_quiet. by repeat constructor. }
  destruct (truthy (get options "htmlOutput")).
  2: { apply hooks_follow_quiet. by repeat constructor. }
  destruct (get options "htmlOutput") as [| | | |h|];
    try (apply hooks_follow_quiet; by repeat constructor).
  destruct (fs_mkdir E _ _) as [[]|v].
  2: { apply hooks_follow_quiet. by repeat constructor. }
  destruct (fs_writeFile E _ _ _) as [[]|v].
  2: { apply hooks_follow_quiet. by repeat constructor. }
  simpl. apply (hooks_follow_app [_; _; _]).
  { apply hooks_follow_quiet. by repeat constructor. }
  by apply hooks_follow_call.
Qed.

(** Every hook is told of work that is done.  [onStart] is the first event
    of an invocation and is called without arguments; every other hook
    call comes immediately after the call it reports has returned, with the
    path of that call: [onSkipFiles] after [fs.access], [onFileWritten]
    and [onHtmlWritten] after the completion of a write, [onIcoCopied]
    after [fs.copyFile], with the copy's target. *)
Theorem hooks_report_completed_work E options tr1 h args a tr2 :
  (run (generateFavicons E options)).1 = tr1 ++ EvHook h args a :: tr2 ->
  match h with
  | OnStart => tr1 = [] /\ args = []
  | _ => exists tr0 prev, tr1 = tr0 ++ [prev] /\ reports h args prev
  end.
Proof.
  intros Htr.
  destruct (truthy (get options "source")) eqn:Hs.
  2: { unfold run, generateFavicons in Htr. rewrite Hs in Htr. by destruct tr1. }
  destruct (truthy (get options "outputDir")) eqn:Ho.
  2: { unfold run, generateFavicons in Htr. rewrite Hs, Ho in Htr. by destruct tr1. }
  pose proof (generateFavicons_cases E options Hs Ho) as Hcases.
  cbv zeta in Hcases.
  set (hooks := get options "hooks") in *.
  set (sc := callHook E hooks OnStart [] []) in *.
  set (p := probe E hooks (get options "outputDir") _ sc.1) in *.
  assert (exists rest,
            (run (generateFavicons E options)).1 = sc.1 ++ rest /\
            hooks_follow rest /\
            List.filter (is_call_of OnStart) rest = []) as (rest & Heq & Hrest & Hno).
  { pose proof (hooks_follow_probe E hooks (get options "outputDir")
                  (get_default options "skipIfExists" (JBool true)) sc.1) as Hp.
    pose proof (probe_filter E hooks (get options "outputDir")
                  (get_default options "skipIfExists" (JBool true)) sc.1
                  (is_call_of OnStart) ltac:(done) ltac:(done)) as Hpf.
    fold p in Hp, Hpf.
    assert (forall t, List.filter (is_call_of OnStart) (htmlPhase E options t).1 = [])
      as Hhf by (intros t; apply htmlPhase_filter; html_kind).
    assert (forall t, List.filter (is_call_of OnStart) (filesPhase E options t).1 = [])
      as Hff.
    { intros t. apply filter_none.
      apply (fun H : emits (fun ev => is_call_of OnStart ev = false)
                       (filesPhase E options) => H t).
      unfold filesPhase, copyIco. cbv zeta. repeat emits_step; try done.
      by match goal with h : HookName |- _ => destruct h end. }
    destruct Hcases as [[_ ->]|[(_ & _ & ->)|[(_ & _ & _ & ->)|(_ & _ & _ & ->)]]];
      simpl.
    - exists []. rewrite app_nil_r. split; [done|]. split; [|done].
      by apply hooks_follow_quiet.
    - eexists. split; [reflexivity|]. split.
      + apply hooks_follow_app; [done|apply hooks_follow_htmlPhase].
      + by rewrite List.filter_app, Hpf, Hhf.
    - eexists. split; [reflexivity|]. split.
      + apply hooks_follow_app; [done|apply hooks_follow_filesPhase].
      + by rewrite List.filter_app, Hpf, Hff.
    - eexists. split; [reflexivity|]. split.
      + apply hooks_follow_app; [done|].
        apply hooks_follow_app;
          [apply hooks_follow_filesPhase|apply hooks_follow_htmlPhase].
      + by rewrite !List.filter_app, Hpf, Hff, Hhf. }
  rewrite Heq in Htr.
  pose proof (hooks_follow_app _ _ (hooks_follow_onStart E hooks []) Hrest
                tr1 h args a tr2 Htr) as Hfollow.
  destruct h; try (by apply Hfollow). clear Hfollow.
  unfold sc in Htr. rewrite callHook_unfold in Htr.
  destruct (hook_slot E hooks OnStart) as [f|]; simpl in Htr.
  - by destruct (split_unique (is_call_of OnStart) [] _ rest tr1
                   (EvHook OnStart args a) tr2 eq_refl Hno eq_refl Htr)
      as (-> & [= -> _] & _).
  - assert (In (EvHook OnStart args a) rest) as Hin.
    { rewrite Htr. apply in_or_app. right. by left. }
    by pose proof (not_in_kind _ _ _ Hno Hin).
Qed.

Lemma hooks_report_completed_work_witness :
  exists tr0 prev,
    [EvHook OnStart [] (Returns tt); EvAccess (JStr "out") (Returns tt)]
    = tr0 ++ [prev] /\
    reports OnSkipFiles [JStr "out"] prev.
Proof.
  apply (hooks_report_completed_work (Samples.world ["out"]) (Samples.request 1)
           [EvHook OnStart [] (Returns tt); EvAccess (JStr "out") (Returns tt)]
           OnSkipFiles [JStr "out"] (Returns tt)
           (drop 3 (run (generateFavicons (Samples.world ["out"])
                                          (Samples.request 1))).1)).
  vm_compute. reflexivity.
Defined.

(** *** The adapters and validation *)

(** A path that is not a string is rejected by [path.resolve] before the
    core generator is entered: when [source] or [outputDir] is not a string
    (for instance left out), or [rootDir] or [htmlOutput] is truthy and not
    a string, both adapters end with the TypeError of [path.resolve] and
    nothing has been called. *)
Theorem adapters_reject_paths_that_are_not_strings E options tr :
  is_string (get options "source") = false \/
  is_string (get options "outputDir") = false \/
  truthy (get options "rootDir") && negb (is_string (get options "rootDir")) = true \/
  truthy (get options "htmlOutput") && negb (is_string (get options "htmlOutput"))
  = true ->
  generateFaviconsNode E options tr = ([], Err (TypeError "path.resolve")) /\
  buildStart (realFavicon E options) tr = ([], Err (TypeError "path.resolve")).
Proof.
  intros H.
  assert (generateFaviconsNode E options tr = ([], Err (TypeError "path.resolve")))
    as Hn; [|by split].
  revert H;
    unfold generateFaviconsNode, resolved_options, resolve_optional, path_resolve,
      bind, ret, throw;
    destruct (get options "source") as [| | | |s|]; simpl;
    try (intros _; reflexivity);
    destruct (get options "outputDir") as [| | | |d|]; simpl;
    try (intros _; reflexivity);
    destruct (get options "rootDir") as [| |[]|n|r|]; simpl;
    try (intros _; reflexivity);
    try destruct (n =? 0)%Z; simpl; try (intros _; reflexivity);
    try destruct (String.eqb r ""); simpl;
    destruct (get options "htmlOutput") as [| |[]|n'|h|]; simpl;
    try (intros _; reflexivity);
    try destruct (n' =? 0)%Z; simpl; try (intros _; reflexivity);
    try destruct (String.eqb h ""); simpl;
    try (intros _; reflexivity);
    intros [|[|[|]]]; done.
Qed.

Lemma adapters_reject_paths_that_are_not_strings_witness :
  let E := Samples.world [] in
  let options := delete "source" (Samples.request 1) in
  generateFaviconsNode E options [] = ([], Err (TypeError "path.resolve")) /\
  buildStart (realFavicon E options) [] = ([], Err (TypeError "path.resolve")).
Proof.
  apply (adapters_reject_paths_that_are_not_strings (Samples.world [])
           (delete "source" (Samples.request 1)) []).
  left. vm_compute. reflexivity.
Defined.

Lemma resolved_options_paths E base options tr :
  (resolved_options E base options tr).1 = [] /\
  match (resolved_options E base options tr).2 with
  | Ok o =>
      exists s d,
        get options "source" = JStr s /\ get options "outputDir" = JStr d /\
        get o "source" = JStr (resolve E base s) /\
        get o "outputDir" = JStr (resolve E base d)
  | Err e => e = TypeError "path.resolve"
  end.
Proof.
  unfold resolved_options, resolve_optional, path_resolve, bind, ret, throw.
  destruct (get options "source") as [| | | |s|]; simpl; try done.
  destruct (get options "outputDir") as [| | | |d|]; simpl; try done.
  assert (forall (r h : JsVal),
            get (<["htmlOutput" := h]>
                 (<["rootDir" := r]>
                  (<["outputDir" := JStr (resolve E base d)]>
                   (<["source" := JStr (resolve E base s)]> options)))) "source"
            = JStr (resolve E base s) /\
            get (<["htmlOutput" := h]>
                 (<["rootDir" := r]>
                  (<["outputDir" := JStr (resolve E base d)]>
                   (<["source" := JStr (resolve E base s)]> options)))) "outputDir"
            = JStr (resolve E base d)) as Hget.
  { intros r h. unfold get. split.
    - rewrite !lookup_insert_ne by done. by rewrite lookup_insert_eq.
    - rewrite !lookup_insert_ne by done. by rewrite lookup_insert_eq. }
  destruct (truthy (get options "rootDir"));
    [destruct (get options "rootDir"); simpl; try done|simpl];
    (destruct (truthy (get options "htmlOutput"));
     [destruct (get options "htmlOutput"); simpl; try done|simpl]);
    (split; [done|]); exists s, d;
    (split; [done|]); (split; [done|]); apply Hget.
Qed.

(** Through the adapters the two "required" checks of the core cannot fail
    on strings: [path.resolve] turns [source] and [outputDir], even empty
    ones, into paths that are not empty, so neither adapter ends with the
    "source" or the "outputDir" error. *)
Theorem adapters_accept_any_string_source_and_outputDir E options s d :
  get options "source" = JStr s ->
  get options "outputDir" = JStr d ->
  resolve E (cwd E) s <> "" ->
  resolve E (cwd E) d <> "" ->
  forall m,
    (run (generateFaviconsNode E options)).2 = Err (ConfigError m) \/
    (run (buildStart (realFavicon E options))).2 = Err (ConfigError m) ->
    m = RootDirRequired.
Proof.
  intros Hs Hd Hrs Hrd m H.
  assert ((run (generateFaviconsNode E options)).2 = Err (ConfigError m)) as Hn
    by (by destruct H).
  clear H. unfold run, generateFaviconsNode in Hn. cbv zeta in Hn.
  rewrite bind_unfold in Hn.
  pose proof (resolved_options_paths E (cwd E) options []) as Hpaths.
  destruct (resolved_options E (cwd E) options []) as [evs [o|e]]; simpl in *.
  2: { destruct Hpaths as [_ ->]. done. }
  destruct Hpaths as (-> & s' & d' & Hs' & Hd' & Hos & Hod).
  rewrite Hs in Hs'. rewrite Hd in Hd'. injection Hs' as <-. injection Hd' as <-.
  simpl in Hn.
  pose proof (generateFavicons_config E o m Hn) as Hc.
  destruct m; [| |done].
  - rewrite Hos in Hc. simpl in Hc. by destruct (resolve E (cwd E) s).
  - destruct Hc as [_ Hc]. rewrite Hod in Hc. simpl in Hc.
    by destruct (resolve E (cwd E) d).
Qed.

Lemma adapters_accept_any_string_source_and_outputDir_witness :
  let E := Samples.world [] in
  let options := <["source" := JStr ""]> (Samples.request_copy_no_root 1) in
  (run (generateFavicons E options)).2 = Err (ConfigError SourceRequired) /\
  (run (generateFaviconsNode E options)).2 = Err (ConfigError RootDirRequired) /\
  RootDirRequired = RootDirRequired.
Proof.
  split; [vm_compute; reflexivity|]. split; [vm_compute; reflexivity|].
  apply (adapters_accept_any_string_source_and_outputDir (Samples.world [])
           (<["source" := JStr ""]> (Samples.request_copy_no_root 1))
           "" "out").
  - vm_compute. reflexivity.
  - vm_compute. reflexivity.
  - vm_compute. discriminate.
  - vm_compute. discriminate.
  - left. vm_compute. reflexivity.
Defined.

(** *** What follows the first failure *)

Lemma callHook_failure_last E hooks n args tr ev v rest :
  first_failure (callHook E hooks n args tr).1 = Some (ev, v, rest) ->
  rest = [] /\ is_call_of n ev = true.
Proof.
  rewrite callHook_unfold. destruct (hook_slot E hooks n) as [f|]; [|done].
  cbn [fst first_failure].
  destruct (failure (EvHook n args (f tr args))); [|done].
  intros [= <- _ <-]. by destruct n.
Qed.

Lemma htmlPhase_failure_last E options tr ev v rest :
  first_failure (htmlPhase E options tr).1 = Some (ev, v, rest) ->
  rest = [] /\ is_call_of OnFileWritten ev = false.
Proof.
  rewrite htmlPhase_unfold. cbv zeta.
  destruct (generateFaviconHtml E tr _) as [markups|w];
    [|by simpl; intros [= <- _ <-]].
  destruct (truthy (get options "htmlOutput")); [|done].
  destruct (get options "htmlOutput") as [| | | |h|]; try done.
  destruct (fs_mkdir E _ _) as [[]|w]; [|by simpl; intros [= <- _ <-]].
  destruct (fs_writeFile E _ _ _) as [[]|w]; [|by simpl; intros [= <- _ <-]].
  simpl. intros H. apply callHook_failure_last in H as [-> H].
  split; [done|]. by destruct ev as [[]| | | | | | | | |].
Qed.

Lemma strict_filesPhase E options : strict (filesPhase E options).
Proof. unfold filesPhase, copyIco. cbv zeta. repeat strict_step. Qed.

Lemma filesPhase_failure E options tr ev v rest :
  first_failure (filesPhase E options tr).1 = Some (ev, v, rest) ->
  rest = [] /\ is_call_of OnFileWritten ev = false \/
  exists dir svg ad files q,
    get options "outputDir" = JStr dir /\
    (filesPhase E options tr).1
    = [EvMkdir (JStr dir) (Returns tt);
       EvLoadSvg (get options "source") (Returns svg);
       EvGetAdapter (Returns ad);
       EvGenerateFiles {| icon := svg |} (faviconSettings options) ad
                       (Returns files)] ++ q ++ ev :: rest /\
    Forall (step7_of E dir files) (q ++ ev :: rest).
Proof.
  rewrite filesPhase_unfold. cbv zeta.
  destruct (fs_mkdir E tr _) as [[]|w]; [|by simpl; intros [= <- _ <-]; left].
  destruct (loadAndConvertToSvg E _ _) as [svg|w];
    [|by simpl; intros [= <- _ <-]; left].
  destruct (getNodeImageAdapter E _) as [ad|w];
    [|by simpl; intros [= <- _ <-]; left].
  destruct (generateFaviconFiles E _ _ _ _) as [files|w];
    [|by simpl; intros [= <- _ <-]; left].
  match goal with |- context [persistFiles E ?h ?o _ ?t] =>
    pose proof (persistFiles_outcome E h o files t) as Hout;
    pose proof (fun dir => persistFiles_from E h dir files t) as Hfrom;
    destruct (persistFiles E h o files t) as [pevs [[]|e]] eqn:Hp
  end; simpl in *.
  - (* step 7 ended normally: the failure is the copy's *)
    assert (first_failure pevs = None) as Hnone.
    { destruct (get options "outputDir"); try (by injection Hout as ->).
      by destruct (first_failure pevs) as [[[? ?] ?]|]. }
    rewrite copyIco_unfold.
    destruct (truthy (get options "copyIcoToRoot"));
      [|by rewrite app_nil_r, Hnone].
    destruct (truthy (get options "rootDir")); [|by rewrite app_nil_r, Hnone].
    destruct (get options "outputDir"); try (by rewrite app_nil_r, Hnone).
    destruct (get options "rootDir"); try (by rewrite app_nil_r, Hnone).
    cbv zeta. rewrite first_failure_app_None by done.
    destruct (fs_copyFile E _ _ _) as [[]|w]; simpl;
      [|by intros [= <- _ <-]; left].
    intros H. left. apply callHook_failure_last in H as [-> H].
    split; [done|]. by destruct ev as [[]| | | | | | | | |].
  - (* step 7 was rejected *)
    intros Hf.
    destruct (get options "outputDir") as [| | | |dir|] eqn:Hod;
      try (by injection Hout as -> _).
    right. apply first_failure_split in Hf as (q & -> & _ & _).
    exists dir, svg, ad, files, q. split; [done|]. split; [done|].
    specialize (Hfrom dir). by rewrite Hp in Hfrom.
Qed.

Lemma step7_of_not_after E dir files evs :
  Forall (step7_of E dir files) evs -> List.filter is_after_step7 evs = [].
Proof.
  intros H. apply filter_none. eapply Forall_impl; [exact H|].
  intros [[]| | | | | |p []| | |] Hev; simpl in *; done.
Qed.

Lemma generateFavicons_failure E options ev v rest :
  first_failure (run (generateFavicons E options)).1 = Some (ev, v, rest) ->
  rest = [] /\ is_call_of OnFileWritten ev = false \/
  exists dir svg ad files,
    get options "outputDir" = JStr dir /\
    In (EvGenerateFiles {| icon := svg |} (faviconSettings options) ad
                        (Returns files)) (run (generateFavicons E options)).1 /\
    Forall (step7_of E dir files) (ev :: rest) /\
    List.filter is_after_step7 (run (generateFavicons E options)).1 = [].
Proof.
  destruct (truthy (get options "source")) eqn:Hs.
  2: { unfold run, generateFavicons. by rewrite Hs. }
  destruct (truthy (get options "outputDir")) eqn:Ho.
  2: { unfold run, generateFavicons. by rewrite Hs, Ho. }
  pose proof (generateFavicons_cases E options Hs Ho) as Hcases.
  cbv zeta in Hcases.
  set (hooks := get options "hooks") in *.
  set (sc := callHook E hooks OnStart [] []) in *.
  set (p := probe E hooks (get options "outputDir") _ sc.1) in *.
  pose proof (probe_first_failure E hooks (get options "outputDir")
                (get_default options "skipIfExists" (JBool true)) sc.1) as Hp.
  fold p in Hp.
  pose proof (callHook_first_failure E hooks OnStart [] []) as Hsc. fold sc in Hsc.
  pose proof (callHook_filter E hooks OnStart [] [] is_after_step7 ltac:(done))
    as Hsa.
  pose proof (probe_filter E hooks (get options "outputDir")
                (get_default options "skipIfExists" (JBool true)) sc.1
                is_after_step7 ltac:(done) ltac:(done)) as Hpa.
  fold sc in Hsa. fold p in Hpa.
  destruct Hcases as [[_ ->]|[(Hs2 & _ & ->)|[(Hs2 & _ & _ & ->)|(Hs2 & _ & Hf2 & ->)]]];
    simpl.
  - intros H. left. apply callHook_failure_last in H as [-> H].
    split; [done|]. by destruct ev as [[]| | | | | | | | |].
  - rewrite !first_failure_app_None by auto.
    intros H. left. by eapply htmlPhase_failure_last.
  - rewrite !first_failure_app_None by auto. intros H.
    destruct (filesPhase_failure E options _ ev v rest H)
      as [?|(dir & svg & ad & files & q & Hod & Hfevs & H7)]; [by left|].
    right. exists dir, svg, ad, files. split; [done|]. rewrite Hfevs. split.
    + apply in_or_app. right. apply in_or_app. right. do 3 right. by left.
    + split.
      * apply Forall_app in H7 as [_ H7]. exact H7.
      * pose proof (step7_of_not_after E dir files _ H7) as Hq.
        rewrite List.filter_app in Hq.
        by rewrite !List.filter_app, Hsa, Hpa, Hq.
  - pose proof (strict_filesPhase E options (sc.1 ++ p.1)) as Hstrict.
    rewrite Hf2 in Hstrict.
    assert (first_failure (filesPhase E options (sc.1 ++ p.1)).1 = None) as Hnone.
    { destruct (first_failure (filesPhase E options (sc.1 ++ p.1)).1)
        as [[[? ?] ?]|]; [|done].
      by destruct Hstrict. }
    rewrite !first_failure_app_None by auto.
    intros H. left. by eapply htmlPhase_failure_last.
Qed.

(** The invocation ends with an exception from outside exactly when a call
    that no [try] encloses has thrown, and then with what the first such
    call threw.  Nothing is called after that call, with one exception: when
    it is a call of step 7 (the completion of a favicon write, or
    [onFileWritten]), the tasks of the other generated files, which nothing
    cancels, go on; then it and the events after it are Buffer writes, write
    completions and [onFileWritten] calls for files of the set
    [generateFaviconFiles] returned, under [outputDir], and the steps after
    step 7 (the copy, [generateFaviconHtml], the markup file) do not run in
    that invocation. *)
Theorem invocation_ends_with_first_uncaught_failure E options v :
  let tr := (run (generateFavicons E options)).1 in
  let out := (run (generateFavicons E options)).2 in
  (out = Err (Thrown v) -> exists ev rest, first_failure tr = Some (ev, v, rest)) /\
  (forall ev rest,
     first_failure tr = Some (ev, v, rest) ->
     out = Err (Thrown v) /\
     (rest = [] \/
      exists dir svg ad files,
        get options "outputDir" = JStr dir /\
        In (EvGenerateFiles {| icon := svg |} (faviconSettings options) ad
                            (Returns files)) tr /\
        Forall (step7_of E dir files) (ev :: rest) /\
        List.filter is_after_step7 tr = [])).
Proof.
  simpl. pose proof (strict_generateFavicons E options []) as Hstrict.
  pose proof (explained_generateFavicons E options [] v) as Hexpl.
  pose proof (generateFavicons_failure E options) as Hfail.
  unfold run in *. split.
  - intros Hv. specialize (Hexpl Hv).
    destruct (first_failure _) as [[[ev v'] rest]|]; [|done].
    destruct Hstrict as [Hout _]. rewrite Hout in Hv. injection Hv as ->.
    by exists ev, rest.
  - intros ev rest Hf. split.
    + rewrite Hf in Hstrict. by destruct Hstrict.
    + destruct (Hfail ev v rest Hf) as [[-> _]|H]; [by left|by right].
Qed.

(** *** Hooks that throw, [onSkipFiles] apart *)

Lemma first_failure_exists evs ev v :
  In ev evs -> failure ev = Some v ->
  exists ev0 v0 rest0, first_failure evs = Some (ev0, v0, rest0).
Proof.
  intros Hin Hv. destruct (first_failure evs) as [[[ev0 v0] rest0]|] eqn:Hf;
    [by eauto|].
  apply first_failure_None in Hf. eapply Forall_forall in Hf;
    [|apply list_elem_of_In; exact Hin]. congruence.
Qed.

(** The four hook calls that no [try] encloses.  A call of [onStart],
    [onIcoCopied] or [onHtmlWritten] that throws is the last event of the
    invocation and its exception the outcome.  A call of [onFileWritten]
    that throws makes the invocation fail; after it only the tasks of the
    other generated files go on (Buffer writes, write completions and
    [onFileWritten] calls for files of the set, under [outputDir]), the
    steps after step 7 do not run, and its exception is the outcome when
    nothing failed before it. *)
Theorem unguarded_hook_failure_aborts E options tr1 h args v tr2 :
  let tr := (run (generateFavicons E options)).1 in
  let out := (run (generateFavicons E options)).2 in
  tr = tr1 ++ EvHook h args (Throws v) :: tr2 ->
  h <> OnSkipFiles ->
  is_ok out = false /\
  (h <> OnFileWritten -> tr2 = [] /\ out = Err (Thrown v)) /\
  (h = OnFileWritten ->
   (exists dir svg ad files,
      get options "outputDir" = JStr dir /\
      In (EvGenerateFiles {| icon := svg |} (faviconSettings options) ad
                          (Returns files)) tr1 /\
      Forall (step7_of E dir files) tr2) /\
   List.filter is_after_step7 tr = [] /\
   (first_failure tr1 = None -> out = Err (Thrown v))).
Proof.
  intros tr out Htr Hh. subst tr out.
  pose proof (strict_generateFavicons E options []) as Hstrict.
  pose proof (generateFavicons_failure E options) as Hfail.
  unfold run in *.
  assert (failure (EvHook h args (Throws v)) = Some v) as Hv by by destruct h.
  destruct (first_failure_exists (generateFavicons E options []).1
              (EvHook h args (Throws v)) v) as (ev0 & v0 & rest0 & Hf0);
    [rewrite Htr; apply in_or_app; right; by left|done|].
  rewrite Hf0 in Hstrict. destruct Hstrict as [Hout _].
  split; [by rewrite Hout|].
  pose proof (first_failure_split _ _ _ _ Hf0) as (pre & Hpre & Hv0 & Hnone).
  (* where the first failure lies: at the hook, or before it *)
  assert (tr1 = pre /\ ev0 = EvHook h args (Throws v) /\ rest0 = tr2 /\ v0 = v \/
          exists k, tr1 = pre ++ ev0 :: k /\
                    rest0 = k ++ EvHook h args (Throws v) :: tr2) as Hpos.
  { rewrite Htr in Hpre. apply app_eq_app in Hpre as (k & [[Htr1 Hk]|[Hp Hk]]).
    - destruct k as [|e k]; simpl in Hk.
      + injection Hk as He Hr. subst ev0 rest0 tr1. left.
        rewrite app_nil_r. repeat split; try done. congruence.
      + injection Hk as He Hr. subst e rest0 tr1. right. by exists k.
    - destruct k as [|e k]; simpl in Hk.
      + injection Hk as He Hr. subst ev0 rest0 pre. left.
        rewrite app_nil_r. repeat split; try done. congruence.
      + injection Hk as He Hr. subst e pre. exfalso.
        rewrite first_failure_None in Hnone.
        apply Forall_app in Hnone as [_ Hnone].
        apply Forall_cons in Hnone as [Hnone _]. congruence. }
  destruct (Hfail ev0 v0 rest0 Hf0)
    as [[-> Hnot]|(dir & svg & ad & files & Hod & Hgen & H7 & Hafter)].
  - (* nothing follows the first failure: it is the hook itself *)
    destruct Hpos as [(-> & -> & <- & ->)|(k & _ & Hk)]; [|by destruct k].
    split.
    + intros _. by rewrite Hout.
    + intros ->. done.
  - (* the first failure is one of step 7 *)
    assert (Forall (step7_of E dir files) (EvHook h args (Throws v) :: tr2)) as H7'.
    { destruct Hpos as [(_ & <- & <- & _)|(k & _ & ->)]; [done|].
      apply Forall_cons in H7 as [_ H7]. by apply Forall_app in H7 as [_ H7]. }
    apply Forall_cons in H7' as [Hhook H7'].
    split.
    + intros Hn. by destruct h.
    + intros ->. split; [|split; [done|]].
      * exists dir, svg, ad, files. split; [done|]. split; [|done].
        rewrite Htr in Hgen. apply in_app_or in Hgen as [Hgen|[Hgen|Hgen]];
          [done|done|].
        eapply Forall_forall in H7'; [|apply list_elem_of_In; exact Hgen]. done.
      * intros Hf1.
        destruct Hpos as [(_ & _ & _ & ->)|(k & -> & _)]; [by rewrite Hout|].
        rewrite first_failure_None in Hf1.
        apply Forall_app in Hf1 as [_ Hf1].
        apply Forall_cons in Hf1 as [Hf1 _]. congruence.
Qed.

Lemma unguarded_hook_failure_aborts_witness :
  let E := Samples.world [] in
  let options := Samples.request 4 in
  let tr := (run (generateFavicons E options)).1 in
  let out := (run (generateFavicons E options)).2 in
  is_ok out = false /\
  (OnFileWritten <> OnFileWritten ->
   drop 11 tr = [] /\ out = Err (Thrown (JStr "hook failed"))) /\
  (OnFileWritten = OnFileWritten ->
   (exists dir svg ad files,
      get options "outputDir" = JStr dir /\
      In (EvGenerateFiles {| icon := svg |} (faviconSettings options) ad
                          (Returns files)) (take 10 tr) /\
      Forall (step7_of E dir files) (drop 11 tr)) /\
   List.filter is_after_step7 tr = [] /\
   (first_failure (take 10 tr) = None ->
    out = Err (Thrown (JStr "hook failed")))).
Proof.
  apply (unguarded_hook_failure_aborts (Samples.world []) (Samples.request 4)
           (take 10 (run (generateFavicons (Samples.world [])
                                           (Samples.request 4))).1)
           OnFileWritten [JStr "out/site.webmanifest"] (JStr "hook failed")
           (drop 11 (run (generateFavicons (Samples.world [])
                                           (Samples.request 4))).1)).
  - vm_compute. reflexivity.
  - done.
Defined.
